(** * LegisQ: the record store, code generator and search engine

    A shallow embedding of [database_ops.py], [admin_forms.py],
    [viewers_modules.py], [setup_schema.py], the session and router of
    [run.py] and [ai_services.py].

    Conventions of the model.
    - The SQLite file is a value of type [database]: five tables, each
      absent until [initialize_database] creates it, each with its rows in
      rowid order and its AUTOINCREMENT counter.
    - A handler of the Streamlit script takes the widget values of one run
      as a record and returns the new database and the banners it shows;
      an exception nobody catches is [inl], and leaves the file as it was
      but for what was committed before.
    - Text is a [string] holding the UTF-8 bytes of a Python [str]: [len]
      counts characters, not bytes.  SQLite's LOWER and LIKE fold the
      letters A-Z only, which is [Text.lower]; Python's [str.lower] and
      [str.upper] follow Unicode and are arguments of the model
      ([str_case]), known on ASCII text.
    - What the environment decides (the number the random generator gives,
      whether a PDF can be written) is an argument of the handler, and the
      sort behind pandas' [sort_values] is an argument of the viewers. *)

From Stdlib Require Import ZArith NArith Ascii String Lia Permutation.
From stdpp Require Import base decidable option list sorting gmap strings.

Local Open Scope string_scope.
Local Open Scope list_scope.

(** ** Text *)

Module Text.

Definition is_upper (c : ascii) : bool :=
  (65 <=? nat_of_ascii c)%nat && (nat_of_ascii c <=? 90)%nat.

Definition is_lower (c : ascii) : bool :=
  (97 <=? nat_of_ascii c)%nat && (nat_of_ascii c <=? 122)%nat.

Definition lower_char (c : ascii) : ascii :=
  if is_upper c then ascii_of_nat (nat_of_ascii c + 32) else c.

Definition upper_char (c : ascii) : ascii :=
  if is_lower c then ascii_of_nat (nat_of_ascii c - 32) else c.

(** SQL [LOWER(s)]: the letters A-Z are folded, every other byte is kept.
    It is also what [s.lower()] gives when [s] is ASCII text. *)
Fixpoint lower (s : string) : string :=
  match s with
  | EmptyString => EmptyString
  | String c s' => String (lower_char c) (lower s')
  end.

(** The letters a-z folded to A-Z: what [s.upper()] gives when [s] is
    ASCII text. *)
Fixpoint upper (s : string) : string :=
  match s with
  | EmptyString => EmptyString
  | String c s' => String (upper_char c) (upper s')
  end.

(** A text of ASCII characters: every byte is below 128. *)
Fixpoint is_ascii (s : string) : bool :=
  match s with
  | EmptyString => true
  | String c s' => (nat_of_ascii c <? 128)%nat && is_ascii s'
  end.

(** In UTF-8 a character is one byte below 128, or a lead byte of 192 or
    more followed by continuation bytes, the bytes from 128 to 191. *)
Definition is_continuation (c : ascii) : bool :=
  (128 <=? nat_of_ascii c)%nat && (nat_of_ascii c <=? 191)%nat.

(** [len(s)]: the number of characters, one for each byte that starts
    one. *)
Fixpoint len (s : string) : nat :=
  match s with
  | EmptyString => 0
  | String c s' => if is_continuation c then len s' else S (len s')
  end.

(** [s[:n]]: the first [n] characters, each with all its bytes. *)
Fixpoint first_chars (n : nat) (s : string) : string :=
  match s with
  | EmptyString => EmptyString
  | String c s' =>
      if is_continuation c then String c (first_chars n s')
      else
        match n with
        | O => EmptyString
        | S n' => String c (first_chars n' s')
        end
  end.

(** Python's truth value of a [str]: [if s:]. *)
Definition truthy (s : string) : bool :=
  match s with EmptyString => false | String _ _ => true end.

(** [needle in hay]. *)
Fixpoint contains (needle hay : string) : bool :=
  String.prefix needle hay
  || match hay with
     | EmptyString => false
     | String _ hay' => contains needle hay'
     end.

(** [needle] is a substring of [hay]: it occurs somewhere inside it. *)
Definition substring_of (needle hay : string) : Prop :=
  exists pre post, hay = pre +:+ needle +:+ post.

Definition digit_char (d : Z) : ascii := ascii_of_nat (48 + Z.to_nat d).

Fixpoint str_digits (fuel : nat) (n : Z) (acc : string) : string :=
  match fuel with
  | O => acc
  | S fuel' =>
      let acc' := String (digit_char (n mod 10)) acc in
      if (n / 10 =? 0)%Z then acc' else str_digits fuel' (n / 10) acc'
  end.

(** [str(n)] of a Python [int], as an f-string prints it. *)
Definition str_int (n : Z) : string :=
  let fuel := S (Z.to_nat (Z.log2 (Z.abs n))) in
  if (n <? 0)%Z then String "-" (str_digits fuel (- n) "")
  else str_digits fuel n "".

(** [str(x)] of a value that may be [None], as an f-string prints it. *)
Definition str_opt (o : option string) : string :=
  match o with Some s => s | None => "None" end.

Definition is_digit (c : ascii) : bool :=
  (48 <=? nat_of_ascii c)%nat && (nat_of_ascii c <=? 57)%nat.

Fixpoint all_digits (s : string) : bool :=
  match s with
  | EmptyString => true
  | String c s' => is_digit c && all_digits s'
  end.

(** ** SQLite's LIKE

    [%] matches any run of characters, [_] any one character; every other
    character matches itself, the letters A-Z and a-z without regard to
    case.  The queries of this program give no ESCAPE character.  The
    text is matched byte by byte, so that here [_] stands for one byte: for
    one character of ASCII text, where a character of several bytes takes
    as many [_]. *)
Fixpoint like (pattern text : string) : bool :=
  match pattern with
  | EmptyString =>
      match text with EmptyString => true | String _ _ => false end
  | String c pattern' =>
      if Ascii.eqb c "%" then
        (fix star (t : string) : bool :=
           like pattern' t
           || match t with
              | EmptyString => false
              | String _ t' => star t'
              end) text
      else
        match text with
        | EmptyString => false
        | String d text' =>
            (Ascii.eqb c "_" || Ascii.eqb (lower_char c) (lower_char d))
            && like pattern' text'
        end
  end.

(** A query without the two wildcard characters. *)
Fixpoint no_wildcard (s : string) : bool :=
  match s with
  | EmptyString => true
  | String c s' =>
      negb (Ascii.eqb c "%") && negb (Ascii.eqb c "_") && no_wildcard s'
  end.

(** A whitespace-only text: it is not empty and every character is a
    blank, a tab or a line break. *)
Definition is_space_char (c : ascii) : bool :=
  let n := nat_of_ascii c in
  (n =? 32)%nat || ((9 <=? n)%nat && (n <=? 13)%nat).

Fixpoint all_space (s : string) : bool :=
  match s with
  | EmptyString => true
  | String c s' => is_space_char c && all_space s'
  end.

Definition whitespace_only (s : string) : bool := truthy s && all_space s.

End Text.

(** ** The schema ([setup_schema.py]) *)

(** A row of [ministries] or of [states]. *)
Record meta_row := {
  meta_id : N;
  meta_code : string;
  meta_name : string
}.

(** A row of [bills].  A column is an [option] where the program stores
    [None] in it. *)
Record bill := {
  bill_id : N;
  bill_code : string;
  bill_name : string;
  bill_introduced_by : string;
  bill_ministry_code : option string;
  bill_legislative_body : string;
  bill_state_code : option string;
  bill_votes_favour : N;
  bill_votes_against : N;
  bill_current_status : string;
  bill_approval_status : option string;
  bill_approval_result : option string;
  bill_is_money_bill : bool;
  bill_pdf_path : option string;
  bill_introduced_date : string
}.

(** A row of [questions]. *)
Record question := {
  question_id : N;
  question_code : string;
  question_title : string;
  question_introduced_by : string;
  question_ministry_code : option string;
  question_legislative_body : string;
  question_state_code : option string;
  question_q_type : string;
  question_current_status : string;
  question_pdf_path : option string;
  question_introduced_date : string
}.

(** A row of [current_affairs]. *)
Record current_affair := {
  ca_id : N;
  ca_title : string;
  ca_description : string;
  ca_url : string;
  ca_pdf_path : option string;
  ca_published_date : string
}.

(** A table: its rows in rowid order, and the largest id it ever gave out
    (its line of [sqlite_sequence], kept because every [id] is
    [INTEGER PRIMARY KEY AUTOINCREMENT]). *)
Record table (R : Type) := {
  rows : list R;
  sqlite_sequence : N
}.
Arguments rows {R} _.
Arguments sqlite_sequence {R} _.

Definition empty_table {R : Type} : table R := {| rows := []; sqlite_sequence := 0 |}.

(** The file [legisq.db].  A table is [None] until it is created. *)
Record database := {
  ministries : option (table meta_row);
  states : option (table meta_row);
  bills : option (table bill);
  questions : option (table question);
  current_affairs : option (table current_affair)
}.

(** What [sqlite3.connect] gives for a file that does not exist yet. *)
Definition new_file : database :=
  {| ministries := None; states := None; bills := None;
     questions := None; current_affairs := None |}.

Inductive table_name :=
  | Ministries | States | Bills | Questions | CurrentAffairs.

Definition table_name_str (t : table_name) : string :=
  match t with
  | Ministries => "ministries"
  | States => "states"
  | Bills => "bills"
  | Questions => "questions"
  | CurrentAffairs => "current_affairs"
  end.

(** The table an SQL text names, if the schema has one of that name. *)
Definition table_of_str (s : string) : option table_name :=
  if String.eqb s "ministries" then Some Ministries
  else if String.eqb s "states" then Some States
  else if String.eqb s "bills" then Some Bills
  else if String.eqb s "questions" then Some Questions
  else if String.eqb s "current_affairs" then Some CurrentAffairs
  else None.

(** ** Errors and banners *)

(** The exceptions of this program: the two classes of [sqlite3.Error]
    its statements can raise, which [except sqlite3.Error] catches, and
    the [ValueError] of [list.index], which no statement raises. *)
Inductive exception :=
  | OperationalError (msg : string)
  | IntegrityError (msg : string)
  | ValueError (msg : string).

(** [str(e)]. *)
Definition error_msg (e : exception) : string :=
  match e with OperationalError m | IntegrityError m | ValueError m => m end.

(** [inl e]: the call raised [e]. *)
Definition result (A : Type) : Type := sum exception A.

Definition ok {A : Type} (a : A) : result A := inr a.
Definition raise {A : Type} (e : exception) : result A := inl e.

Definition bind {A B : Type} (r : result A) (k : A -> result B) : result B :=
  match r with inl e => inl e | inr a => k a end.

Notation "'let*' x ':=' r 'in' k" := (bind r (fun x => k))
  (at level 10, x name, r at level 100, k at level 200).

Definition no_such_table {A : Type} (name : string) : result A :=
  raise (OperationalError ("no such table: " +:+ name)).

Definition the_table {R : Type} (name : string) (t : option (table R)) : result (table R) :=
  match t with Some t => ok t | None => no_such_table name end.

(** What the page shows: [st.success], [st.error], [st.warning],
    [st.info], [st.code]. *)
Inductive banner :=
  | st_success (msg : string)
  | st_error (msg : string)
  | st_warning (msg : string)
  | st_info (msg : string)
  | st_code (text : string).

Definition is_error (b : banner) : bool :=
  match b with st_error _ => true | _ => false end.

(** ** [initialize_database]: [CREATE TABLE IF NOT EXISTS], five times *)

Definition create_if_absent {R : Type} (t : option (table R)) : option (table R) :=
  match t with Some t => Some t | None => Some empty_table end.

Definition initialize_database (db : database) : database :=
  {| ministries := create_if_absent (ministries db);
     states := create_if_absent (states db);
     bills := create_if_absent (bills db);
     questions := create_if_absent (questions db);
     current_affairs := create_if_absent (current_affairs db) |}.

(** ** Statements *)

(** [id INTEGER PRIMARY KEY AUTOINCREMENT]: one more than the largest id
    the table ever held. *)
Definition next_id {R : Type} (t : table R) : N := (sqlite_sequence t + 1)%N.

Definition append_row {R : Type} (t : table R) (mk : N -> R) : table R :=
  {| rows := rows t ++ [mk (next_id t)]; sqlite_sequence := next_id t |}.

(** [DELETE FROM t WHERE id = ?]: the rows of that id go, the others and
    the counter stay.  No row of that id is no error. *)
Definition delete_where_id {R : Type} (get_id : R -> N) (record_id : N) (t : table R) : table R :=
  {| rows := filter (fun r => get_id r ≠ record_id) (rows t); sqlite_sequence := sqlite_sequence t |}.

(** [UPDATE t SET ... WHERE id = ?]. *)
Definition update_where_id {R : Type} (get_id : R -> N) (record_id : N) (set : R -> R)
    (t : table R) : table R :=
  {| rows := (fun r => if decide (get_id r = record_id) then set r else r) <$> rows t;
     sqlite_sequence := sqlite_sequence t |}.

Definition set_ministries (db : database) (t : table meta_row) : database :=
  {| ministries := Some t; states := states db; bills := bills db;
     questions := questions db; current_affairs := current_affairs db |}.

Definition set_states (db : database) (t : table meta_row) : database :=
  {| ministries := ministries db; states := Some t; bills := bills db;
     questions := questions db; current_affairs := current_affairs db |}.

Definition set_bills (db : database) (t : table bill) : database :=
  {| ministries := ministries db; states := states db; bills := Some t;
     questions := questions db; current_affairs := current_affairs db |}.

Definition set_questions (db : database) (t : table question) : database :=
  {| ministries := ministries db; states := states db; bills := bills db;
     questions := Some t; current_affairs := current_affairs db |}.

Definition set_current_affairs (db : database) (t : table current_affair) : database :=
  {| ministries := ministries db; states := states db; bills := bills db;
     questions := questions db; current_affairs := Some t |}.

(** [DELETE FROM {table} WHERE id = ?] for the table the text names. *)
Definition exec_delete (db : database) (table : string) (record_id : N) : result database :=
  match table_of_str table with
  | None => no_such_table table
  | Some Ministries =>
      let* t := the_table table (ministries db) in
      ok (set_ministries db (delete_where_id meta_id record_id t))
  | Some States =>
      let* t := the_table table (states db) in
      ok (set_states db (delete_where_id meta_id record_id t))
  | Some Bills =>
      let* t := the_table table (bills db) in
      ok (set_bills db (delete_where_id bill_id record_id t))
  | Some Questions =>
      let* t := the_table table (questions db) in
      ok (set_questions db (delete_where_id question_id record_id t))
  | Some CurrentAffairs =>
      let* t := the_table table (current_affairs db) in
      ok (set_current_affairs db (delete_where_id ca_id record_id t))
  end.

(** [INSERT INTO ministries (code, name) VALUES (?, ?)] and the same for
    [states]: [code] and [name] are both [UNIQUE]. *)
Definition insert_meta (name : string) (t : option (table meta_row)) (code nm : string)
    : result (table meta_row) :=
  let* t := the_table name t in
  if existsb (fun r => String.eqb (meta_code r) code) (rows t) then
    raise (IntegrityError ("UNIQUE constraint failed: " +:+ name +:+ ".code"))
  else if existsb (fun r => String.eqb (meta_name r) nm) (rows t) then
    raise (IntegrityError ("UNIQUE constraint failed: " +:+ name +:+ ".name"))
  else
    ok (append_row t (fun i => {| meta_id := i; meta_code := code; meta_name := nm |})).

(** ** Python's [dict] from [str] to [str], in insertion order *)

Module Dict.

Definition t := list (string * string).

(** [d[k] = v]: a key already there keeps its place. *)
Fixpoint set (d : t) (k v : string) : t :=
  match d with
  | [] => [(k, v)]
  | (k', v') :: d' =>
      if String.eqb k' k then (k', v) :: d' else (k', v') :: set d' k v
  end.

(** [d.get(k)]. *)
Fixpoint get (d : t) (k : string) : option string :=
  match d with
  | [] => None
  | (k', v') :: d' => if String.eqb k' k then Some v' else get d' k
  end.

(** [list(d.keys())]. *)
Definition keys (d : t) : list string := fst <$> d.

End Dict.

(** ** Orders *)

(** Text is ordered by its character codes, [String.le]: SQLite's BINARY
    collation and Python's order on [str].  [str_lt] is the strict order. *)
Definition str_lt (a b : string) : Prop := String.ltb a b = true.

(** [ORDER BY key] and [ORDER BY key DESC]. *)
Definition asc {A : Type} (key : A -> string) : relation A :=
  fun x y => String.le (key x) (key y).

Definition desc {A : Type} (key : A -> string) : relation A :=
  fun x y => String.le (key y) (key x).

#[global] Instance asc_dec {A : Type} (key : A -> string) (x y : A) : Decision (asc key x y).
Proof. unfold asc. apply _. Defined.

#[global] Instance desc_dec {A : Type} (key : A -> string) (x y : A) : Decision (desc key x y).
Proof. unfold desc. apply _. Defined.

(** [sorted(l)] of a list of [str]. *)
Definition sorted (l : list string) : list string := merge_sort String.le l.

(** ** Python's [str.lower] and [str.upper]

    They follow the case mappings of Unicode (['É'.lower()] is ['é'],
    ['ß'.upper()] is ['SS']), which are not written out here: the two
    functions are arguments of the model.  What is known of them is what
    they do on ASCII text, where they fold the letters A-Z and a-z and
    keep every other character. *)
Class str_case := {
  str_lower : string -> string;
  str_upper : string -> string;
  str_lower_ascii : forall s, Text.is_ascii s = true -> str_lower s = Text.lower s;
  str_upper_ascii : forall s, Text.is_ascii s = true -> str_upper s = Text.upper s
}.

(** The two functions cut down to the letters A-Z and a-z: they are
    [str.lower] and [str.upper] on every text that holds no other letter. *)
Definition ascii_case : str_case :=
  {| str_lower := Text.lower; str_upper := Text.upper;
     str_lower_ascii := fun _ _ => eq_refl; str_upper_ascii := fun _ _ => eq_refl |}.

Section program.
Context {py : str_case}.

(** ** [database_ops.py] *)

(** A [pandas.DataFrame]: the column names and the rows. *)
Record DataFrame (R : Type) := {
  df_columns : list string;
  df_rows : list R
}.
#[global] Arguments df_columns {R} _.
#[global] Arguments df_rows {R} _.

(** [pd.DataFrame()]: no column, no row. *)
Definition pd_DataFrame {R : Type} : DataFrame R :=
  {| df_columns := []; df_rows := [] |}.

(** [df.empty]: some axis has length 0. *)
Definition df_empty {R : Type} (df : DataFrame R) : bool :=
  match df_columns df, df_rows df with
  | [], _ | _, [] => true
  | _, _ => false
  end.

(** [fetch_metadata(table_name)]: [SELECT code, name FROM t ORDER BY name]
    turned into [{name: code}].  Nothing here catches an exception. *)
Definition fetch_metadata (db : database) (table_name : string) : result Dict.t :=
  let* t :=
    match table_of_str table_name with
    | Some Ministries => the_table table_name (ministries db)
    | Some States => the_table table_name (states db)
    | Some _ => raise (OperationalError "no such column: code")
    | None => no_such_table table_name
    end in
  ok (fold_left (fun d row => Dict.set d (meta_name row) (meta_code row))
        (merge_sort (asc meta_name) (rows t)) []).

(** A row of [fetch_bills]: [b.*, m.name AS ministry_name,
    s.name AS state_name]. *)
Record bill_view := {
  bv_bill : bill;
  bv_ministry_name : string;
  bv_state_name : option string
}.

Record question_view := {
  qv_question : question;
  qv_ministry_name : string;
  qv_state_name : option string
}.

Definition bill_columns : list string :=
  ["id"; "bill_code"; "bill_name"; "introduced_by"; "ministry_code";
   "legislative_body"; "state_code"; "votes_favour"; "votes_against";
   "current_status"; "approval_status"; "approval_result"; "is_money_bill";
   "pdf_path"; "introduced_date"; "ministry_name"; "state_name"].

Definition question_columns : list string :=
  ["id"; "question_code"; "question_title"; "introduced_by"; "ministry_code";
   "legislative_body"; "state_code"; "q_type"; "current_status"; "pdf_path";
   "introduced_date"; "ministry_name"; "state_name"].

(** [JOIN ministries m ON x.ministry_code = m.code]: the names of the
    ministries of that code; a NULL code equals none. *)
Definition join_ministry (ms : list meta_row) (ministry_code : option string) : list string :=
  meta_name <$> filter (fun m => ministry_code = Some (meta_code m)) ms.

(** [LEFT JOIN states s ON x.state_code = s.code]: the names of the states
    of that code, and one NULL when there is none. *)
Definition left_join_state (ss : list meta_row) (state_code : option string) : list (option string) :=
  match filter (fun s => state_code = Some (meta_code s)) ss with
  | [] => [None]
  | found => (fun s => Some (meta_name s)) <$> found
  end.

(** [search_like = f"%{search_term.lower()}%"]. *)
Definition search_like (search_term : string) : string :=
  "%" +:+ str_lower search_term +:+ "%".

(** [LOWER(code) LIKE ? OR LOWER(name) LIKE ? OR LOWER(m.name) LIKE ?]. *)
Definition search_matches (pattern code name ministry_name : string) : bool :=
  Text.like pattern (Text.lower code)
  || Text.like pattern (Text.lower name)
  || Text.like pattern (Text.lower ministry_name).

(** The WHERE clause as [fetch_bills] and [fetch_questions] build it: the
    body always, the search only [if search_term:]. *)
Definition where_clause (legislative_body search_term body code name ministry_name : string) : bool :=
  String.eqb body legislative_body
  && (if Text.truthy search_term
      then search_matches (search_like search_term) code name ministry_name
      else true).

(** The columns the two SELECTs read of a bill or of a question. *)
Record source (R : Type) := {
  src_ministry_code : R -> option string;
  src_state_code : R -> option string;
  src_legislative_body : R -> string;
  src_code : R -> string;
  src_name : R -> string;
  src_introduced_date : R -> string
}.
#[global] Arguments src_ministry_code {R} _ _.
#[global] Arguments src_state_code {R} _ _.
#[global] Arguments src_legislative_body {R} _ _.
#[global] Arguments src_code {R} _ _.
#[global] Arguments src_name {R} _ _.
#[global] Arguments src_introduced_date {R} _ _.

Definition bill_source : source bill :=
  {| src_ministry_code := bill_ministry_code; src_state_code := bill_state_code;
     src_legislative_body := bill_legislative_body; src_code := bill_code;
     src_name := bill_name; src_introduced_date := bill_introduced_date |}.

Definition question_source : source question :=
  {| src_ministry_code := question_ministry_code; src_state_code := question_state_code;
     src_legislative_body := question_legislative_body; src_code := question_code;
     src_name := question_title; src_introduced_date := question_introduced_date |}.

(** The SELECT that [fetch_bills] and [fetch_questions] share, over the
    rows of the three tables: [x JOIN ministries m ... LEFT JOIN states s
    ... WHERE ... ORDER BY x.introduced_date DESC].  A row of the result
    is a row of [x] with its ministry name and its state name.  SQL
    promises no order among rows of equal date; here it is the one this
    merge sort leaves. *)
Definition select_joined {R : Type} (src : source R) (xs : list R) (ms ss : list meta_row)
    (legislative_body search_term : string) : list (R * string * option string) :=
  merge_sort (desc (fun j : R * string * option string => src_introduced_date src j.1.1))
    (filter (fun j : R * string * option string =>
               where_clause legislative_body search_term
                 (src_legislative_body src j.1.1) (src_code src j.1.1)
                 (src_name src j.1.1) j.1.2 = true)
       (x ← xs;
        mn ← join_ministry ms (src_ministry_code src x);
        sn ← left_join_state ss (src_state_code src x);
        [ (x, mn, sn) ])).

Definition bill_view_of (j : bill * string * option string) : bill_view :=
  {| bv_bill := j.1.1; bv_ministry_name := j.1.2; bv_state_name := j.2 |}.

Definition question_view_of (j : question * string * option string) : question_view :=
  {| qv_question := j.1.1; qv_ministry_name := j.1.2; qv_state_name := j.2 |}.

(** The query of [fetch_bills], run by [pd.read_sql_query]. *)
Definition fetch_bills_query (db : database) (legislative_body search_term : string)
    : result (list bill_view) :=
  let* bs := the_table "bills" (bills db) in
  let* ms := the_table "ministries" (ministries db) in
  let* ss := the_table "states" (states db) in
  ok (bill_view_of
        <$> select_joined bill_source (rows bs) (rows ms) (rows ss) legislative_body search_term).

Definition fetch_bills_sql (search_term : string) : string :=
  "SELECT b.*, m.name AS ministry_name, s.name AS state_name FROM bills b JOIN ministries m ON b.ministry_code = m.code LEFT JOIN states s ON b.state_code = s.code WHERE b.legislative_body = ?"
  +:+ (if Text.truthy search_term
       then " AND (LOWER(b.bill_code) LIKE ? OR LOWER(b.bill_name) LIKE ? OR LOWER(m.name) LIKE ?)"
       else "")
  +:+ " ORDER BY b.introduced_date DESC".

(** [fetch_bills(legislative_body, search_term="")]. *)
Definition fetch_bills (db : database) (legislative_body search_term : string)
    : DataFrame bill_view * list banner :=
  match fetch_bills_query db legislative_body search_term with
  | inr found => ({| df_columns := bill_columns; df_rows := found |}, [])
  | inl e =>
      (pd_DataFrame,
       [st_error ("Database Query Failed in fetch_bills. Error: " +:+ error_msg e);
        st_code (fetch_bills_sql search_term)])
  end.

(** The query of [fetch_questions]. *)
Definition fetch_questions_query (db : database) (legislative_body search_term : string)
    : result (list question_view) :=
  let* qs := the_table "questions" (questions db) in
  let* ms := the_table "ministries" (ministries db) in
  let* ss := the_table "states" (states db) in
  ok (question_view_of
        <$> select_joined question_source (rows qs) (rows ms) (rows ss)
              legislative_body search_term).

Definition fetch_questions_sql (search_term : string) : string :=
  "SELECT q.*, m.name AS ministry_name, s.name AS state_name FROM questions q JOIN ministries m ON q.ministry_code = m.code LEFT JOIN states s ON q.state_code = s.code WHERE q.legislative_body = ?"
  +:+ (if Text.truthy search_term
       then " AND (LOWER(q.question_code) LIKE ? OR LOWER(q.question_title) LIKE ? OR LOWER(m.name) LIKE ?)"
       else "")
  +:+ " ORDER BY q.introduced_date DESC".

(** [fetch_questions(legislative_body, search_term="")]. *)
Definition fetch_questions (db : database) (legislative_body search_term : string)
    : DataFrame question_view * list banner :=
  match fetch_questions_query db legislative_body search_term with
  | inr found => ({| df_columns := question_columns; df_rows := found |}, [])
  | inl e =>
      (pd_DataFrame,
       [st_error ("Database Query Failed in fetch_questions. Error: " +:+ error_msg e);
        st_code (fetch_questions_sql search_term)])
  end.

(** [fetch_current_affairs()]: no [try] around the query. *)
Definition fetch_current_affairs (db : database) : result (DataFrame current_affair) :=
  let* t := the_table "current_affairs" (current_affairs db) in
  ok {| df_columns := ["id"; "title"; "description"; "url"; "pdf_path"; "published_date"];
        df_rows := merge_sort (desc ca_published_date) (rows t) |}.

(** The columns [fetch_search_suggestions] reads of a bill or a question:
    code, name or title, ministry code, legislative body. *)
Record coded := {
  c_code : string;
  c_name : string;
  c_ministry_code : option string;
  c_legislative_body : string
}.

Definition coded_of_bill (b : bill) : coded :=
  {| c_code := bill_code b; c_name := bill_name b;
     c_ministry_code := bill_ministry_code b;
     c_legislative_body := bill_legislative_body b |}.

Definition coded_of_question (q : question) : coded :=
  {| c_code := question_code q; c_name := question_title q;
     c_ministry_code := question_ministry_code q;
     c_legislative_body := question_legislative_body q |}.

(** A row of the suggestion query: code, name or title, ministry name. *)
Definition suggestion_row : Type := string * string * string.

(** The SELECT of [fetch_search_suggestions], [LIMIT 10] included: the
    first ten matching rows in table order. *)
Definition suggestions_query (db : database) (legislative_body search_term : string)
    : result (list suggestion_row) :=
  let* candidates :=
    if Text.contains "Bill" legislative_body
    then (let* t := the_table "bills" (bills db) in ok (coded_of_bill <$> rows t))
    else (let* t := the_table "questions" (questions db) in ok (coded_of_question <$> rows t)) in
  let* ms := the_table "ministries" (ministries db) in
  let joined : list (coded * string) :=
    c ← candidates;
    mn ← join_ministry (rows ms) (c_ministry_code c);
    [ (c, mn) ] in
  let found :=
    filter (fun cm : coded * string =>
              (String.eqb (c_legislative_body cm.1) legislative_body
               && search_matches (search_like search_term)
                    (c_code cm.1) (c_name cm.1) cm.2) = true) joined in
  ok ((fun cm : coded * string => (c_code cm.1, c_name cm.1, cm.2)) <$> take 10 found).

(** The loop over [df.iterrows()] filling the [set]. *)
Definition add_suggestions (suggestions : gset string) (row : suggestion_row) : gset string :=
  let '(code, name, ministry_name) := row in
  suggestions ∪ {[ code ]} ∪ {[ name ]} ∪ {[ ministry_name ]}.

(** [fetch_search_suggestions(legislative_body, search_term)]. *)
Definition fetch_search_suggestions (db : database) (legislative_body search_term : string)
    : result (list string) :=
  if negb (Text.truthy search_term) || (Text.len search_term <? 2)%nat then ok []
  else
    let* df := suggestions_query db legislative_body search_term in
    ok (sorted (elements (fold_left add_suggestions df ∅))).

(** The 14 values of [bill_data]: a row of [bills] but for its id. *)
Definition bill_data : Type := N -> bill.

(** [INSERT INTO bills (...) VALUES (...)]: [bill_code] is [UNIQUE]. *)
Definition insert_bill (db : database) (data : bill_data) : result database :=
  let* t := the_table "bills" (bills db) in
  if existsb (fun b => String.eqb (bill_code b) (bill_code (data 0%N))) (rows t) then
    raise (IntegrityError "UNIQUE constraint failed: bills.bill_code")
  else ok (set_bills db (append_row t data)).

(** [save_bill_record(bill_data)]. *)
Definition save_bill_record (db : database) (data : bill_data) : database * list banner :=
  match insert_bill db data with
  | inr db' =>
      (db', [st_success (bill_legislative_body (data 0%N) +:+ " Bill '"
                         +:+ bill_name (data 0%N) +:+ "' created successfully! Code: **"
                         +:+ bill_code (data 0%N) +:+ "**")])
  | inl e =>
      (db, [st_error ("Database Error: Could not save bill. Details: " +:+ error_msg e)])
  end.

(** [delete_record(table, record_id, record_code)]. *)
Definition delete_record (db : database) (table : string) (record_id : option N)
    (record_code : string) : database * list banner :=
  match record_id with
  | None =>
      (db, [st_error ("Error: Could not determine ID for record " +:+ record_code +:+ ".")])
  | Some i =>
      match exec_delete db table i with
      | inr db' =>
          (db', [st_success ("Record " +:+ record_code +:+ " deleted successfully from "
                             +:+ table +:+ ". Refreshing...")])
      | inl e => (db, [st_error ("Error deleting record: " +:+ error_msg e)])
      end
  end.

(** [delete_record] called with a [numpy.int64] for [record_id], which is
    what [record['id']] of a row of a DataFrame is: it is not [None], and
    sqlite3 cannot bind a value of that type, so [execute] raises a
    [sqlite3.Error] (worded as Python 3.11 does) and nothing is deleted. *)
Definition unsupported_type : string :=
  "Error binding parameter 1: type 'numpy.int64' is not supported".

Definition delete_record_numpy_int64 (db : database) (table : string) (record_id : N)
    (record_code : string) : database * list banner :=
  (db, [st_error ("Error deleting record: " +:+ unsupported_type)]).

(** ** [admin_forms.py] *)

(** [st.selectbox(label, options)]: the option the user picked, the first
    one if none was. *)
Definition selectbox (options : list string) (choice : nat) : string :=
  default (default "" (head options)) (options !! choice).

(** [st.text_input(label, max_chars=n)]: no more than [n] characters can
    be typed; of a longer text the box keeps the first [n]. *)
Definition text_input_max (max_chars : nat) (typed : string) : string :=
  Text.first_chars max_chars typed.

(** The "Add New Ministry" and "Add New State" forms of
    [render_manage_metadata]. *)
Record metadata_form := {
  mf_code : string;
  mf_name : string;
  mf_submitted : bool
}.

(** Only [sqlite3.IntegrityError] is caught around the INSERT. *)
Definition add_metadata (db : database) (which : table_name) (label : string)
    (form : metadata_form) : result (database * list banner) :=
  let m_code := text_input_max 2 (mf_code form) in
  let m_name := mf_name form in
  if negb (mf_submitted form) then ok (db, [])
  else if Text.truthy m_code && Text.truthy m_name then
    let inserted :=
      match which with
      | States =>
          let* t := insert_meta "states" (states db) (str_upper m_code) m_name in
          ok (set_states db t)
      | _ =>
          let* t := insert_meta "ministries" (ministries db) (str_upper m_code) m_name in
          ok (set_ministries db t)
      end in
    match inserted with
    | inr db' =>
        ok (db', [st_success (label +:+ " '" +:+ m_name +:+ "' (" +:+ str_upper m_code
                              +:+ ") added successfully!")])
    | inl (IntegrityError _) =>
        ok (db, [st_error ("Error: " +:+ label +:+ " Code or Name already exists.")])
    | inl e => raise e
    end
  else ok (db, [st_error "Please enter both Code and Name."]).

Definition add_ministry (db : database) (form : metadata_form) : result (database * list banner) :=
  add_metadata db Ministries "Ministry" form.

Definition add_state (db : database) (form : metadata_form) : result (database * list banner) :=
  add_metadata db States "State" form.

(** What the run does not decide itself. *)
Record environment := {
  random_source : Z;  (* the number the generator behind [random] gives next *)
  disk_ok : bool      (* whether the uploaded PDF can be written *)
}.

(** The values of [random.randint(a, b)], each as likely as the other:
    [a] to [b] with both ends. *)
Definition randint (a b : Z) : list Z :=
  (fun k => (a + Z.of_nat k)%Z) <$> seq 0 (Z.to_nat (b - a + 1)).

(** [random.randint(a, b)]: [a] plus a number from 0 to [b - a], which is
    the number of the generator brought below [b - a + 1]. *)
Definition random_randint (env : environment) (a b : Z) : Z :=
  (a + random_source env mod (b - a + 1))%Z.

(** The widgets of the bill form. *)
Record bill_form := {
  bf_bill_name : string;
  bf_introduced_by : string;
  bf_introduced_date : string;   (* [introduced_date.strftime('%Y-%m-%d')] *)
  bf_state : nat;
  bf_ministry : nat;
  bf_current_status : nat;
  bf_approval_result : nat;
  bf_money_bill : bool;
  bf_votes_favour : N;
  bf_votes_against : N;
  bf_pdf : option string;
  bf_submitted : bool
}.

Definition select_ministry : string := "-- Select Ministry --".
Definition select_state : string := "-- Select State --".
Definition prerequisite : banner :=
  st_error "🚨 Prerequisite: You must add Ministries and States (for State Assembly) first (Manage Metadata).".

(** Lines 152-156: the code of a new bill. *)
Definition new_bill_code (is_state_assembly : bool) (state_code ministry_code : option string)
    (random_num : Z) : string :=
  if is_state_assembly
  then Text.str_opt state_code +:+ "-" +:+ Text.str_opt ministry_code +:+ "-" +:+ Text.str_int random_num
  else "BL-" +:+ Text.str_opt ministry_code +:+ "-" +:+ Text.str_int random_num.

(** Lines 225-229: the code of a new question. *)
Definition new_question_code (is_state_assembly : bool) (state_code ministry_code : option string)
    (random_num : Z) : string :=
  if is_state_assembly
  then Text.str_opt state_code +:+ "-" +:+ Text.str_opt ministry_code +:+ "-" +:+ Text.str_int random_num
  else "QN-" +:+ Text.str_opt ministry_code +:+ "-" +:+ Text.str_int random_num.

(** [render_bill_form(legislative_body)]. *)
Definition render_bill_form (db : database) (legislative_body : string) (form : bill_form)
    (env : environment) : result (database * list banner) :=
  let is_rajya_sabha := String.eqb legislative_body "Rajya Sabha" in
  let is_state_assembly := String.eqb legislative_body "State Assembly" in
  let* ministries_data := fetch_metadata db "ministries" in
  let ministry_names := Dict.keys ministries_data in
  let* states_data := fetch_metadata db "states" in
  let state_names := Dict.keys states_data in
  if bool_decide (ministry_names = []) || (is_state_assembly && bool_decide (state_names = []))
  then ok (db, [prerequisite])
  else
    let selected_state_name :=
      if is_state_assembly then Some (selectbox (select_state :: state_names) (bf_state form))
      else None in
    let selected_ministry_name := selectbox (select_ministry :: ministry_names) (bf_ministry form) in
    let current_status := selectbox ["Pending"; "Passed"; "Not Passed"] (bf_current_status form) in
    let approval_label := if is_state_assembly then "Governor Approval" else "President Approval" in
    let approval_status := approval_label in
    let approval_result := selectbox ["Pending"; "Yes"; "No"] (bf_approval_result form) in
    let is_money_bill := if is_rajya_sabha then false else bf_money_bill form in
    let shown :=
      st_info "💡 AI helper will suggest ministry based on Bill Name here."
      :: (if is_rajya_sabha then [st_warning "Cannot be a Money Bill (Constraint enforced)."]
          else []) in
    if negb (bf_submitted form) then ok (db, shown)
    else if String.eqb selected_ministry_name select_ministry
            || (is_state_assembly && bool_decide (selected_state_name = Some select_state))
    then ok (db, shown ++ [st_error "Please fill in all required fields."])
    else
      let state_code :=
        if is_state_assembly then selected_state_name ≫= Dict.get states_data else None in
      let ministry_code := Dict.get ministries_data selected_ministry_name in
      let random_num := random_randint env 1000 9999 in
      let code := new_bill_code is_state_assembly state_code ministry_code random_num in
      let pdf_path :=
        match bf_pdf form with
        | Some _ => Some ("pdfs/" +:+ code +:+ "_bill.pdf")
        | None => None
        end in
      if bool_decide (bf_pdf form ≠ None) && negb (disk_ok env)
      then ok (db, shown ++ [st_error "Error saving PDF file"])
      else
        let data : bill_data := fun i =>
          {| bill_id := i; bill_code := code; bill_name := bf_bill_name form;
             bill_introduced_by := bf_introduced_by form; bill_ministry_code := ministry_code;
             bill_legislative_body := legislative_body; bill_state_code := state_code;
             bill_votes_favour := bf_votes_favour form;
             bill_votes_against := bf_votes_against form;
             bill_current_status := current_status;
             bill_approval_status := Some approval_status;
             bill_approval_result := Some approval_result;
             bill_is_money_bill := is_money_bill; bill_pdf_path := pdf_path;
             bill_introduced_date := bf_introduced_date form |} in
        let '(db', said) := save_bill_record db data in
        ok (db', shown ++ said).

(** The widgets of the question form. *)
Record question_form := {
  qf_question_title : string;
  qf_introduced_by : string;
  qf_introduced_date : string;   (* [introduced_date.strftime('%Y-%m-%d')] *)
  qf_state : nat;
  qf_ministry : nat;
  qf_q_type : nat;
  qf_current_status : nat;
  qf_pdf : option string;
  qf_submitted : bool
}.

(** The 10 values of the INSERT of a question: a row but for its id. *)
Definition question_data : Type := N -> question.

(** [INSERT INTO questions (...) VALUES (...)]: [question_code] is
    [UNIQUE]. *)
Definition insert_question (db : database) (data : question_data) : result database :=
  let* t := the_table "questions" (questions db) in
  if existsb (fun q => String.eqb (question_code q) (question_code (data 0%N))) (rows t) then
    raise (IntegrityError "UNIQUE constraint failed: questions.question_code")
  else ok (set_questions db (append_row t data)).

(** [render_question_form(legislative_body)]. *)
Definition render_question_form (db : database) (legislative_body : string)
    (form : question_form) (env : environment) : result (database * list banner) :=
  let* ministries_data := fetch_metadata db "ministries" in
  let ministry_names := Dict.keys ministries_data in
  let* states_data := fetch_metadata db "states" in
  let state_names := Dict.keys states_data in
  let is_state_assembly := String.eqb legislative_body "State Assembly" in
  if bool_decide (ministry_names = []) || (is_state_assembly && bool_decide (state_names = []))
  then ok (db, [prerequisite])
  else
    let selected_state_name :=
      if is_state_assembly then Some (selectbox (select_state :: state_names) (qf_state form))
      else None in
    let selected_ministry_name := selectbox (select_ministry :: ministry_names) (qf_ministry form) in
    let q_type := selectbox ["Starred"; "Unstarred"] (qf_q_type form) in
    let current_status := selectbox ["Answered"; "Not Answered"] (qf_current_status form) in
    if negb (qf_submitted form) then ok (db, [])
    else if String.eqb selected_ministry_name select_ministry
            || (is_state_assembly && bool_decide (selected_state_name = Some select_state))
    then ok (db, [st_error "Please fill in all required fields."])
    else
      let state_code :=
        if is_state_assembly then selected_state_name ≫= Dict.get states_data else None in
      let ministry_code := Dict.get ministries_data selected_ministry_name in
      let random_num := random_randint env 1000 9999 in
      let code := new_question_code is_state_assembly state_code ministry_code random_num in
      let pdf_path :=
        match qf_pdf form with
        | Some _ => Some ("pdfs/" +:+ code +:+ "_qn.pdf")
        | None => None
        end in
      if bool_decide (qf_pdf form ≠ None) && negb (disk_ok env)
      then ok (db, [st_error "Error saving PDF file"])
      else
        let data : question_data := fun i =>
          {| question_id := i; question_code := code;
             question_title := qf_question_title form;
             question_introduced_by := qf_introduced_by form;
             question_ministry_code := ministry_code;
             question_legislative_body := legislative_body;
             question_state_code := state_code; question_q_type := q_type;
             question_current_status := current_status; question_pdf_path := pdf_path;
             question_introduced_date := qf_introduced_date form |} in
        match insert_question db data with
        | inr db' =>
            ok (db', [st_success (legislative_body +:+ " Question '" +:+ qf_question_title form
                                  +:+ "' created successfully! Code: **" +:+ code +:+ "**")])
        | inl e =>
            ok (db, [st_error ("Database Error: Could not save question. Details: "
                               +:+ error_msg e)])
        end.

(** What [render_update_delete_ui] reads of a row of its DataFrame. *)
Record record_cols := {
  col_id : option N;
  col_code : string;
  col_current_status : string;
  col_approval_status : option string;
  col_approval_result : option string
}.

Definition cols_of_bill (v : bill_view) : record_cols :=
  {| col_id := Some (bill_id (bv_bill v)); col_code := bill_code (bv_bill v);
     col_current_status := bill_current_status (bv_bill v);
     col_approval_status := bill_approval_status (bv_bill v);
     col_approval_result := bill_approval_result (bv_bill v) |}.

Definition cols_of_question (v : question_view) : record_cols :=
  {| col_id := Some (question_id (qv_question v)); col_code := question_code (qv_question v);
     col_current_status := question_current_status (qv_question v);
     col_approval_status := None; col_approval_result := None |}.

(** [UPDATE bills SET current_status = ?, approval_result = ? WHERE id = ?]. *)
Definition set_bill_status (new_status : string) (new_approval : option string) (b : bill) : bill :=
  {| bill_id := bill_id b; bill_code := bill_code b; bill_name := bill_name b;
     bill_introduced_by := bill_introduced_by b; bill_ministry_code := bill_ministry_code b;
     bill_legislative_body := bill_legislative_body b; bill_state_code := bill_state_code b;
     bill_votes_favour := bill_votes_favour b; bill_votes_against := bill_votes_against b;
     bill_current_status := new_status;
     bill_approval_status := bill_approval_status b;
     bill_approval_result := new_approval;
     bill_is_money_bill := bill_is_money_bill b; bill_pdf_path := bill_pdf_path b;
     bill_introduced_date := bill_introduced_date b |}.

Definition update_bill_status (db : database) (new_status : string)
    (new_approval : option string) (record_id : N) : result database :=
  let* t := the_table "bills" (bills db) in
  ok (set_bills db (update_where_id bill_id record_id (set_bill_status new_status new_approval) t)).

(** [UPDATE questions SET current_status = ? WHERE id = ?]. *)
Definition set_question_status (new_status : string) (q : question) : question :=
  {| question_id := question_id q; question_code := question_code q;
     question_title := question_title q;
     question_introduced_by := question_introduced_by q;
     question_ministry_code := question_ministry_code q;
     question_legislative_body := question_legislative_body q;
     question_state_code := question_state_code q; question_q_type := question_q_type q;
     question_current_status := new_status; question_pdf_path := question_pdf_path q;
     question_introduced_date := question_introduced_date q |}.

Definition update_question_status (db : database) (new_status : string) (record_id : N)
    : result database :=
  let* t := the_table "questions" (questions db) in
  ok (set_questions db (update_where_id question_id record_id (set_question_status new_status) t)).

(** [options.index(x)]. *)
Definition list_index (options : list string) (x : string) : result nat :=
  match list_find (fun o => o = x) options with
  | Some (i, _) => ok i
  | None => raise (ValueError (x +:+ " is not in list"))
  end.

(** The widgets of [render_update_delete_ui]. *)
Record update_delete_form := {
  ud_selected_code : nat;
  ud_delete_clicked : bool;
  ud_new_status : nat;
  ud_new_approval : nat;
  ud_update_submitted : bool
}.

Definition select_code : string := "-- Select Code --".

(** The delete button: [inl] when the DELETE went through and
    [st.rerun()] ends the run, [inr] with what is shown otherwise. *)
Definition delete_button (db : database) (table_name : string) (record_id : N)
    (selected_code : string) (clicked : bool) : (database * list banner) + list banner :=
  if clicked then
    match exec_delete db table_name record_id with
    | inr db' =>
        inl (db', [st_success ("Record " +:+ selected_code +:+ " deleted successfully from "
                               +:+ table_name +:+ "! Refreshing...")])
    | inl e => inr [st_error ("Error executing DELETE SQL: " +:+ error_msg e)]
    end
  else inr [].

(** The widgets of the update form: the new status and, for a bill, the
    new approval result.  [index=options.index(...)] is computed first and
    raises when the stored value is not an option. *)
Definition update_choice (is_bill : bool) (record : record_cols) (form : update_delete_form)
    : result (string * option string) :=
  if is_bill then
    let status_options := ["Pending"; "Passed"; "Not Passed"] in
    let approval_options := ["Pending"; "Yes"; "No"] in
    let* _i := list_index status_options (col_current_status record) in
    let new_status := selectbox status_options (ud_new_status form) in
    match col_approval_status record with
    | Some (String _ _) =>
        let* _j :=
          match col_approval_result record with
          | Some r => list_index approval_options r
          | None => raise (ValueError "None is not in list")
          end in
        ok (new_status, Some (selectbox approval_options (ud_new_approval form)))
    | _ => ok (new_status, col_approval_result record)
    end
  else
    let status_options := ["Answered"; "Not Answered"] in
    let* _i := list_index status_options (col_current_status record) in
    ok (selectbox status_options (ud_new_status form), None).

(** Lines 355-371: the submitted update form. *)
Definition submit_update (db : database) (is_bill : bool) (new_status : string)
    (new_approval : option string) (record_id : N) (selected_code : string)
    : database * list banner :=
  match (if is_bill then update_bill_status db new_status new_approval record_id
         else update_question_status db new_status record_id) with
  | inr db' =>
      (db', [st_success ("Record " +:+ selected_code +:+ " updated successfully! Refreshing...")])
  | inl e => (db, [st_error ("Error executing UPDATE SQL: " +:+ error_msg e)])
  end.

(** [render_update_delete_ui(df, body_type, is_bill)]. *)
Definition render_update_delete_ui (db : database) (df : list record_cols) (body_type : string)
    (is_bill : bool) (form : update_delete_form) : result (database * list banner) :=
  let table_name := if is_bill then "bills" else "questions" in
  let record_codes := col_code <$> df in
  let selected_code := selectbox (select_code :: record_codes) (ud_selected_code form) in
  if String.eqb selected_code select_code then ok (db, [])
  else
    match filter (fun r => col_code r = selected_code) df with
    | [] => ok (db, [])   (* not reached: the code was picked among those of [df] *)
    | record :: _ =>
        match col_id record with
        | None => ok (db, [st_error "Cannot proceed: Record ID is missing or invalid."])
        | Some record_id =>
            let debug :=
              st_warning ("DEBUG: Selected Record ID (must be integer > 0): "
                          +:+ Text.str_int (Z.of_N record_id)) in
            match delete_button db table_name record_id selected_code (ud_delete_clicked form) with
            | inl (db', said) => ok (db', debug :: said)
            | inr said =>
                let* new := update_choice is_bill record form in
                let '(new_status, new_approval) := new in
                if negb (ud_update_submitted form) then ok (db, debug :: said)
                else
                  let '(db', more) :=
                    submit_update db is_bill new_status new_approval record_id selected_code in
                  ok (db', debug :: said ++ more)
            end
        end
    end.

(** The two UPDATE/DELETE tabs of [render_manage_data]. *)
Definition manage_bills (db : database) (body_type : string) (form : update_delete_form)
    : result (database * list banner) :=
  let '(df_bills, said) := fetch_bills db body_type "" in
  if negb (df_empty df_bills) then
    let* r := render_update_delete_ui db (cols_of_bill <$> df_rows df_bills) body_type true form in
    ok (r.1, said ++ r.2)
  else ok (db, said ++ [st_info ("No " +:+ body_type +:+ " Bills found for management.")]).

Definition manage_questions (db : database) (body_type : string) (form : update_delete_form)
    : result (database * list banner) :=
  let '(df_questions, said) := fetch_questions db body_type "" in
  if negb (df_empty df_questions) then
    let* r := render_update_delete_ui db (cols_of_question <$> df_rows df_questions)
                (body_type +:+ " Questions") false form in
    ok (r.1, said ++ r.2)
  else ok (db, said ++ [st_info ("No " +:+ body_type +:+ " Questions found for management.")]).

(** The widgets of [render_manage_ca]: the form and the delete box. *)
Record current_affairs_form := {
  cf_title : string;
  cf_published_date : string;   (* [published_date.strftime('%Y-%m-%d')] *)
  cf_url : string;
  cf_description : string;
  cf_pdf : option string;
  cf_submitted : bool;
  cf_selected_title : nat;
  cf_delete_clicked : bool
}.

(** [title.replace(' ', '_')]. *)
Fixpoint replace_spaces (s : string) : string :=
  match s with
  | EmptyString => EmptyString
  | String c s' => String (if Ascii.eqb c " " then "_"%char else c) (replace_spaces s')
  end.

Definition insert_current_affair (db : database) (mk : N -> current_affair) : result database :=
  let* t := the_table "current_affairs" (current_affairs db) in
  ok (set_current_affairs db (append_row t mk)).

(** [render_current_affairs_form()]: [inl] when the record was published
    and [st.rerun()] ends the run. *)
Definition render_current_affairs_form (db : database) (form : current_affairs_form)
    (env : environment) : (database * list banner) + list banner :=
  if negb (cf_submitted form) then inr []
  else if negb (Text.truthy (cf_title form)) || negb (Text.truthy (cf_description form))
  then inr [st_error "Title and Description are required."]
  else if bool_decide (cf_pdf form ≠ None) && negb (disk_ok env)
  then inr [st_error "Error saving PDF file"]
  else
    let pdf_path :=
      match cf_pdf form with
      | Some _ => Some ("pdfs/CA_" +:+ replace_spaces (cf_title form) +:+ "_"
                        +:+ Text.str_int (random_randint env 100 999) +:+ ".pdf")
      | None => None
      end in
    match insert_current_affair db (fun i =>
            {| ca_id := i; ca_title := cf_title form; ca_description := cf_description form;
               ca_url := cf_url form; ca_pdf_path := pdf_path;
               ca_published_date := cf_published_date form |}) with
    | inr db' =>
        inl (db', [st_success ("Current Affair '" +:+ cf_title form +:+ "' published successfully.")])
    | inl e =>
        inr [st_error ("Database Error: Could not save Current Affair. Details: " +:+ error_msg e)]
    end.

(** [render_manage_ca()]. *)
Definition render_manage_ca (db : database) (form : current_affairs_form) (env : environment)
    : result (database * list banner) :=
  match render_current_affairs_form db form env with
  | inl done => ok done
  | inr said =>
      let* df_ca := fetch_current_affairs db in
      if negb (df_empty df_ca) then
        let ca_titles := ca_title <$> df_rows df_ca in
        let selected_title := selectbox ("-- Select Title --" :: ca_titles) (cf_selected_title form) in
        if negb (String.eqb selected_title "-- Select Title --") && cf_delete_clicked form then
          match filter (fun r => ca_title r = selected_title) (df_rows df_ca) with
          | [] => ok (db, said)   (* not reached: the title was picked among those of [df_ca] *)
          | record :: _ =>
              (* [record['id']] goes to [delete_record] as it is, without
                 the [int()] of [render_update_delete_ui] *)
              let '(db', more) :=
                delete_record_numpy_int64 db "current_affairs" (ca_id record) selected_title in
              ok (db', said ++ more)
          end
        else ok (db, said)
      else ok (db, said ++ [st_info "No current affairs records found."])
  end.

(** ** [viewers_modules.py] *)

(** The sort behind [DataFrame.sort_values], whose default [kind] is
    ['quicksort']: it arranges rows by a key; pandas promises no order
    among rows of equal key for it.  It is an argument of the viewers. *)
Definition sorter : Type :=
  forall A K : Type, (K -> K -> bool) -> (A -> K) -> list A -> list A.

(** [a] comes no later than [b] when the rows are arranged by [key]. *)
Definition key_le {A K : Type} (le : K -> K -> bool) (key : A -> K) : relation A :=
  fun a b => le (key a) (key b) = true.

#[global] Instance key_le_dec {A K : Type} (le : K -> K -> bool) (key : A -> K) (a b : A) :
  Decision (key_le le key a b).
Proof. unfold key_le. apply _. Defined.

(** What every [kind] of sort does: the same rows, in the order of their
    keys, whenever the keys are totally ordered. *)
Record sorter_ok (qs : sorter) : Prop := {
  sorter_perm :
    forall (A K : Type) (le : K -> K -> bool) (key : A -> K) (l : list A),
      qs A K le key l ≡ₚ l;
  sorter_sorted :
    forall (A K : Type) (le : K -> K -> bool) (key : A -> K) (l : list A),
      (forall x y, le x y = true \/ le y x = true) ->
      (forall x y z, le x y = true -> le y z = true -> le x z = true) ->
      Sorted (key_le le key) (qs A K le key l)
}.

(** One such sort. *)
Definition merge_sorter : sorter :=
  fun A K le key => merge_sort (key_le le key).

(** A sort is stable when rows of equal key keep the order they came in:
    the rows picked out of the result by a test that only rows of equal
    key pass are those picked out of the input, in the same order.
    pandas promises it for [kind='mergesort'] and [kind='stable'], not for
    the default [kind]. *)
Definition sorter_stable (qs : sorter) : Prop :=
  forall (A K : Type) (le : K -> K -> bool) (key : A -> K) (l : list A) (P : A -> bool),
    (forall x y, P x = true -> P y = true -> le (key x) (key y) = true) ->
    filter (fun a => P a = true) (qs A K le key l) = filter (fun a => P a = true) l.

(** A stable sort: insertion, each row put before the first row that does
    not come before it. *)
Fixpoint insert_by {A K : Type} (le : K -> K -> bool) (key : A -> K) (x : A) (l : list A)
    : list A :=
  match l with
  | [] => [x]
  | y :: l' => if le (key x) (key y) then x :: y :: l' else y :: insert_by le key x l'
  end.

Definition insertion_sorter : sorter :=
  fun A K le key l => foldr (insert_by le key) [] l.

(** The code of a value in [pd.Categorical(values, categories=...)]: its
    place among the categories, NaN ([None]) when it is none of them. *)
Definition categorical_code (categories : list string) (value : string) : option nat :=
  fst <$> list_find (fun c => c = value) categories.

(** [df.sort_values(column, ascending=...)] as pandas' [nargsort] does it
    ([na_position='last']): the rows whose key is NaN are set aside and
    come last; the others are sorted by key, and for a descending sort
    reversed before and after. *)
Definition sort_values {A K : Type} (qs : sorter) (le : K -> K -> bool) (key : A -> option K)
    (ascending : bool) (df : list A) : list A :=
  let non_nans : list (A * K) := omap (fun r => k ← key r; Some (r, k)) df in
  let nans := filter (fun r => key r = None) df in
  let by_key := qs (A * K)%type K le snd in
  (fst <$> (if ascending then by_key non_nans else reverse (by_key (reverse non_nans))))
  ++ nans.

(** Lines 59-64 of [render_bills_viewer]. *)
Definition sort_bills (qs : sorter) (sort_by : string) (df_bills : list bill_view)
    : list bill_view :=
  if String.eqb sort_by "Status" then
    let status_order := ["Passed"; "Pending"; "Not Passed"] in
    sort_values qs Nat.leb
      (fun v => categorical_code status_order (bill_current_status (bv_bill v))) true df_bills
  else if String.eqb sort_by "Alphabetical (Bill Name)" then
    sort_values qs String.leb (fun v => Some (bill_name (bv_bill v))) true df_bills
  else df_bills.

(** Lines 158-163 of [render_questions_viewer]. *)
Definition sort_questions (qs : sorter) (sort_by : string) (df_qns : list question_view)
    : list question_view :=
  if String.eqb sort_by "Status" then
    let status_order := ["Answered"; "Not Answered"] in
    sort_values qs Nat.leb
      (fun v => categorical_code status_order (question_current_status (qv_question v)))
      false df_qns
  else if String.eqb sort_by "Type" then
    sort_values qs String.leb (fun v => Some (question_q_type (qv_question v))) true df_qns
  else df_qns.

(** The widgets of the two viewers. *)
Record viewer_form := {
  vf_body_type : nat;           (* questions only *)
  vf_raw_search_query : string;
  vf_suggestion : nat;
  vf_sort_by : nat
}.

(** The search box and the "Did you mean?" box under it. *)
Definition final_search_query (suggestions : list string) (form : viewer_form)
    (no_suggestion : string) : string * list banner :=
  match suggestions with
  | _ :: _ =>
      let selected_suggestion := selectbox ("" :: suggestions) (vf_suggestion form) in
      (if Text.truthy selected_suggestion then selected_suggestion
       else vf_raw_search_query form, [])
  | [] => (vf_raw_search_query form, [st_info no_suggestion])
  end.

(** [render_bills_viewer(legislative_body)]: the bills it lists, in the
    order it lists them. *)
Definition render_bills_viewer (qs : sorter) (db : database) (legislative_body : string)
    (form : viewer_form) : result (database * list bill_view * list banner) :=
  let* suggestions := fetch_search_suggestions db legislative_body (vf_raw_search_query form) in
  let '(query, said) :=
    final_search_query suggestions form
      "No suggestions found or start typing (min 2 characters)." in
  let sort_by :=
    selectbox ["Introduced Date (Newest)"; "Status"; "Alphabetical (Bill Name)"]
      (vf_sort_by form) in
  let '(df_bills, failed) := fetch_bills db legislative_body query in
  if df_empty df_bills
  then ok (db, [], said ++ failed ++ [st_warning "No Bills found matching your criteria."])
  else ok (db, sort_bills qs sort_by (df_rows df_bills), said ++ failed).

Definition legislative_bodies : list string := ["Lok Sabha"; "Rajya Sabha"; "State Assembly"].

(** [render_questions_viewer()]. *)
Definition render_questions_viewer (qs : sorter) (db : database) (form : viewer_form)
    : result (database * list question_view * list banner) :=
  let body_type := selectbox legislative_bodies (vf_body_type form) in
  let* suggestions := fetch_search_suggestions db body_type (vf_raw_search_query form) in
  let '(query, said) := final_search_query suggestions form "No suggestions found." in
  let sort_by := selectbox ["Date (Newest)"; "Status"; "Type"] (vf_sort_by form) in
  let '(df_qns, failed) := fetch_questions db body_type query in
  if df_empty df_qns
  then ok (db, [], said ++ failed
                   ++ [st_warning ("No " +:+ body_type +:+ " Questions found matching your criteria.")])
  else ok (db, sort_questions qs sort_by (df_rows df_qns), said ++ failed).

(** The order [sort_values] leaves the keys in: increasing by [le], NaN
    after every value. *)
Definition nan_last {K : Type} (le : K -> K -> bool) (a b : option K) : Prop :=
  match a, b with
  | Some x, Some y => le x y = true
  | _, None => True
  | None, Some _ => False
  end.

(** The places of the statuses in the two listings the status sort is
    checked against: Passed, Pending, Not Passed for bills; Not Answered,
    Answered for questions; any other text after them. *)
Definition bill_status_place (status : string) : nat :=
  if String.eqb status "Passed" then 0
  else if String.eqb status "Pending" then 1
  else if String.eqb status "Not Passed" then 2
  else 3.

Definition question_status_place (status : string) : nat :=
  if String.eqb status "Not Answered" then 0
  else if String.eqb status "Answered" then 1
  else 2.

(** The rows of place 0 in the order they have in [df], then those of
    place 1, and so on up to place [n - 1]: what a stable sort by [place]
    makes of [df]. *)
Definition by_place {A : Type} (place : A -> nat) (n : nat) (df : list A) : list A :=
  i ← seq 0 n; filter (fun a => place a = i) df.

(** ** The administrator's runs *)

(** The database a run leaves behind: that of its result, the one it
    started from when it raised. *)
Definition after {B : Type} (db : database) (r : result (database * B)) : database :=
  match r with inr (db', _) => db' | inl _ => db end.

(** One run that may write: the setup script, or one of the admin pages
    with some widget values.  The two creation forms are reached through
    the body selector of [render_manage_data]. *)
Inductive step : database -> database -> Prop :=
  | step_initialize db :
      step db (initialize_database db)
  | step_add_ministry db form :
      step db (after db (add_ministry db form))
  | step_add_state db form :
      step db (after db (add_state db form))
  | step_create_bill db body form env :
      step db (after db (render_bill_form db (selectbox legislative_bodies body) form env))
  | step_create_question db body form env :
      step db (after db (render_question_form db (selectbox legislative_bodies body) form env))
  | step_manage_bills db body form :
      step db (after db (manage_bills db (selectbox legislative_bodies body) form))
  | step_manage_questions db body form :
      step db (after db (manage_questions db (selectbox legislative_bodies body) form))
  | step_manage_ca db form env :
      step db (after db (render_manage_ca db form env)).

(** What any sequence of runs can make of a new file. *)
Definition reachable (db : database) : Prop := rtc step new_file db.

(** The ids a table holds, for the statements about an id it does not. *)
Definition table_ids (db : database) (t : table_name) : option (list N) :=
  match t with
  | Ministries => (fun t => meta_id <$> rows t) <$> ministries db
  | States => (fun t => meta_id <$> rows t) <$> states db
  | Bills => (fun t => bill_id <$> rows t) <$> bills db
  | Questions => (fun t => question_id <$> rows t) <$> questions db
  | CurrentAffairs => (fun t => ca_id <$> rows t) <$> current_affairs db
  end.

(** The two rules on what a stored bill or question may hold. *)
Definition bill_ok (b : bill) : Prop :=
  (bill_legislative_body b = "Rajya Sabha" -> bill_is_money_bill b = false)
  /\ (is_Some (bill_state_code b) <-> bill_legislative_body b = "State Assembly").

Definition question_ok (q : question) : Prop :=
  is_Some (question_state_code q) <-> question_legislative_body q = "State Assembly".

Definition records_ok (db : database) : Prop :=
  (forall t, bills db = Some t -> Forall bill_ok (rows t))
  /\ (forall t, questions db = Some t -> Forall question_ok (rows t)).

(** ** What the stored rows keep

    The conditions the runs of the administrator keep on the five tables;
    [store_ok] is shown to hold of every reachable database. *)

(** A code of [ministries] or [states]: [typed.upper()] of a text of one
    or two characters. *)
Definition code_ok (code : string) : Prop :=
  exists typed, code = str_upper typed /\ typed <> "" /\ Text.len typed <= 2.

(** The ids of a table grow along its rows and none is above the counter
    of the table. *)
Definition ids_ok {R : Type} (get_id : R -> N) (t : table R) : Prop :=
  StronglySorted N.lt (get_id <$> rows t)
  /\ Forall (fun r => (get_id r <= sqlite_sequence t)%N) (rows t).

Definition meta_ok (t : table meta_row) : Prop :=
  ids_ok meta_id t
  /\ NoDup (meta_code <$> rows t)
  /\ NoDup (meta_name <$> rows t)
  /\ Forall (fun r => code_ok (meta_code r) /\ meta_name r <> "") (rows t).

(** The ministry code of a record is that of a ministry row, and its state
    code, when it has one, that of a state row. *)
Definition refers_ok (ms ss : option (table meta_row)) (ministry_code state_code : option string)
    : Prop :=
  (exists t m, ms = Some t /\ m ∈ rows t /\ ministry_code = Some (meta_code m))
  /\ (forall code, state_code = Some code ->
        exists t s, ss = Some t /\ s ∈ rows t /\ meta_code s = code).

(** The columns of a bill filled from a selectbox hold one of its options,
    and the PDF, when there is one, is named after the code. *)
Definition bill_values_ok (b : bill) : Prop :=
  bill_legislative_body b ∈ legislative_bodies
  /\ bill_current_status b ∈ ["Pending"; "Passed"; "Not Passed"]
  /\ bill_approval_status b
     = Some (if String.eqb (bill_legislative_body b) "State Assembly"
             then "Governor Approval" else "President Approval")
  /\ (exists r, bill_approval_result b = Some r /\ r ∈ ["Pending"; "Yes"; "No"])
  /\ (bill_pdf_path b = None
      \/ bill_pdf_path b = Some ("pdfs/" +:+ bill_code b +:+ "_bill.pdf")).

Definition question_values_ok (q : question) : Prop :=
  question_legislative_body q ∈ legislative_bodies
  /\ question_q_type q ∈ ["Starred"; "Unstarred"]
  /\ question_current_status q ∈ ["Answered"; "Not Answered"]
  /\ (question_pdf_path q = None
      \/ question_pdf_path q = Some ("pdfs/" +:+ question_code q +:+ "_qn.pdf")).

Definition current_affair_ok (r : current_affair) : Prop :=
  ca_title r <> "" /\ ca_description r <> ""
  /\ (ca_pdf_path r = None
      \/ exists n, n ∈ randint 100 999
           /\ ca_pdf_path r
              = Some ("pdfs/CA_" +:+ replace_spaces (ca_title r) +:+ "_"
                      +:+ Text.str_int n +:+ ".pdf")).

(** The setup script makes the five tables together and nothing drops
    one: they are all there or none is. *)
Definition all_tables (db : database) : Prop :=
  is_Some (ministries db) /\ is_Some (states db) /\ is_Some (bills db)
  /\ is_Some (questions db) /\ is_Some (current_affairs db).

Definition tables_together (db : database) : Prop := db = new_file \/ all_tables db.

Definition store_ok (db : database) : Prop :=
  tables_together db
  /\ (forall t, ministries db = Some t -> meta_ok t)
  /\ (forall t, states db = Some t -> meta_ok t)
  /\ (forall t, bills db = Some t ->
        ids_ok bill_id t /\ NoDup (bill_code <$> rows t)
        /\ Forall (fun b => bill_values_ok b
                            /\ refers_ok (ministries db) (states db)
                                 (bill_ministry_code b) (bill_state_code b)) (rows t))
  /\ (forall t, questions db = Some t ->
        ids_ok question_id t /\ NoDup (question_code <$> rows t)
        /\ Forall (fun q => question_values_ok q
                            /\ refers_ok (ministries db) (states db)
                                 (question_ministry_code q) (question_state_code q)) (rows t))
  /\ (forall t, current_affairs db = Some t ->
        ids_ok ca_id t /\ Forall current_affair_ok (rows t)).

(** A run leaves a table as it was, and writes one table only. *)
Definition unchanged (t : table_name) (db db' : database) : Prop :=
  match t with
  | Ministries => ministries db' = ministries db
  | States => states db' = states db
  | Bills => bills db' = bills db
  | Questions => questions db' = questions db
  | CurrentAffairs => current_affairs db' = current_affairs db
  end.

Definition writes_only (t : table_name) (db db' : database) : Prop :=
  forall other : table_name, other <> t -> unchanged other db db'.

(** What a run of an admin page makes of the file: the same file, or the
    file with one table, which was there, replaced. *)
Inductive rewrites : table_name -> database -> database -> Prop :=
  | rewrites_nothing which db : rewrites which db db
  | rewrites_ministries db t t' :
      ministries db = Some t -> rewrites Ministries db (set_ministries db t')
  | rewrites_states db t t' :
      states db = Some t -> rewrites States db (set_states db t')
  | rewrites_bills db t t' :
      bills db = Some t -> rewrites Bills db (set_bills db t')
  | rewrites_questions db t t' :
      questions db = Some t -> rewrites Questions db (set_questions db t')
  | rewrites_current_affairs db t t' :
      current_affairs db = Some t -> rewrites CurrentAffairs db (set_current_affairs db t').

(** The table the metadata form of [which] inserts into. *)
Definition metadata_table (which : table_name) (db : database) : option (table meta_row) :=
  match which with
  | States => states db
  | _ => ministries db
  end.

(** The name picked in the ministry box or in the state box of a creation
    form: the choice among the placeholder and the names [fetch_metadata]
    lists. *)
Definition selected_name (db : database) (table_name placeholder : string) (choice : nat)
    : string :=
  selectbox (placeholder :: match fetch_metadata db table_name with
                            | inr d => Dict.keys d
                            | inl _ => []
                            end) choice.

(** The code picked in the update/delete tab of the bills, and in that of
    the questions. *)
Definition selected_bill_code (db : database) (body_type : string) (form : update_delete_form)
    : string :=
  selectbox (select_code :: (col_code <$> (cols_of_bill <$> df_rows (fetch_bills db body_type "").1)))
    (ud_selected_code form).

Definition selected_question_code (db : database) (body_type : string)
    (form : update_delete_form) : string :=
  selectbox
    (select_code
     :: (col_code <$> (cols_of_question <$> df_rows (fetch_questions db body_type "").1)))
    (ud_selected_code form).

(** ** [run.py] *)

Definition ADMIN_PASSWORD : string := "admin".

(** [check_database_exists()]: [SELECT 1 FROM bills LIMIT 1] raises when
    there is no table [bills], and only then. *)
Definition check_database_exists (db : database) : bool :=
  match the_table "bills" (bills db) with
  | inr _ => true
  | inl _ => false
  end.

(** [st.session_state]: a key is [None] until the script sets it. *)
Record session_state := {
  authenticated : option bool;
  page : option string
}.

Definition new_session : session_state := {| authenticated := None; page := None |}.

(** The widgets of one run of the script: the text of the password box
    and, for each button, whether it was pressed.  A widget the run does
    not draw is not read. *)
Record widgets := {
  w_password : string;
  w_login : bool;
  w_logout : bool;
  w_manage_metadata : bool;
  w_manage_data : bool;
  w_manage_ca : bool;
  w_nav_ls : bool;
  w_nav_qn : bool;
  w_nav_sa : bool;
  w_nav_ca : bool
}.

Definition no_click : widgets :=
  {| w_password := ""; w_login := false; w_logout := false; w_manage_metadata := false;
     w_manage_data := false; w_manage_ca := false; w_nav_ls := false; w_nav_qn := false;
     w_nav_sa := false; w_nav_ca := false |}.

(** The renderer the page router calls, if any. *)
Inductive rendered :=
  | manage_metadata_page
  | manage_data_page
  | manage_ca_page
  | admin_dashboard
  | bills_viewer (legislative_body : string)
  | questions_viewer
  | ca_viewer
  | nothing.

(** [if st.button(...): st.session_state['page'] = target]. *)
Definition button_sets (pressed : bool) (target : string) (page : option string) : option string :=
  if pressed then Some target else page.

(** Lines 116-144: the page router. *)
Definition route (authenticated : bool) (page : string) : rendered :=
  if authenticated then
    if String.eqb page "manage_metadata" then manage_metadata_page
    else if String.eqb page "manage_data" then manage_data_page
    else if String.eqb page "manage_ca" then manage_ca_page
    else admin_dashboard
  else
    if String.eqb page "lok_sabha" then bills_viewer "Lok Sabha"
    else if String.eqb page "rajya_sabha" then bills_viewer "Rajya Sabha"
    else if String.eqb page "state_assemblies" then bills_viewer "State Assembly"
    else if String.eqb page "questions" then questions_viewer
    else if String.eqb page "current_affairs" then ca_viewer
    else nothing.

(** One pass over the script, from its first line to the router or to
    [st.rerun()], which gives [None]. *)
Definition script_pass (s : session_state) (w : widgets) : session_state * option rendered :=
  let was_authenticated := default false (authenticated s) in
  let '(now_authenticated, rerun) :=
    if negb was_authenticated then
      if w_login w then
        if String.eqb (w_password w) ADMIN_PASSWORD then (true, true) else (false, false)
      else (false, false)
    else if w_logout w then (false, true)
    else (true, false) in
  if rerun then ({| authenticated := Some now_authenticated; page := page s |}, None)
  else
    let menu :=
      if now_authenticated then
        button_sets (w_manage_ca w) "manage_ca"
          (button_sets (w_manage_data w) "manage_data"
             (button_sets (w_manage_metadata w) "manage_metadata" (page s)))
      else page s in
    let initialised := Some (default "home" menu) in
    let navigated :=
      default "home"
        (button_sets (w_nav_ca w) "current_affairs"
           (button_sets (w_nav_sa w) "state_assemblies"
              (button_sets (w_nav_qn w) "questions"
                 (button_sets (w_nav_ls w) "lok_sabha" initialised)))) in
    ({| authenticated := Some now_authenticated; page := Some navigated |},
     Some (route now_authenticated navigated)).

(** One run of [run.py]: after [st.rerun()] the script starts again with
    the session it left and no button pressed. *)
Definition run_script (s : session_state) (w : widgets) : session_state * rendered :=
  match script_pass s w with
  | (s', Some shown) => (s', shown)
  | (s', None) =>
      match script_pass s' no_click with
      | (s'', Some shown) => (s'', shown)
      | (s'', None) => (s'', nothing)   (* not reached: no button is pressed *)
      end
  end.

(** The sessions a browser can be in: any number of runs after the first
    visit. *)
Definition session_step (s s' : session_state) : Prop :=
  exists w, (run_script s w).1 = s'.

Definition session_reachable (s : session_state) : Prop := rtc session_step new_session s.

Definition is_admin_page (shown : rendered) : bool :=
  match shown with
  | manage_metadata_page | manage_data_page | manage_ca_page | admin_dashboard => true
  | _ => false
  end.

(** ** [ai_services.py] *)

Definition key_placeholder : string := "YOUR_GEMINI_API_KEY_HERE".

(** Lines 9-16: the key of the environment, the placeholder when there is
    none or an empty one. *)
Definition GEMINI_API_KEY (environ_key : option string) : string :=
  match environ_key with
  | Some key => if Text.truthy key then key else key_placeholder
  | None => key_placeholder
  end.

(** What [generate_content] comes back with: a response, an [APIError],
    or another exception. *)
Inductive api_reply :=
  | response_text (text : string)
  | raised_APIError (details : string)
  | raised_Exception (details : string).

(** What [get_ai_summary] asks of the world outside: whether a path
    exists, the text of each page of a PDF ([inl]: reading it raised),
    the environment variable, and the model behind the API, asked with a
    key, a model name, a system instruction and the contents. *)
Record outside := {
  os_path_exists : string -> bool;
  pdf_pages : string -> string + list (option string);
  environ_GEMINI_API_KEY : option string;
  generate_content : string -> string -> string -> string -> api_reply
}.

(** [extract_text_from_pdf(pdf_path)]. *)
Definition extract_text_from_pdf (o : outside) (pdf_path : string) : option string * list banner :=
  match pdf_pages o pdf_path with
  | inr pages => (Some (fold_left (fun text page => text +:+ default "" page) pages ""), [])
  | inl e => (None, [st_error ("Error reading PDF: " +:+ e)])
  end.

Definition system_prompt : string :=
  "You are a legislative analyst. Summarize the provided text of an Indian Bill or Question. "
  +:+ "Provide a concise summary (max 100 words) covering the document's key objectives, "
  +:+ "main provisions, and intended impact. Use clear, formal language.".

Definition newline : string := String (ascii_of_nat 10) "".

Definition user_prompt (bill_text : string) : string :=
  "Please summarize the following text:" +:+ newline +:+ newline +:+ "---"
  +:+ newline +:+ newline +:+ bill_text.

Definition no_pdf : banner := st_warning "No PDF document available for summarization.".

Definition too_short : banner :=
  st_warning "The PDF text extracted is too short to generate a meaningful summary.".

(** [get_ai_summary(pdf_path)]: the banners it shows (the heading above
    the summary is left out). *)
Definition get_ai_summary (o : outside) (pdf_path : option string) : list banner :=
  match pdf_path with
  | None => [no_pdf]
  | Some path =>
      if negb (Text.truthy path) || negb (os_path_exists o path) then [no_pdf]
      else
        let '(bill_text, said) := extract_text_from_pdf o path in
        match bill_text with
        | None => said ++ [too_short]
        | Some bill_text =>
            if negb (Text.truthy bill_text) || (Text.len bill_text <? 100)%nat
            then said ++ [too_short]
            else
              let key := GEMINI_API_KEY (environ_GEMINI_API_KEY o) in
              if String.eqb key key_placeholder || negb (Text.truthy key)
              then said ++ [st_error "🚨 API Key Error: Please replace 'YOUR_GEMINI_API_KEY_HERE' with your actual key."]
              else
                match generate_content o key "gemini-2.5-flash" system_prompt
                        (user_prompt bill_text) with
                | response_text text => said ++ [st_info text; st_success "Analysis Complete."]
                | raised_APIError e =>
                    said ++ [st_error ("Gemini API Error: Failed to generate summary. Details: "
                                       +:+ e)]
                | raised_Exception e =>
                    said ++ [st_error ("An unexpected error occurred during summarization: "
                                       +:+ e)]
                end
        end
  end.

End program.

Section sample.
#[local] Existing Instance ascii_case.

(** ** A sample history

    The setup script, one ministry, one state, three bills (the Rajya
    Sabha one with the Money Bill box ticked) and five Lok Sabha
    questions, each made by its form. *)

Definition sample_bill_form (name date : string) : bill_form :=
  {| bf_bill_name := name; bf_introduced_by := "A. Member"; bf_introduced_date := date;
     bf_state := 1; bf_ministry := 1; bf_current_status := 0; bf_approval_result := 0;
     bf_money_bill := true; bf_votes_favour := 10; bf_votes_against := 3;
     bf_pdf := None; bf_submitted := true |}.

Definition sample_question_form (title date : string) (status : nat) : question_form :=
  {| qf_question_title := title; qf_introduced_by := "A. Member"; qf_introduced_date := date;
     qf_state := 1; qf_ministry := 1; qf_q_type := 0; qf_current_status := status;
     qf_pdf := None; qf_submitted := true |}.

(** An environment in which [random.randint(1000, 9999)] gives [n], for
    [n] from 1000 to 9999, and the disk can be written. *)
Definition drawn (n : Z) : environment := {| random_source := n - 1000; disk_ok := true |}.

Definition sample_0 : database := initialize_database new_file.

Definition sample_1 : database :=
  after sample_0
    (add_ministry sample_0 {| mf_code := "fn"; mf_name := "Finance"; mf_submitted := true |}).

Definition sample_2 : database :=
  after sample_1
    (add_state sample_1 {| mf_code := "ka"; mf_name := "Karnataka"; mf_submitted := true |}).

Definition sample_3 : database :=
  after sample_2
    (render_bill_form sample_2 (selectbox legislative_bodies 0)
       (sample_bill_form "Finance Reform Act" "2024-01-02") (drawn 1234)).

Definition sample_4 : database :=
  after sample_3
    (render_bill_form sample_3 (selectbox legislative_bodies 1)
       (sample_bill_form "Budget" "2024-01-03") (drawn 4321)).

Definition sample_5 : database :=
  after sample_4
    (render_bill_form sample_4 (selectbox legislative_bodies 2)
       (sample_bill_form "Water Act" "2024-01-04") (drawn 9999)).

Definition sample_6 : database :=
  after sample_5
    (render_question_form sample_5 (selectbox legislative_bodies 0)
       (sample_question_form "Q1" "2024-02-01" 0) (drawn 1000)).

Definition sample_7 : database :=
  after sample_6
    (render_question_form sample_6 (selectbox legislative_bodies 0)
       (sample_question_form "Q2" "2024-02-02" 1) (drawn 1001)).

Definition sample_8 : database :=
  after sample_7
    (render_question_form sample_7 (selectbox legislative_bodies 0)
       (sample_question_form "Q3" "2024-02-03" 0) (drawn 1002)).

Definition sample_9 : database :=
  after sample_8
    (render_question_form sample_8 (selectbox legislative_bodies 0)
       (sample_question_form "Q4" "2024-02-04" 1) (drawn 1003)).

(** The row [fetch_bills] returns for the first bill. *)
Definition sample_bill_view : bill_view :=
  {| bv_bill :=
       {| bill_id := 1; bill_code := "BL-FN-1234"; bill_name := "Finance Reform Act";
          bill_introduced_by := "A. Member"; bill_ministry_code := Some "FN";
          bill_legislative_body := "Lok Sabha"; bill_state_code := None;
          bill_votes_favour := 10; bill_votes_against := 3;
          bill_current_status := "Pending";
          bill_approval_status := Some "President Approval";
          bill_approval_result := Some "Pending"; bill_is_money_bill := true;
          bill_pdf_path := None; bill_introduced_date := "2024-01-02" |};
     bv_ministry_name := "Finance"; bv_state_name := None |}.

Definition sample_db : database :=
  after sample_9
    (render_question_form sample_9 (selectbox legislative_bodies 0)
       (sample_question_form "Q5" "2024-02-05" 0) (drawn 1004)).

(** The sample with its ministry row deleted, and with its state row
    deleted. *)
Definition orphan_db : database :=
  (delete_record sample_db "ministries" (Some 1%N) "FN").1.

Definition stateless_db : database :=
  (delete_record sample_db "states" (Some 1%N) "KA").1.

(** A world with one PDF of three pages, 126 characters in all, and a key. *)
Definition sample_outside : outside :=
  {| os_path_exists := fun p => String.eqb p "pdfs/BL-FN-1234_bill.pdf";
     pdf_pages := fun p =>
       inr [Some "An Act to reform the finances of the Union and for matters connected ";
            None;
            Some "therewith or incidental thereto, as passed by the Houses."];
     environ_GEMINI_API_KEY := Some "k-123";
     generate_content := fun key model system contents =>
       response_text ("Summary of " +:+ Text.str_int (Z.of_nat (Text.len contents))
                      +:+ " characters") |}.

(** The sample with one current affairs record, published with a PDF. *)
Definition sample_ca_form : current_affairs_form :=
  {| cf_title := "Budget session opens"; cf_published_date := "2024-02-01";
     cf_url := "https://example.org/budget"; cf_description := "Both Houses meet.";
     cf_pdf := Some "%PDF"; cf_submitted := true; cf_selected_title := 0;
     cf_delete_clicked := false |}.

Definition sample_ca_db : database :=
  after sample_db
    (render_manage_ca sample_db sample_ca_form {| random_source := 23; disk_ok := true |}).

End sample.

(** * Properties *)

#[local] Set Warnings "-clear-no-such-hyp".

Section properties.
Context {py : str_case}.

(** ** Text *)

Example lower_example : Text.lower "BL-FN-1234 Finance" = "bl-fn-1234 finance".
Proof. reflexivity. Qed.

Example str_int_example :
  Text.str_int 1000 = "1000" /\ Text.str_int 9999 = "9999" /\ Text.str_int 0 = "0"
  /\ Text.str_int (-42) = "-42".
Proof. repeat split; reflexivity. Qed.

Example like_examples :
  Text.like "%fin%" "ministry of finance" = true
  /\ Text.like "%a_c%" "xabcx" = true
  /\ Text.like "%a_c%" "xacx" = false
  /\ Text.like "% %" "budget" = false.
Proof. repeat split; reflexivity. Qed.

(** ** Text: LIKE with a pattern free of wildcards is the substring test *)

Lemma app_nil_l (s : string) : "" +:+ s = s.
Proof. reflexivity. Qed.

Lemma app_cons (c : ascii) (s t : string) : String c s +:+ t = String c (s +:+ t).
Proof. reflexivity. Qed.

Lemma app_nil_r (s : string) : s +:+ "" = s.
Proof. induction s as [|c s IH]; [done|]. by rewrite app_cons, IH. Qed.

Lemma lower_char_idem (c : ascii) : Text.lower_char (Text.lower_char c) = Text.lower_char c.
Proof. by destruct c as [[] [] [] [] [] [] [] []]. Qed.

Lemma lower_char_percent (c : ascii) : Ascii.eqb (Text.lower_char c) "%" = Ascii.eqb c "%".
Proof. by destruct c as [[] [] [] [] [] [] [] []]. Qed.

Lemma lower_char_underscore (c : ascii) : Ascii.eqb (Text.lower_char c) "_" = Ascii.eqb c "_".
Proof. by destruct c as [[] [] [] [] [] [] [] []]. Qed.

Lemma lower_idem (s : string) : Text.lower (Text.lower s) = Text.lower s.
Proof. induction s as [|c s IH]; simpl; [done|]. by rewrite lower_char_idem, IH. Qed.

Lemma no_wildcard_lower (s : string) : Text.no_wildcard (Text.lower s) = Text.no_wildcard s.
Proof.
  induction s as [|c s IH]; simpl; [done|].
  by rewrite lower_char_percent, lower_char_underscore, IH.
Qed.

Lemma lower_app_inv (s a b : string) :
  Text.lower s = a +:+ b -> exists s1 s2, s = s1 +:+ s2 /\ Text.lower s1 = a /\ Text.lower s2 = b.
Proof.
  revert s. induction a as [|c a IH]; intros s H.
  - exists "", s. by rewrite !app_nil_l in *.
  - rewrite app_cons in H. destruct s as [|d s]; simpl in H; [done|].
    injection H as Hc Hs. destruct (IH _ Hs) as (s1 & s2 & -> & H1 & H2).
    exists (String d s1), s2. rewrite app_cons. simpl. by rewrite Hc, H1.
Qed.

Lemma like_star (p t : string) :
  Text.like (String "%" p) t = true <-> exists pre suf, t = pre +:+ suf /\ Text.like p suf = true.
Proof.
  change (Text.like (String "%" p) t) with
    ((fix star (t : string) : bool :=
        Text.like p t || match t with EmptyString => false | String _ t' => star t' end) t).
  induction t as [|c t IH].
  - rewrite orb_false_r. split.
    + intros H. by exists "", "".
    + intros (pre & suf & E & H). destruct pre; [|done]. rewrite app_nil_l in E. by subst.
  - rewrite orb_true_iff, IH. split.
    + intros [H | (pre & suf & -> & H)].
      * by exists "", (String c t).
      * by exists (String c pre), suf.
    + intros (pre & suf & E & H). destruct pre as [|d pre].
      * left. rewrite app_nil_l in E. by subst.
      * right. rewrite app_cons in E. injection E as -> ->. by exists pre, suf.
Qed.

Lemma like_literal (p r t : string) :
  Text.no_wildcard p = true ->
  Text.like (p +:+ r) t = true
  <-> exists t1 t2, t = t1 +:+ t2 /\ Text.lower t1 = Text.lower p /\ Text.like r t2 = true.
Proof.
  revert t. induction p as [|c p IH]; intros t Hp.
  - rewrite app_nil_l. split.
    + intros H. by exists "", t.
    + intros (t1 & t2 & -> & H1 & H2). destruct t1; [|done]. by rewrite app_nil_l.
  - simpl in Hp. apply andb_true_iff in Hp as [Hc Hp]. apply andb_true_iff in Hc as [Hc1 Hc2].
    apply negb_true_iff in Hc1, Hc2.
    rewrite app_cons. simpl. rewrite Hc1. destruct t as [|d t].
    + split; [done|]. intros (t1 & t2 & E & H1 & _). destruct t1; done.
    + rewrite Hc2. simpl. rewrite andb_true_iff, (IH t Hp), Ascii.eqb_eq. split.
      * intros (Hcd & t1 & t2 & -> & H1 & H2). exists (String d t1), t2.
        rewrite app_cons. simpl. by rewrite H1, Hcd.
      * intros (t1 & t2 & E & H1 & H2). destruct t1 as [|e t1]; [done|].
        rewrite app_cons in E. injection E as -> ->. simpl in H1. injection H1 as H0 H1.
        split; [done|]. by exists t1, t2.
Qed.

Lemma like_percent (t : string) : Text.like "%" t = true.
Proof. apply like_star. exists t, "". by rewrite app_nil_r. Qed.

Lemma like_contains (p f : string) :
  Text.no_wildcard p = true ->
  Text.like ("%" +:+ p +:+ "%") (Text.lower f) = true
  <-> Text.substring_of (Text.lower p) (Text.lower f).
Proof.
  intros Hp. unfold Text.substring_of.
  change ("%" +:+ p +:+ "%") with (String "%" (p +:+ "%")).
  rewrite like_star. split.
  - intros (pre & suf & E & H).
    apply like_literal in H as (t1 & t2 & -> & H1 & _); [|done].
    exists pre, t2. rewrite E. do 2 f_equal.
    apply lower_app_inv in E as (s1 & s2 & _ & _ & E).
    apply lower_app_inv in E as (s3 & s4 & _ & E & _).
    rewrite <- H1, <- E. by rewrite lower_idem.
  - intros (pre & post & E). exists pre, (Text.lower p +:+ post). split; [done|].
    apply like_literal; [done|].
    exists (Text.lower p), post. split_and!; [done|apply lower_idem|].
    destruct post; apply like_percent.
Qed.

(** ** The joins and the WHERE clause of the two fetches *)

Lemma elem_of_select_joined {R : Type} (src : source R) xs ms ss lb q (j : R * string * option string) :
  j ∈ select_joined src xs ms ss lb q
  <-> j.1.1 ∈ xs
      /\ j.1.2 ∈ join_ministry ms (src_ministry_code src j.1.1)
      /\ j.2 ∈ left_join_state ss (src_state_code src j.1.1)
      /\ where_clause lb q (src_legislative_body src j.1.1) (src_code src j.1.1)
           (src_name src j.1.1) j.1.2 = true.
Proof.
  unfold select_joined. rewrite merge_sort_Permutation, list_elem_of_filter.
  rewrite list_elem_of_bind. destruct j as [[x mn] sn]. simpl. split.
  - intros (Hw & y & Hy & Hx). apply list_elem_of_bind in Hy as (mn' & Hy & Hmn).
    apply list_elem_of_bind in Hy as (sn' & Hy & Hsn).
    apply list_elem_of_singleton in Hy. by simplify_eq.
  - intros (Hx & Hmn & Hsn & Hw). split; [done|]. exists x. split; [|done].
    apply list_elem_of_bind. exists mn. split; [|done].
    apply list_elem_of_bind. exists sn. split; [|done]. by apply list_elem_of_singleton.
Qed.

Lemma elem_of_join_ministry ms code mn :
  mn ∈ join_ministry ms code <-> exists m, m ∈ ms /\ code = Some (meta_code m) /\ meta_name m = mn.
Proof.
  unfold join_ministry. rewrite list_elem_of_fmap. setoid_rewrite list_elem_of_filter.
  naive_solver.
Qed.

Lemma left_join_state_None ss code :
  (forall s, s ∈ ss -> code <> Some (meta_code s)) -> left_join_state ss code = [None].
Proof.
  intros H. unfold left_join_state.
  destruct (filter _ ss) as [|s l] eqn:E; [done|].
  assert (s ∈ filter (fun s => code = Some (meta_code s)) ss) as Hs by (rewrite E; left).
  apply list_elem_of_filter in Hs as [Hc Hs]. by destruct (H s Hs).
Qed.

Lemma where_clause_true lb q body code name mn :
  where_clause lb q body code name mn = true
  <-> body = lb /\ (q = "" \/ search_matches (search_like q) code name mn = true).
Proof.
  unfold where_clause. rewrite andb_true_iff, String.eqb_eq.
  destruct q; simpl; naive_solver.
Qed.

(** The three-field test of the search: the query as [str.lower] leaves
    it is, up to the case of the letters A-Z, a substring of the code,
    the name or the ministry name. *)
Lemma search_matches_substring q code name mn :
  Text.no_wildcard (str_lower q) = true ->
  search_matches (search_like q) code name mn = true
  <-> Text.substring_of (Text.lower (str_lower q)) (Text.lower code)
      \/ Text.substring_of (Text.lower (str_lower q)) (Text.lower name)
      \/ Text.substring_of (Text.lower (str_lower q)) (Text.lower mn).
Proof.
  intros Hq. unfold search_matches, search_like.
  rewrite !orb_true_iff, !like_contains by done. tauto.
Qed.

Lemma str_lower_empty : str_lower "" = "".
Proof. by rewrite str_lower_ascii. Qed.

(** The query is folded by Python, the stored text by SQLite.  With
    ['CAFÉ'.lower()] being ['café'], the query ['CAFÉ'] finds a stored
    ['Café']; the query ['café'] does not find a stored ['CAFÉ'], whose
    [É] neither LOWER nor LIKE folds. *)
Remark query_is_folded_by_python :
  str_lower "CAFÉ" = "café" -> str_lower "café" = "café" ->
  search_matches (search_like "CAFÉ") "Café" "" "" = true
  /\ search_matches (search_like "café") "CAFÉ" "" "" = false.
Proof.
  intros Hupper Hlower. unfold search_matches, search_like. rewrite Hupper, Hlower.
  split; reflexivity.
Qed.

Lemma substring_of_empty (s : string) : Text.substring_of "" s.
Proof. by exists "", s. Qed.


Lemma fetch_bills_rows db bs ms ss lb q :
  bills db = Some bs -> ministries db = Some ms -> states db = Some ss ->
  fetch_bills db lb q
  = ({| df_columns := bill_columns;
        df_rows := bill_view_of <$> select_joined bill_source (rows bs) (rows ms) (rows ss) lb q |},
     []).
Proof. intros Hb Hm Hs. unfold fetch_bills, fetch_bills_query. by rewrite Hb, Hm, Hs. Qed.

Lemma fetch_questions_rows db qs ms ss lb q :
  questions db = Some qs -> ministries db = Some ms -> states db = Some ss ->
  fetch_questions db lb q
  = ({| df_columns := question_columns;
        df_rows := question_view_of
                     <$> select_joined question_source (rows qs) (rows ms) (rows ss) lb q |},
     []).
Proof. intros Hq Hm Hs. unfold fetch_questions, fetch_questions_query. by rewrite Hq, Hm, Hs. Qed.

Lemma elem_of_bill_views (l : list (bill * string * option string)) (v : bill_view) :
  v ∈ bill_view_of <$> l <-> (bv_bill v, bv_ministry_name v, bv_state_name v) ∈ l.
Proof.
  rewrite list_elem_of_fmap. split.
  - intros ([[b mn] sn] & -> & H). done.
  - intros H. eexists. split; [|exact H]. by destruct v.
Qed.

Lemma elem_of_question_views (l : list (question * string * option string)) (v : question_view) :
  v ∈ question_view_of <$> l <-> (qv_question v, qv_ministry_name v, qv_state_name v) ∈ l.
Proof.
  rewrite list_elem_of_fmap. split.
  - intros ([[b mn] sn] & -> & H). done.
  - intros H. eexists. split; [|exact H]. by destruct v.
Qed.

(** C9.  Both fetches join with an inner join on the ministry code and a
    left join on the state code: every row they return carries the name of
    a ministry row of its code, so a bill or question whose ministry code
    matches no ministry is in no result, whatever the body and the search;
    and a record of a ministry that exists is returned for its own body
    and the empty search even when no state has its state code, with a
    null state name. *)
Theorem fetch_inner_join_ministry_left_join_state
    (db : database) (bs : table bill) (qs : table question) (ms ss : table meta_row)
    (legislative_body search_term : string) :
  bills db = Some bs -> questions db = Some qs ->
  ministries db = Some ms -> states db = Some ss ->
  (forall v, v ∈ df_rows (fetch_bills db legislative_body search_term).1 ->
     exists m, m ∈ rows ms /\ bill_ministry_code (bv_bill v) = Some (meta_code m)
               /\ bv_ministry_name v = meta_name m)
  /\ (forall b, b ∈ rows bs ->
        (forall m, m ∈ rows ms -> bill_ministry_code b <> Some (meta_code m)) ->
        forall v, v ∈ df_rows (fetch_bills db legislative_body search_term).1 -> bv_bill v <> b)
  /\ (forall b m, b ∈ rows bs -> m ∈ rows ms -> bill_ministry_code b = Some (meta_code m) ->
        (forall s, s ∈ rows ss -> bill_state_code b <> Some (meta_code s)) ->
        {| bv_bill := b; bv_ministry_name := meta_name m; bv_state_name := None |}
          ∈ df_rows (fetch_bills db (bill_legislative_body b) "").1)
  /\ (forall v, v ∈ df_rows (fetch_questions db legislative_body search_term).1 ->
        exists m, m ∈ rows ms /\ question_ministry_code (qv_question v) = Some (meta_code m)
                  /\ qv_ministry_name v = meta_name m)
  /\ (forall q, q ∈ rows qs ->
        (forall m, m ∈ rows ms -> question_ministry_code q <> Some (meta_code m)) ->
        forall v, v ∈ df_rows (fetch_questions db legislative_body search_term).1 ->
                  qv_question v <> q)
  /\ (forall q m, q ∈ rows qs -> m ∈ rows ms ->
        question_ministry_code q = Some (meta_code m) ->
        (forall s, s ∈ rows ss -> question_state_code q <> Some (meta_code s)) ->
        {| qv_question := q; qv_ministry_name := meta_name m; qv_state_name := None |}
          ∈ df_rows (fetch_questions db (question_legislative_body q) "").1).
Proof.
  intros Hb Hq Hm Hs.
  assert (forall v, v ∈ df_rows (fetch_bills db legislative_body search_term).1 ->
     exists m, m ∈ rows ms /\ bill_ministry_code (bv_bill v) = Some (meta_code m)
               /\ bv_ministry_name v = meta_name m) as Hbills.
  { intros v. rewrite (fetch_bills_rows db bs ms ss) by done. simpl.
    rewrite elem_of_bill_views, elem_of_select_joined. simpl.
    intros (_ & Hj & _). apply elem_of_join_ministry in Hj as (m & ? & ? & ?). eauto. }
  assert (forall v, v ∈ df_rows (fetch_questions db legislative_body search_term).1 ->
     exists m, m ∈ rows ms /\ question_ministry_code (qv_question v) = Some (meta_code m)
               /\ qv_ministry_name v = meta_name m) as Hquestions.
  { intros v. rewrite (fetch_questions_rows db qs ms ss) by done. simpl.
    rewrite elem_of_question_views, elem_of_select_joined. simpl.
    intros (_ & Hj & _). apply elem_of_join_ministry in Hj as (m & ? & ? & ?). eauto. }
  split_and!.
  - done.
  - intros b _ Hnone v Hv <-. destruct (Hbills v Hv) as (m & Hin & Hcode & _).
    by apply (Hnone m).
  - intros b m Hin Hmin Hcode Hstate. rewrite (fetch_bills_rows db bs ms ss) by done. simpl.
    apply elem_of_bill_views, elem_of_select_joined. simpl. split_and!.
    + done.
    + apply elem_of_join_ministry. eauto.
    + rewrite left_join_state_None by done. left.
    + apply where_clause_true. auto.
  - done.
  - intros q _ Hnone v Hv <-. destruct (Hquestions v Hv) as (m & Hin & Hcode & _).
    by apply (Hnone m).
  - intros q m Hin Hmin Hcode Hstate. rewrite (fetch_questions_rows db qs ms ss) by done. simpl.
    apply elem_of_question_views, elem_of_select_joined. simpl. split_and!.
    + done.
    + apply elem_of_join_ministry. eauto.
    + rewrite left_join_state_None by done. left.
    + apply where_clause_true. auto.
Qed.

Lemma select_joined_search {R : Type} (src : source R) xs ms ss lb q
    (j : R * string * option string) :
  Text.no_wildcard (str_lower q) = true ->
  j ∈ select_joined src xs ms ss lb q
  <-> (j.1.1 ∈ xs /\ src_legislative_body src j.1.1 = lb
       /\ (exists m, m ∈ ms /\ src_ministry_code src j.1.1 = Some (meta_code m)
                     /\ j.1.2 = meta_name m)
       /\ j.2 ∈ left_join_state ss (src_state_code src j.1.1))
      /\ (Text.substring_of (Text.lower (str_lower q)) (Text.lower (src_code src j.1.1))
          \/ Text.substring_of (Text.lower (str_lower q)) (Text.lower (src_name src j.1.1))
          \/ Text.substring_of (Text.lower (str_lower q)) (Text.lower j.1.2)).
Proof.
  intros Hq. rewrite elem_of_select_joined, where_clause_true, elem_of_join_ministry.
  rewrite (search_matches_substring q) by done.
  assert (q = "" -> Text.substring_of (Text.lower (str_lower q))
                      (Text.lower (src_code src j.1.1))) as Hempty.
  { intros ->. rewrite str_lower_empty. apply substring_of_empty. }
  split.
  - intros (? & (m & ? & ? & ?) & ? & ? & [?|?]); (split; [split_and!; by eauto|auto]).
  - intros ((? & ? & (m & ? & ? & ?) & ?) & ?). split_and!; by eauto.
Qed.

(** The rows of the join for the empty query: every stored row of the
    body with the name of a ministry of its code. *)
Lemma select_joined_all {R : Type} (src : source R) xs ms ss lb
    (j : R * string * option string) :
  j ∈ select_joined src xs ms ss lb ""
  <-> j.1.1 ∈ xs /\ src_legislative_body src j.1.1 = lb
      /\ (exists m, m ∈ ms /\ src_ministry_code src j.1.1 = Some (meta_code m)
                    /\ j.1.2 = meta_name m)
      /\ j.2 ∈ left_join_state ss (src_state_code src j.1.1).
Proof.
  rewrite elem_of_select_joined, where_clause_true, elem_of_join_ministry. split.
  - intros (? & (m & ? & ? & ?) & ? & ? & _). split_and!; by eauto.
  - intros (? & ? & (m & ? & ? & ?) & ?). split_and!; by eauto.
Qed.

(** C5 (as amended).  [fetch_bills] and [fetch_questions] return the rows
    of the join of the selected body: a stored record of that body, the
    name of a ministry of its ministry code, and the name of a state of
    its state code or no name when no state has it.  For a query that
    [str.lower] leaves without [%] and [_], they return exactly those of
    these rows in which the lower-cased query is, up to the case of the
    letters A-Z, a substring of the code, of the name or title, or of the
    ministry name; for a query of ASCII characters [str.lower] is the
    folding of A-Z, so that the test is the substring test on the texts
    with A-Z folded.  The empty query returns every row of the join. *)
Theorem search_is_substring_of_code_name_or_ministry
    (db : database) (bs : table bill) (qs : table question) (ms ss : table meta_row)
    (legislative_body search_term : string) :
  bills db = Some bs -> questions db = Some qs ->
  ministries db = Some ms -> states db = Some ss ->
  Text.no_wildcard (str_lower search_term) = true ->
  (forall v,
     v ∈ df_rows (fetch_bills db legislative_body search_term).1
     <-> (bv_bill v ∈ rows bs
          /\ bill_legislative_body (bv_bill v) = legislative_body
          /\ (exists m, m ∈ rows ms /\ bill_ministry_code (bv_bill v) = Some (meta_code m)
                        /\ bv_ministry_name v = meta_name m)
          /\ bv_state_name v ∈ left_join_state (rows ss) (bill_state_code (bv_bill v)))
         /\ (Text.substring_of (Text.lower (str_lower search_term))
               (Text.lower (bill_code (bv_bill v)))
             \/ Text.substring_of (Text.lower (str_lower search_term))
                  (Text.lower (bill_name (bv_bill v)))
             \/ Text.substring_of (Text.lower (str_lower search_term))
                  (Text.lower (bv_ministry_name v))))
  /\ (forall v,
        v ∈ df_rows (fetch_questions db legislative_body search_term).1
        <-> (qv_question v ∈ rows qs
             /\ question_legislative_body (qv_question v) = legislative_body
             /\ (exists m, m ∈ rows ms
                           /\ question_ministry_code (qv_question v) = Some (meta_code m)
                           /\ qv_ministry_name v = meta_name m)
             /\ qv_state_name v
                ∈ left_join_state (rows ss) (question_state_code (qv_question v)))
            /\ (Text.substring_of (Text.lower (str_lower search_term))
                  (Text.lower (question_code (qv_question v)))
                \/ Text.substring_of (Text.lower (str_lower search_term))
                     (Text.lower (question_title (qv_question v)))
                \/ Text.substring_of (Text.lower (str_lower search_term))
                     (Text.lower (qv_ministry_name v))))
  /\ (Text.is_ascii search_term = true ->
      Text.lower (str_lower search_term) = Text.lower search_term)
  /\ (forall v,
        v ∈ df_rows (fetch_bills db legislative_body "").1
        <-> bv_bill v ∈ rows bs
            /\ bill_legislative_body (bv_bill v) = legislative_body
            /\ (exists m, m ∈ rows ms /\ bill_ministry_code (bv_bill v) = Some (meta_code m)
                          /\ bv_ministry_name v = meta_name m)
            /\ bv_state_name v ∈ left_join_state (rows ss) (bill_state_code (bv_bill v)))
  /\ (forall v,
        v ∈ df_rows (fetch_questions db legislative_body "").1
        <-> qv_question v ∈ rows qs
            /\ question_legislative_body (qv_question v) = legislative_body
            /\ (exists m, m ∈ rows ms
                          /\ question_ministry_code (qv_question v) = Some (meta_code m)
                          /\ qv_ministry_name v = meta_name m)
            /\ qv_state_name v
               ∈ left_join_state (rows ss) (question_state_code (qv_question v))).
Proof.
  intros Hb Hq Hm Hs Hw. split_and!.
  - intros v. rewrite (fetch_bills_rows db bs ms ss) by done. simpl.
    rewrite elem_of_bill_views. by rewrite (select_joined_search bill_source) by done.
  - intros v. rewrite (fetch_questions_rows db qs ms ss) by done. simpl.
    rewrite elem_of_question_views.
    by rewrite (select_joined_search question_source) by done.
  - intros Ha. rewrite str_lower_ascii by done. apply lower_idem.
  - intros v. rewrite (fetch_bills_rows db bs ms ss) by done. simpl.
    rewrite elem_of_bill_views. by rewrite (select_joined_all bill_source).
  - intros v. rewrite (fetch_questions_rows db qs ms ss) by done. simpl.
    rewrite elem_of_question_views. by rewrite (select_joined_all question_source).
Qed.

(** ** A failed query *)

(** C10.  When the query of [fetch_bills] or [fetch_questions] raises,
    whatever the exception, the function raises nothing: it returns
    [pd.DataFrame()], which has no rows and is [empty], after showing the
    error; a query that ran and matched nothing returns a frame with no
    rows that is [empty] too, so neither the returned rows nor [df.empty]
    tell the two apart, and the management page, which tests [df.empty],
    answers both with the same "No ... found" line and no write. *)
Theorem fetch_swallows_query_failure
    (db : database) (legislative_body search_term : string) (e : exception) :
  (fetch_bills_query db legislative_body search_term = inl e ->
     (fetch_bills db legislative_body search_term).1 = pd_DataFrame
     /\ df_rows (fetch_bills db legislative_body search_term).1 = []
     /\ df_empty (fetch_bills db legislative_body search_term).1 = true
     /\ Exists (fun b => is_error b = true) (fetch_bills db legislative_body search_term).2)
  /\ (fetch_bills_query db legislative_body search_term = inr [] ->
        df_rows (fetch_bills db legislative_body search_term).1 = []
        /\ df_empty (fetch_bills db legislative_body search_term).1 = true)
  /\ (fetch_questions_query db legislative_body search_term = inl e ->
        (fetch_questions db legislative_body search_term).1 = pd_DataFrame
        /\ df_rows (fetch_questions db legislative_body search_term).1 = []
        /\ df_empty (fetch_questions db legislative_body search_term).1 = true
        /\ Exists (fun b => is_error b = true)
             (fetch_questions db legislative_body search_term).2)
  /\ (fetch_questions_query db legislative_body search_term = inr [] ->
        df_rows (fetch_questions db legislative_body search_term).1 = []
        /\ df_empty (fetch_questions db legislative_body search_term).1 = true)
  /\ (forall form,
        df_rows (fetch_bills db legislative_body "").1 = [] ->
        manage_bills db legislative_body form
        = inr (db, (fetch_bills db legislative_body "").2
                   ++ [st_info ("No " +:+ legislative_body +:+ " Bills found for management.")]))
  /\ (forall form,
        df_rows (fetch_questions db legislative_body "").1 = [] ->
        manage_questions db legislative_body form
        = inr (db, (fetch_questions db legislative_body "").2
                   ++ [st_info ("No " +:+ legislative_body
                                +:+ " Questions found for management.")])).
Proof.
  split_and!.
  1-4: unfold fetch_bills, fetch_questions; intros ->; simpl; split_and!; try done; by left.
  - intros form Hrows. unfold manage_bills.
    destruct (fetch_bills db legislative_body "") as [df said]. simpl in *.
    unfold df_empty. rewrite Hrows. by destruct (df_columns df).
  - intros form Hrows. unfold manage_questions.
    destruct (fetch_questions db legislative_body "") as [df said]. simpl in *.
    unfold df_empty. rewrite Hrows. by destruct (df_columns df).
Qed.

(** ** Deleting and updating by id *)

Lemma table_of_str_name (t : table_name) : table_of_str (table_name_str t) = Some t.
Proof. by destruct t. Qed.

Lemma delete_absent {R : Type} (get_id : R -> N) (i : N) (t : table R) :
  i ∉ get_id <$> rows t -> delete_where_id get_id i t = t.
Proof.
  intros H. destruct t as [l n]. unfold delete_where_id. simpl in *. f_equal.
  induction l as [|r l IH]; [done|].
  rewrite fmap_cons, not_elem_of_cons in H. destruct H as [H1 H2].
  rewrite filter_cons_True by done. f_equal. auto.
Qed.

Lemma update_absent {R : Type} (get_id : R -> N) (i : N) (set : R -> R) (t : table R) :
  i ∉ get_id <$> rows t -> update_where_id get_id i set t = t.
Proof.
  intros H. destruct t as [l n]. unfold update_where_id. simpl in *. f_equal.
  induction l as [|r l IH]; [done|].
  rewrite fmap_cons, not_elem_of_cons in H. destruct H as [H1 H2].
  rewrite fmap_cons. rewrite decide_False by done. f_equal. auto.
Qed.

Lemma delete_removes {R : Type} (get_id : R -> N) (i : N) (t : table R) :
  i ∉ get_id <$> rows (delete_where_id get_id i t).
Proof.
  unfold delete_where_id. simpl. rewrite list_elem_of_fmap.
  intros (r & -> & Hr). apply list_elem_of_filter in Hr as [Hr _]. done.
Qed.

Lemma set_ministries_same db t : ministries db = Some t -> set_ministries db t = db.
Proof. destruct db. simpl. by intros ->. Qed.
Lemma set_states_same db t : states db = Some t -> set_states db t = db.
Proof. destruct db. simpl. by intros ->. Qed.
Lemma set_bills_same db t : bills db = Some t -> set_bills db t = db.
Proof. destruct db. simpl. by intros ->. Qed.
Lemma set_questions_same db t : questions db = Some t -> set_questions db t = db.
Proof. destruct db. simpl. by intros ->. Qed.
Lemma set_current_affairs_same db t :
  current_affairs db = Some t -> set_current_affairs db t = db.
Proof. destruct db. simpl. by intros ->. Qed.

Lemma exec_delete_absent db t ids i :
  table_ids db t = Some ids -> i ∉ ids -> exec_delete db (table_name_str t) i = inr db.
Proof.
  intros Hids Hi. unfold exec_delete. rewrite table_of_str_name.
  destruct t; simpl in Hids |- *;
    [destruct (ministries db) as [tb|] eqn:E
    |destruct (states db) as [tb|] eqn:E
    |destruct (bills db) as [tb|] eqn:E
    |destruct (questions db) as [tb|] eqn:E
    |destruct (current_affairs db) as [tb|] eqn:E]; simplify_eq/=;
    rewrite delete_absent by done; unfold ok; f_equal;
    eauto using set_ministries_same, set_states_same, set_bills_same, set_questions_same,
      set_current_affairs_same.
Qed.

Lemma exec_delete_ids db t ids i :
  table_ids db t = Some ids ->
  exists db' ids', exec_delete db (table_name_str t) i = inr db'
                   /\ table_ids db' t = Some ids' /\ i ∉ ids'.
Proof.
  intros Hids. unfold exec_delete. rewrite table_of_str_name.
  destruct t; simpl in Hids |- *;
    [destruct (ministries db) as [tb|] eqn:E
    |destruct (states db) as [tb|] eqn:E
    |destruct (bills db) as [tb|] eqn:E
    |destruct (questions db) as [tb|] eqn:E
    |destruct (current_affairs db) as [tb|] eqn:E]; simplify_eq/=;
    eexists _, _; (split; [reflexivity|]); simpl; (split; [reflexivity|]);
    apply delete_removes.
Qed.

(** C2 (as amended).  For every table and every id that table does not
    hold, the DELETE removes nothing and raises nothing: [delete_record]
    and the delete button leave the database as it is and report success;
    so do the two status UPDATEs and the update form.  Hence a second
    delete of an id reports success as the first did. *)
Theorem delete_or_update_of_absent_id_reports_success
    (db : database) (t : table_name) (ids : list N) (record_id : N) (record_code : string) :
  table_ids db t = Some ids ->
  record_id ∉ ids ->
  delete_record db (table_name_str t) (Some record_id) record_code
  = (db, [st_success ("Record " +:+ record_code +:+ " deleted successfully from "
                      +:+ table_name_str t +:+ ". Refreshing...")])
  /\ delete_button db (table_name_str t) record_id record_code true
     = inl (db, [st_success ("Record " +:+ record_code +:+ " deleted successfully from "
                             +:+ table_name_str t +:+ "! Refreshing...")])
  /\ (t = Bills -> forall new_status new_approval,
        update_bill_status db new_status new_approval record_id = inr db
        /\ submit_update db true new_status new_approval record_id record_code
           = (db, [st_success ("Record " +:+ record_code
                               +:+ " updated successfully! Refreshing...")]))
  /\ (t = Questions -> forall new_status,
        update_question_status db new_status record_id = inr db
        /\ submit_update db false new_status None record_id record_code
           = (db, [st_success ("Record " +:+ record_code
                               +:+ " updated successfully! Refreshing...")]))
  /\ (forall i code,
        delete_record (delete_record db (table_name_str t) (Some i) code).1
          (table_name_str t) (Some i) code
        = ((delete_record db (table_name_str t) (Some i) code).1,
           [st_success ("Record " +:+ code +:+ " deleted successfully from "
                        +:+ table_name_str t +:+ ". Refreshing...")])).
Proof.
  intros Hids Hi. pose proof (exec_delete_absent db t ids record_id Hids Hi) as Hdel.
  split_and!.
  - unfold delete_record. by rewrite Hdel.
  - unfold delete_button. by rewrite Hdel.
  - intros -> new_status new_approval. simpl in Hids.
    destruct (bills db) as [tb|] eqn:E; simplify_eq/=.
    assert (update_bill_status db new_status new_approval record_id = inr db) as Hup.
    { unfold update_bill_status. rewrite E. simpl. rewrite update_absent by done.
      unfold ok. f_equal. by apply set_bills_same. }
    split; [done|]. unfold submit_update. by rewrite Hup.
  - intros -> new_status. simpl in Hids.
    destruct (questions db) as [tb|] eqn:E; simplify_eq/=.
    assert (update_question_status db new_status record_id = inr db) as Hup.
    { unfold update_question_status. rewrite E. simpl. rewrite update_absent by done.
      unfold ok. f_equal. by apply set_questions_same. }
    split; [done|]. unfold submit_update. by rewrite Hup.
  - intros i code.
    destruct (exec_delete_ids db t ids i Hids) as (db' & ids' & Hd & Hids' & Hi').
    unfold delete_record at 2 3. rewrite Hd. simpl.
    unfold delete_record. by rewrite (exec_delete_absent db' t ids' i Hids' Hi').
Qed.

(** ** The status update and what it leaves alone *)

Section merge_sort_fmap.
Context {A B : Type} (R : relation A) (R' : relation B) (f : A -> B).
Context `{!forall x y, Decision (R x y)} `{!forall x y, Decision (R' x y)}.
Hypothesis R_f : forall x y, R' (f x) (f y) <-> R x y.

Local Notation "'stack_fmap' st" :=
  (fmap (M:=list) (fmap (M:=option) (fmap (M:=list) f)) st) (at level 10, st at level 9).

Lemma list_merge_fmap (l1 l2 : list A) :
  list_merge R' (f <$> l1) (f <$> l2) = f <$> list_merge R l1 l2.
Proof.
  revert l2. induction l1 as [|x1 l1 IH1]; intros l2; [by destruct l2|].
  induction l2 as [|x2 l2 IH2]; [done|].
  rewrite !fmap_cons. simpl. rewrite (decide_ext (R' (f x1) (f x2)) (R x1 x2)) by apply R_f.
  destruct (decide (R x1 x2)); rewrite fmap_cons; f_equal.
  - by rewrite <- IH1.
  - exact IH2.
Qed.

Lemma merge_list_to_stack_fmap (st : list (option (list A))) (l : list A) :
  merge_list_to_stack R' (stack_fmap st) (f <$> l)
  = stack_fmap (merge_list_to_stack R st l).
Proof.
  revert l. induction st as [|[l'|] st IH]; intros l; [done| |done].
  simpl. f_equal. rewrite list_merge_fmap. apply IH.
Qed.

Lemma merge_stack_fmap (st : list (option (list A))) :
  merge_stack R' (stack_fmap st) = f <$> merge_stack R st.
Proof.
  induction st as [|[l|] st IH]; [done| |done].
  simpl. rewrite <- list_merge_fmap. f_equal. apply IH.
Qed.

Lemma merge_sort_aux_fmap (st : list (option (list A))) (l : list A) :
  merge_sort_aux R' (stack_fmap st) (f <$> l) = f <$> merge_sort_aux R st l.
Proof.
  revert st. induction l as [|x l IH]; intros st; [apply merge_stack_fmap|].
  simpl. rewrite <- IH. f_equal.
  apply (merge_list_to_stack_fmap st [x]).
Qed.

Lemma merge_sort_fmap (l : list A) : merge_sort R' (f <$> l) = f <$> merge_sort R l.
Proof. apply (merge_sort_aux_fmap []). Qed.
End merge_sort_fmap.

Lemma filter_fmap_comm {A B : Type} (f : A -> B) (P : A -> Prop) (Q : B -> Prop)
    `{!forall x, Decision (P x)} `{!forall y, Decision (Q y)} (l : list A) :
  (forall x, Q (f x) <-> P x) -> filter Q (f <$> l) = f <$> filter P l.
Proof.
  intros HPQ. induction l as [|x l IH]; [done|].
  rewrite fmap_cons, !filter_cons, (decide_ext (Q (f x)) (P x)), IH by apply HPQ.
  by destruct (decide (P x)).
Qed.

Lemma fmap_bind_comm {A B C : Type} (h : B -> C) (g : A -> list B) (l : list A) :
  h <$> (l ≫= g) = l ≫= (fun a => h <$> g a).
Proof.
  induction l as [|x l IH]; [done|]. by rewrite !bind_cons, fmap_app, IH.
Qed.

(** Rows changed in columns the SELECT does not read are selected as
    before, in the same places. *)
Lemma select_joined_fmap {R : Type} (src : source R) (f : R -> R) xs ms ss lb q :
  (forall x, src_ministry_code src (f x) = src_ministry_code src x) ->
  (forall x, src_state_code src (f x) = src_state_code src x) ->
  (forall x, src_legislative_body src (f x) = src_legislative_body src x) ->
  (forall x, src_code src (f x) = src_code src x) ->
  (forall x, src_name src (f x) = src_name src x) ->
  (forall x, src_introduced_date src (f x) = src_introduced_date src x) ->
  select_joined src (f <$> xs) ms ss lb q
  = (fun j : R * string * option string => (f j.1.1, j.1.2, j.2))
      <$> select_joined src xs ms ss lb q.
Proof.
  intros Hm Hs Hb Hc Hn Hd. unfold select_joined.
  set (h := fun j : R * string * option string => (f j.1.1, j.1.2, j.2)).
  set (key := fun j : R * string * option string => src_introduced_date src j.1.1).
  rewrite <- (merge_sort_fmap (desc key) (desc key) h).
  2:{ intros [[x mn] sn] [[y mn'] sn']. unfold desc, key. simpl. by rewrite !Hd. }
  f_equal.
  set (P := fun j : R * string * option string =>
              where_clause lb q (src_legislative_body src j.1.1) (src_code src j.1.1)
                (src_name src j.1.1) j.1.2 = true).
  rewrite <- (filter_fmap_comm h P P).
  2:{ intros [[x mn] sn]. unfold P. simpl. by rewrite Hb, Hc, Hn. }
  f_equal.
  rewrite list_fmap_bind, fmap_bind_comm. apply list_bind_ext; [|done].
  intros x. simpl. rewrite Hm, fmap_bind_comm. apply list_bind_ext; [|done].
  intros mn. rewrite Hs, fmap_bind_comm. by apply list_bind_ext.
Qed.

(** The two UPDATE statements.  The status UPDATE of a bill sets
    [current_status] and [approval_result] of the rows of that id and
    nothing else: the other tables, the other rows, and the thirteen
    other columns of the row are as before, and every later [fetch_bills]
    returns the rows it returned before, in the same order, the updated
    one with its two new values.  The status UPDATE of a question does
    the same with [current_status] alone. *)
Lemma status_update_frame
    (db : database) (bs : table bill) (qs : table question) (record_id : N)
    (new_status : string) (new_approval : option string) :
  bills db = Some bs -> questions db = Some qs ->
  (exists db',
      update_bill_status db new_status new_approval record_id = inr db'
      /\ bills db'
         = Some {| rows := (fun b => if decide (bill_id b = record_id)
                                     then set_bill_status new_status new_approval b else b)
                             <$> rows bs;
                   sqlite_sequence := sqlite_sequence bs |}
      /\ ministries db' = ministries db /\ states db' = states db
      /\ questions db' = questions db /\ current_affairs db' = current_affairs db
      /\ (forall legislative_body search_term,
            df_rows (fetch_bills db' legislative_body search_term).1
            = (fun v => if decide (bill_id (bv_bill v) = record_id)
                        then {| bv_bill := set_bill_status new_status new_approval (bv_bill v);
                                bv_ministry_name := bv_ministry_name v;
                                bv_state_name := bv_state_name v |}
                        else v)
                <$> df_rows (fetch_bills db legislative_body search_term).1))
  /\ (forall b,
        bill_current_status (set_bill_status new_status new_approval b) = new_status
        /\ bill_approval_result (set_bill_status new_status new_approval b) = new_approval
        /\ bill_id (set_bill_status new_status new_approval b) = bill_id b
        /\ bill_code (set_bill_status new_status new_approval b) = bill_code b
        /\ bill_name (set_bill_status new_status new_approval b) = bill_name b
        /\ bill_introduced_by (set_bill_status new_status new_approval b) = bill_introduced_by b
        /\ bill_ministry_code (set_bill_status new_status new_approval b) = bill_ministry_code b
        /\ bill_legislative_body (set_bill_status new_status new_approval b)
           = bill_legislative_body b
        /\ bill_state_code (set_bill_status new_status new_approval b) = bill_state_code b
        /\ bill_votes_favour (set_bill_status new_status new_approval b) = bill_votes_favour b
        /\ bill_votes_against (set_bill_status new_status new_approval b) = bill_votes_against b
        /\ bill_approval_status (set_bill_status new_status new_approval b)
           = bill_approval_status b
        /\ bill_is_money_bill (set_bill_status new_status new_approval b) = bill_is_money_bill b
        /\ bill_pdf_path (set_bill_status new_status new_approval b) = bill_pdf_path b
        /\ bill_introduced_date (set_bill_status new_status new_approval b)
           = bill_introduced_date b)
  /\ (exists db',
        update_question_status db new_status record_id = inr db'
        /\ questions db'
           = Some {| rows := (fun q => if decide (question_id q = record_id)
                                       then set_question_status new_status q else q)
                               <$> rows qs;
                     sqlite_sequence := sqlite_sequence qs |}
        /\ ministries db' = ministries db /\ states db' = states db
        /\ bills db' = bills db /\ current_affairs db' = current_affairs db
        /\ (forall legislative_body search_term,
              df_rows (fetch_questions db' legislative_body search_term).1
              = (fun v => if decide (question_id (qv_question v) = record_id)
                          then {| qv_question := set_question_status new_status (qv_question v);
                                  qv_ministry_name := qv_ministry_name v;
                                  qv_state_name := qv_state_name v |}
                          else v)
                  <$> df_rows (fetch_questions db legislative_body search_term).1))
  /\ (forall q,
        question_current_status (set_question_status new_status q) = new_status
        /\ question_id (set_question_status new_status q) = question_id q
        /\ question_code (set_question_status new_status q) = question_code q
        /\ question_title (set_question_status new_status q) = question_title q
        /\ question_introduced_by (set_question_status new_status q) = question_introduced_by q
        /\ question_ministry_code (set_question_status new_status q) = question_ministry_code q
        /\ question_legislative_body (set_question_status new_status q)
           = question_legislative_body q
        /\ question_state_code (set_question_status new_status q) = question_state_code q
        /\ question_q_type (set_question_status new_status q) = question_q_type q
        /\ question_pdf_path (set_question_status new_status q) = question_pdf_path q
        /\ question_introduced_date (set_question_status new_status q)
           = question_introduced_date q).
Proof.
  intros Hb Hq. split_and!.
  - eexists. unfold update_bill_status. rewrite Hb. simpl. split; [reflexivity|].
    simpl. split_and!; try done.
    intros lb q. unfold fetch_bills, fetch_bills_query. simpl. rewrite Hb.
    destruct (ministries db) as [ms|]; [|done]. destruct (states db) as [ss|]; [|done].
    simpl. rewrite <- !list_fmap_compose.
    set (f := fun b => if decide (bill_id b = record_id)
                       then set_bill_status new_status new_approval b else b).
    rewrite (select_joined_fmap bill_source f);
      try (intros x; unfold f; by destruct (decide _)).
    rewrite <- list_fmap_compose. apply list_fmap_ext.
    intros _ [[b mn] sn] _. unfold f. simpl. by destruct (decide _).
  - done.
  - eexists. unfold update_question_status. rewrite Hq. simpl. split; [reflexivity|].
    simpl. split_and!; try done.
    intros lb q. unfold fetch_questions, fetch_questions_query. simpl. rewrite Hq.
    destruct (ministries db) as [ms|]; [|done]. destruct (states db) as [ss|]; [|done].
    simpl. rewrite <- !list_fmap_compose.
    set (f := fun q => if decide (question_id q = record_id)
                       then set_question_status new_status q else q).
    rewrite (select_joined_fmap question_source f);
      try (intros x; unfold f; by destruct (decide _)).
    rewrite <- list_fmap_compose. apply list_fmap_ext.
    intros _ [[b mn] sn] _. unfold f. simpl. by destruct (decide _).
  - done.
Qed.

(** ** The creation forms *)

Lemma selectbox_elem_of (first : string) (options : list string) (choice : nat) :
  selectbox (first :: options) choice ∈ first :: options.
Proof.
  unfold selectbox. destruct ((first :: options) !! choice) as [o|] eqn:E; simpl.
  - by eapply list_elem_of_lookup_2.
  - left.
Qed.

Lemma dict_get_set (d : Dict.t) (k v k' : string) :
  Dict.get (Dict.set d k v) k' = if String.eqb k k' then Some v else Dict.get d k'.
Proof.
  induction d as [|[k0 v0] d IH]; simpl.
  - done.
  - destruct (String.eqb k0 k) eqn:E0; simpl.
    + apply String.eqb_eq in E0 as ->. by destruct (String.eqb k k').
    + rewrite IH. destruct (String.eqb k0 k') eqn:E1; [|done].
      apply String.eqb_eq in E1 as ->. destruct (String.eqb k k') eqn:E2; [|done].
      apply String.eqb_eq in E2 as ->. by rewrite String.eqb_refl in E0.
Qed.

Lemma dict_get_keys (d : Dict.t) (k : string) :
  k ∈ Dict.keys d -> is_Some (Dict.get d k).
Proof.
  unfold Dict.keys. induction d as [|[k0 v0] d IH]; simpl.
  - by intros ?%elem_of_nil.
  - intros [->|H]%elem_of_cons.
    + by rewrite String.eqb_refl.
    + destruct (String.eqb k0 k); [done|auto].
Qed.

Lemma dict_of_rows_get (l : list meta_row) (d : Dict.t) (k v : string) :
  Dict.get (fold_left (fun d row => Dict.set d (meta_name row) (meta_code row)) l d) k = Some v ->
  Dict.get d k = Some v \/ exists r, r ∈ l /\ meta_name r = k /\ meta_code r = v.
Proof.
  revert d. induction l as [|r l IH]; intros d; simpl; [auto|].
  intros [H|(r' & Hr' & ?)]%IH.
  - rewrite dict_get_set in H. destruct (String.eqb (meta_name r) k) eqn:E.
    + apply String.eqb_eq in E. simplify_eq. right. exists r. split; [left|done].
    + by left.
  - right. exists r'. split; [by right|done].
Qed.

(** What [fetch_metadata] gives under a name is the code of a row of that
    name. *)
Lemma fetch_metadata_get db (which : string) (d : Dict.t) (k v : string) :
  fetch_metadata db which = inr d -> Dict.get d k = Some v ->
  exists t r,
    (which = "ministries" /\ ministries db = Some t \/ which = "states" /\ states db = Some t)
    /\ r ∈ rows t /\ meta_name r = k /\ meta_code r = v.
Proof.
  unfold fetch_metadata. destruct (table_of_str which) as [[]|] eqn:Ew; try done.
  - assert (which = "ministries") as ->.
    { unfold table_of_str in Ew. repeat case_match; simplify_eq. by apply String.eqb_eq. }
    destruct (ministries db) as [t|]; [|done]. simpl. intros [= <-] Hget.
    apply dict_of_rows_get in Hget as [Hget|(r & Hr & ? & ?)]; [done|].
    rewrite merge_sort_Permutation in Hr. exists t, r. auto.
  - assert (which = "states") as ->.
    { unfold table_of_str in Ew. repeat case_match; simplify_eq. by apply String.eqb_eq. }
    destruct (states db) as [t|]; [|done]. simpl. intros [= <-] Hget.
    apply dict_of_rows_get in Hget as [Hget|(r & Hr & ? & ?)]; [done|].
    rewrite merge_sort_Permutation in Hr. exists t, r. auto.
Qed.

(** The choice of a box that is not its placeholder is a key of the
    [dict], so its code is found. *)
Lemma selected_code (d : Dict.t) (placeholder : string) (choice : nat) :
  String.eqb (selectbox (placeholder :: Dict.keys d) choice) placeholder = false ->
  is_Some (Dict.get d (selectbox (placeholder :: Dict.keys d) choice)).
Proof.
  intros Hne. apply dict_get_keys.
  pose proof (selectbox_elem_of placeholder (Dict.keys d) choice) as [E|H]%elem_of_cons; [|done].
  rewrite E, String.eqb_refl in Hne. done.
Qed.

(** What a run of the bill form does to the database: nothing, or one new
    row at the end of [bills] whose columns are as the form computes
    them. *)
Lemma render_bill_form_cases db body form env db' said :
  render_bill_form db body form env = inr (db', said) ->
  db' = db
  \/ exists t ms mc m state_code,
       bills db = Some t /\ ministries db = Some ms
       /\ m ∈ rows ms /\ meta_code m = mc
       /\ (if String.eqb body "State Assembly"
           then exists ss s, states db = Some ss /\ s ∈ rows ss /\ state_code = Some (meta_code s)
           else state_code = None)
       /\ exists b,
            db' = set_bills db {| rows := rows t ++ [b]; sqlite_sequence := next_id t |}
            /\ bill_id b = next_id t
            /\ bill_legislative_body b = body
            /\ bill_ministry_code b = Some mc
            /\ bill_state_code b = state_code
            /\ bill_is_money_bill b
               = (if String.eqb body "Rajya Sabha" then false else bf_money_bill form)
            /\ bill_code b
               = new_bill_code (String.eqb body "State Assembly") state_code (Some mc)
                   (random_randint env 1000 9999).
Proof.
  unfold render_bill_form.
  destruct (fetch_metadata db "ministries") as [|md] eqn:Hmd; [done|].
  destruct (fetch_metadata db "states") as [|sd] eqn:Hsd; [done|]. simpl.
  destruct (_ || _) eqn:Hpre; [intros [= <- <-]; by left|].
  destruct (negb (bf_submitted form)); [intros [= <- <-]; by left|].
  destruct (_ || _) eqn:Hsel in |- *; [intros [= <- <-]; by left|].
  destruct (_ && _) eqn:Hpdf in |- *; [intros [= <- <-]; by left|].
  apply orb_false_iff in Hsel as [Hsel Hst].
  destruct (selected_code md select_ministry (bf_ministry form) Hsel) as [mc Hmc].
  destruct (fetch_metadata_get _ _ _ _ _ Hmd Hmc)
    as (ms & m & [[_ Hms]|[? _]] & Hm & Hname & Hcode); [|done].
  rewrite Hmc.
  unfold save_bill_record, insert_bill.
  destruct (bills db) as [t|] eqn:Hb; simpl; [|intros [= <- <-]; by left].
  destruct (existsb _ (rows t)); simpl; intros [= <- <-]; [by left|].
  right. exists t, ms, mc, m.
  destruct (String.eqb body "State Assembly") eqn:Hsa; simpl in *.
  - apply bool_decide_eq_false in Hst.
    assert (String.eqb (selectbox (select_state :: Dict.keys sd) (bf_state form)) select_state
            = false) as Hst'.
    { apply not_true_iff_false. rewrite String.eqb_eq. congruence. }
    destruct (selected_code sd select_state (bf_state form) Hst') as [sc Hsc].
    destruct (fetch_metadata_get _ _ _ _ _ Hsd Hsc)
      as (ss & s & [[? _]|[_ Hss]] & Hs & Hsname & Hscode); [done|].
    exists (Some sc). split_and!; try done.
    + exists ss, s. by subst.
    + eexists. split; [reflexivity|]. simpl. rewrite Hsc. by split_and!.
  - exists None. split_and!; try done.
    eexists. split; [reflexivity|]. simpl. by split_and!.
Qed.

Lemma render_question_form_cases db body form env db' said :
  render_question_form db body form env = inr (db', said) ->
  db' = db
  \/ exists t ms mc m state_code,
       questions db = Some t /\ ministries db = Some ms
       /\ m ∈ rows ms /\ meta_code m = mc
       /\ (if String.eqb body "State Assembly"
           then exists ss s, states db = Some ss /\ s ∈ rows ss /\ state_code = Some (meta_code s)
           else state_code = None)
       /\ exists q,
            db' = set_questions db {| rows := rows t ++ [q]; sqlite_sequence := next_id t |}
            /\ question_id q = next_id t
            /\ question_legislative_body q = body
            /\ question_ministry_code q = Some mc
            /\ question_state_code q = state_code
            /\ question_code q
               = new_question_code (String.eqb body "State Assembly") state_code (Some mc)
                   (random_randint env 1000 9999).
Proof.
  unfold render_question_form.
  destruct (fetch_metadata db "ministries") as [|md] eqn:Hmd; [done|].
  destruct (fetch_metadata db "states") as [|sd] eqn:Hsd; [done|]. simpl.
  destruct (_ || _) eqn:Hpre; [intros [= <- <-]; by left|].
  destruct (negb (qf_submitted form)); [intros [= <- <-]; by left|].
  destruct (_ || _) eqn:Hsel in |- *; [intros [= <- <-]; by left|].
  destruct (_ && _) eqn:Hpdf in |- *; [intros [= <- <-]; by left|].
  apply orb_false_iff in Hsel as [Hsel Hst].
  destruct (selected_code md select_ministry (qf_ministry form) Hsel) as [mc Hmc].
  destruct (fetch_metadata_get _ _ _ _ _ Hmd Hmc)
    as (ms & m & [[_ Hms]|[? _]] & Hm & Hname & Hcode); [|done].
  rewrite Hmc.
  unfold insert_question.
  destruct (questions db) as [t|] eqn:Hb; simpl; [|intros [= <- <-]; by left].
  destruct (existsb _ (rows t)); simpl; intros [= <- <-]; [by left|].
  right. exists t, ms, mc, m.
  destruct (String.eqb body "State Assembly") eqn:Hsa; simpl in *.
  - apply bool_decide_eq_false in Hst.
    assert (String.eqb (selectbox (select_state :: Dict.keys sd) (qf_state form)) select_state
            = false) as Hst'.
    { apply not_true_iff_false. rewrite String.eqb_eq. congruence. }
    destruct (selected_code sd select_state (qf_state form) Hst') as [sc Hsc].
    destruct (fetch_metadata_get _ _ _ _ _ Hsd Hsc)
      as (ss & s & [[? _]|[_ Hss]] & Hs & Hsname & Hscode); [done|].
    exists (Some sc). split_and!; try done.
    + exists ss, s. by subst.
    + eexists. split; [reflexivity|]. simpl. rewrite Hsc. by split_and!.
  - exists None. split_and!; try done.
    eexists. split; [reflexivity|]. simpl. by split_and!.
Qed.

(** ** The rules on stored records hold after every run *)

Ltac inv_result := unfold ok, raise, no_such_table, bind in *; simplify_eq/=.

Lemma records_ok_same db db' :
  bills db' = bills db -> questions db' = questions db -> records_ok db -> records_ok db'.
Proof. intros Hb Hq [H1 H2]. split; intros t; rewrite ?Hb, ?Hq; auto. Qed.

Lemma records_ok_initialize db : records_ok db -> records_ok (initialize_database db).
Proof.
  intros [H1 H2]. split; intros t; simpl.
  - destruct (bills db); simpl; intros [= <-]; [auto|constructor].
  - destruct (questions db); simpl; intros [= <-]; [auto|constructor].
Qed.

Lemma records_ok_add_metadata db which label form db' said :
  add_metadata db which label form = inr (db', said) -> records_ok db -> records_ok db'.
Proof.
  unfold add_metadata. intros H Hok.
  destruct (negb (mf_submitted form)). { by inv_result. }
  destruct (_ && _). 2:{ by inv_result. }
  destruct which; simpl in H;
    (destruct (insert_meta _ _ _ _) as [[]|t]; inv_result; try done;
     by apply (records_ok_same db)).
Qed.

Lemma records_ok_bill_form db body form env db' said :
  render_bill_form db body form env = inr (db', said) -> records_ok db -> records_ok db'.
Proof.
  intros [->|(t & ms & mc & m & sc & Hb & _ & _ & _ & Hsc & b & -> & _ & Hbody & _ & Hstate
              & Hmoney & _)]%render_bill_form_cases; [done|].
  intros [H1 H2]. split; [|done]. simpl. intros ? [= <-]. simpl.
  apply Forall_app. split; [auto|]. apply Forall_singleton. split.
  - intros E. rewrite Hmoney, <- Hbody, E. done.
  - rewrite Hstate, Hbody. destruct (String.eqb_spec body "State Assembly") as [Hsa|Hsa].
    + destruct Hsc as (? & ? & _ & _ & ->). split; [done|]. by eexists.
    + subst sc. split; [by intros [? ?]|done].
Qed.

Lemma records_ok_question_form db body form env db' said :
  render_question_form db body form env = inr (db', said) -> records_ok db -> records_ok db'.
Proof.
  intros [->|(t & ms & mc & m & sc & Hq & _ & _ & _ & Hsc & q & -> & _ & Hbody & _ & Hstate
              & _)]%render_question_form_cases; [done|].
  intros [H1 H2]. split; [done|]. simpl. intros ? [= <-]. simpl.
  apply Forall_app. split; [auto|]. apply Forall_singleton. unfold question_ok.
  rewrite Hstate, Hbody. destruct (String.eqb_spec body "State Assembly") as [Hsa|Hsa].
  - destruct Hsc as (? & ? & _ & _ & ->). split; [done|]. by eexists.
  - subst sc. split; [by intros [? ?]|done].
Qed.

Lemma Forall_filter_keeps {A : Type} (P Q : A -> Prop) `{!forall x, Decision (Q x)}
    (l : list A) :
  Forall P l -> Forall P (filter Q l).
Proof.
  rewrite !Forall_forall. intros HP x [_ Hx]%list_elem_of_filter. auto.
Qed.

Lemma records_ok_exec_delete db name i db' :
  exec_delete db name i = inr db' -> records_ok db -> records_ok db'.
Proof.
  unfold exec_delete. intros H [H1 H2].
  destruct (table_of_str name) as [[]|]; inv_result.
  - destruct (ministries db); inv_result. by split.
  - destruct (states db); inv_result. by split.
  - destruct (bills db) as [t|] eqn:E; inv_result. split; [|done]. simpl.
    intros ? [= <-]. simpl. apply Forall_filter_keeps. auto.
  - destruct (questions db) as [t|] eqn:E; inv_result. split; [done|]. simpl.
    intros ? [= <-]. simpl. apply Forall_filter_keeps. auto.
  - destruct (current_affairs db); inv_result. by split.
Qed.

Lemma bill_ok_set_status s a b : bill_ok b -> bill_ok (set_bill_status s a b).
Proof. done. Qed.

Lemma question_ok_set_status s q : question_ok q -> question_ok (set_question_status s q).
Proof. done. Qed.

Lemma records_ok_submit_update db is_bill s a i code db' said :
  submit_update db is_bill s a i code = (db', said) -> records_ok db -> records_ok db'.
Proof.
  unfold submit_update, update_bill_status, update_question_status. intros H Hok.
  destruct is_bill.
  - destruct (bills db) as [t|] eqn:E; inv_result; [|done].
    destruct Hok as [H1 H2]. split; [|done]. simpl.
    intros ? [= <-]. simpl. apply Forall_fmap. eapply Forall_impl; [by apply H1|].
    intros b Hb. simpl. destruct (decide _); [by apply bill_ok_set_status|done].
  - destruct (questions db) as [t|] eqn:E; inv_result; [|done].
    destruct Hok as [H1 H2]. split; [done|]. simpl.
    intros ? [= <-]. simpl. apply Forall_fmap. eapply Forall_impl; [by apply H2|].
    intros q Hq. simpl. destruct (decide _); [by apply question_ok_set_status|done].
Qed.

Lemma records_ok_update_delete_ui db df body is_bill form db' said :
  render_update_delete_ui db df body is_bill form = inr (db', said) ->
  records_ok db -> records_ok db'.
Proof.
  unfold render_update_delete_ui. intros H Hok.
  destruct (String.eqb _ select_code); [by inv_result|].
  destruct (filter _ df) as [|record _]; [by inv_result|].
  destruct (col_id record) as [i|]; [|by inv_result].
  destruct (delete_button _ _ _ _ _) as [[d s]|s] eqn:Hdel.
  - inv_result. unfold delete_button in Hdel.
    destruct (ud_delete_clicked form); [|done].
    destruct (exec_delete _ _ _) eqn:Hex; inv_result.
    by eapply records_ok_exec_delete.
  - destruct (update_choice _ _ _) as [|[s' a']]; [done|]. simpl in H.
    destruct (negb _); [by inv_result|].
    destruct (submit_update _ _ _ _ _ _) as [d more] eqn:Hup. inv_result.
    by eapply records_ok_submit_update.
Qed.

Lemma records_ok_manage_bills db body form db' said :
  manage_bills db body form = inr (db', said) -> records_ok db -> records_ok db'.
Proof.
  unfold manage_bills. destruct (fetch_bills db body "") as [df s].
  destruct (negb _); [|by intros [= <- <-]].
  destruct (render_update_delete_ui _ _ _ _ _) as [|[d s']] eqn:H; [done|].
  simpl. intros [= <- <-]. by eapply records_ok_update_delete_ui.
Qed.

Lemma records_ok_manage_questions db body form db' said :
  manage_questions db body form = inr (db', said) -> records_ok db -> records_ok db'.
Proof.
  unfold manage_questions. destruct (fetch_questions db body "") as [df s].
  destruct (negb _); [|by intros [= <- <-]].
  destruct (render_update_delete_ui _ _ _ _ _) as [|[d s']] eqn:H; [done|].
  simpl. intros [= <- <-]. by eapply records_ok_update_delete_ui.
Qed.

Lemma records_ok_manage_ca db form env db' said :
  render_manage_ca db form env = inr (db', said) -> records_ok db -> records_ok db'.
Proof.
  unfold render_manage_ca. intros H Hok.
  destruct (render_current_affairs_form db form env) as [[d s]|s] eqn:Hform.
  - unfold render_current_affairs_form, insert_current_affair in Hform.
    destruct (negb (cf_submitted form)); [done|].
    destruct (_ || _); [done|]. destruct (_ && _); [done|].
    destruct (current_affairs db) as [t|]; [|done]. inv_result.
    by apply (records_ok_same db).
  - destruct (fetch_current_affairs db) as [|df]; [done|]. simpl in H.
    destruct (negb (df_empty df)); [|by inv_result].
    destruct (_ && _); [|by inv_result].
    destruct (filter _ (df_rows df)) as [|record _]; by inv_result.
Qed.

Lemma records_ok_after {B : Type} db (r : result (database * B)) :
  (forall db' said, r = inr (db', said) -> records_ok db') -> records_ok db ->
  records_ok (after db r).
Proof. intros H Hok. destruct r as [|[db' said]]; simpl; eauto. Qed.

Lemma records_ok_step db db' : step db db' -> records_ok db -> records_ok db'.
Proof.
  intros Hstep Hok. destruct Hstep.
  - by apply records_ok_initialize.
  - apply records_ok_after; [|done]. intros ???. by eapply records_ok_add_metadata.
  - apply records_ok_after; [|done]. intros ???. by eapply records_ok_add_metadata.
  - apply records_ok_after; [|done]. intros ???. by eapply records_ok_bill_form.
  - apply records_ok_after; [|done]. intros ???. by eapply records_ok_question_form.
  - apply records_ok_after; [|done]. intros ???. by eapply records_ok_manage_bills.
  - apply records_ok_after; [|done]. intros ???. by eapply records_ok_manage_questions.
  - apply records_ok_after; [|done]. intros ???. by eapply records_ok_manage_ca.
Qed.

Lemma records_ok_reachable db : reachable db -> records_ok db.
Proof.
  unfold reachable. revert db. apply rtc_ind_r.
  - by split.
  - intros y z _ Hstep IH. by eapply records_ok_step.
Qed.

(** ** The codes and the money bill rule *)

Lemma elem_of_randint (a b n : Z) : n ∈ randint a b <-> (a <= n <= b)%Z.
Proof.
  unfold randint. rewrite list_elem_of_fmap. setoid_rewrite elem_of_seq. split.
  - intros (k & -> & Hk). lia.
  - intros H. exists (Z.to_nat (n - a)). lia.
Qed.

Lemma NoDup_randint (a b : Z) : NoDup (randint a b).
Proof.
  unfold randint. apply NoDup_fmap_2; [|apply NoDup_seq]. intros x y. lia.
Qed.

Lemma length_randint (a b : Z) : length (randint a b) = Z.to_nat (b - a + 1).
Proof. unfold randint. by rewrite length_fmap, length_seq. Qed.

(** Every number from 1000 to 9999 prints as four decimal digits. *)
Lemma str_int_four_digits (n : Z) :
  (1000 <= n <= 9999)%Z ->
  String.length (Text.str_int n) = 4 /\ Text.all_digits (Text.str_int n) = true.
Proof.
  intros Hn. apply elem_of_randint in Hn.
  assert (forallb (fun n => (String.length (Text.str_int n) =? 4)%nat
                            && Text.all_digits (Text.str_int n)) (randint 1000 9999) = true)
    as Hall by (vm_compute; reflexivity).
  rewrite forallb_forall in Hall. apply list_elem_of_In, Hall in Hn.
  apply andb_true_iff in Hn as [Hlen Hdig]. by apply Nat.eqb_eq in Hlen.
Qed.

Lemma not_appended {R : Type} (l : list R) (b : R) : l <> l ++ [b].
Proof. intros H. apply (f_equal length) in H. rewrite length_app in H. simpl in H. lia. Qed.

(** What [random.randint(a, b)] gives lies from [a] to [b]. *)
Lemma random_randint_range (env : environment) (a b : Z) :
  (a <= b)%Z -> (a <= random_randint env a b <= b)%Z.
Proof.
  intros Hab. unfold random_randint.
  pose proof (Z.mod_pos_bound (random_source env) (b - a + 1)). lia.
Qed.

Lemma random_randint_small (source a b : Z) (disk : bool) :
  (0 <= source < b - a + 1)%Z ->
  random_randint {| random_source := source; disk_ok := disk |} a b = (a + source)%Z.
Proof. intros H. unfold random_randint. simpl. by rewrite Z.mod_small. Qed.

(** C1.  A bill or question the creation form stores has the code
    [{stateCode}-{ministryCode}-{n}] when the body is State Assembly,
    [BL-{ministryCode}-{n}] for a bill of another body and
    [QN-{ministryCode}-{n}] for a question of another body, where the two
    codes are those of the record's own state and ministry and [n] is the
    number [random.randint(1000, 9999)] gave in that run, which lies from
    1000 to 9999 and prints as four decimal digits; and each number from
    1000 to 9999 is given for exactly one of the 9000 numbers 0 to 8999
    the generator can come up with, so that the draw is as uniform as the
    generator is. *)
Theorem generated_code_has_the_specified_shape
    (db db' : database) (body : string) (env : environment) (said : list banner) :
  (forall form t t' b,
     render_bill_form db body form env = inr (db', said) ->
     bills db = Some t -> bills db' = Some t' -> rows t' = rows t ++ [b] ->
     exists mc n,
       bill_ministry_code b = Some mc
       /\ (exists ms m, ministries db = Some ms /\ m ∈ rows ms /\ meta_code m = mc)
       /\ n = random_randint env 1000 9999
       /\ (1000 <= n <= 9999)%Z
       /\ String.length (Text.str_int n) = 4 /\ Text.all_digits (Text.str_int n) = true
       /\ if String.eqb body "State Assembly"
          then exists sc, bill_state_code b = Some sc
                          /\ (exists ss s, states db = Some ss /\ s ∈ rows ss
                                           /\ meta_code s = sc)
                          /\ bill_code b = sc +:+ "-" +:+ mc +:+ "-" +:+ Text.str_int n
          else bill_code b = "BL-" +:+ mc +:+ "-" +:+ Text.str_int n)
  /\ (forall form t t' q,
        render_question_form db body form env = inr (db', said) ->
        questions db = Some t -> questions db' = Some t' -> rows t' = rows t ++ [q] ->
        exists mc n,
          question_ministry_code q = Some mc
          /\ (exists ms m, ministries db = Some ms /\ m ∈ rows ms /\ meta_code m = mc)
          /\ n = random_randint env 1000 9999
          /\ (1000 <= n <= 9999)%Z
          /\ String.length (Text.str_int n) = 4 /\ Text.all_digits (Text.str_int n) = true
          /\ if String.eqb body "State Assembly"
             then exists sc, question_state_code q = Some sc
                             /\ (exists ss s, states db = Some ss /\ s ∈ rows ss
                                              /\ meta_code s = sc)
                             /\ question_code q = sc +:+ "-" +:+ mc +:+ "-" +:+ Text.str_int n
             else question_code q = "QN-" +:+ mc +:+ "-" +:+ Text.str_int n)
  /\ (forall n, (1000 <= n <= 9999)%Z ->
        random_randint {| random_source := n - 1000; disk_ok := disk_ok env |} 1000 9999 = n
        /\ forall source, (0 <= source < 9000)%Z ->
             random_randint {| random_source := source; disk_ok := disk_ok env |} 1000 9999 = n ->
             source = (n - 1000)%Z).
Proof.
  pose proof (random_randint_range env 1000 9999 ltac:(lia)) as Hn.
  destruct (str_int_four_digits _ Hn) as [Hlen Hdig].
  split_and!.
  - intros form t t' b Hrun Ht Ht' Hrows.
    apply render_bill_form_cases in Hrun
      as [->|(t0 & ms & mc & m & sc & Hb & Hms & Hm & Hmcode & Hsc & b0 & -> & _ & _ & Hmc
              & Hstate & _ & Hcode)].
    { rewrite Ht in Ht'. injection Ht' as <-. by destruct (not_appended (rows t) b). }
    simpl in Ht'. simplify_eq/=.
    exists (meta_code m), (random_randint env 1000 9999).
    split_and!; [done|by eauto|done|apply Hn|apply Hn|exact Hlen|exact Hdig|].
    rewrite Hcode. unfold new_bill_code.
    destruct (String.eqb body "State Assembly"); [|done].
    destruct Hsc as (ss & s & ? & ? & ->). exists (meta_code s). split_and!; by eauto.
  - intros form t t' q Hrun Ht Ht' Hrows.
    apply render_question_form_cases in Hrun
      as [->|(t0 & ms & mc & m & sc & Hb & Hms & Hm & Hmcode & Hsc & q0 & -> & _ & _ & Hmc
              & Hstate & Hcode)].
    { rewrite Ht in Ht'. injection Ht' as <-. by destruct (not_appended (rows t) q). }
    simpl in Ht'. simplify_eq/=.
    exists (meta_code m), (random_randint env 1000 9999).
    split_and!; [done|by eauto|done|apply Hn|apply Hn|exact Hlen|exact Hdig|].
    rewrite Hcode. unfold new_question_code.
    destruct (String.eqb body "State Assembly"); [|done].
    destruct Hsc as (ss & s & ? & ? & ->). exists (meta_code s). split_and!; by eauto.
  - intros n Hrange. split.
    + rewrite random_randint_small by lia. lia.
    + intros source Hsource. rewrite random_randint_small by lia. lia.
Qed.

Lemma elem_of_fetch_bills db lb q v :
  v ∈ df_rows (fetch_bills db lb q).1 ->
  exists t, bills db = Some t /\ bv_bill v ∈ rows t /\ bill_legislative_body (bv_bill v) = lb.
Proof.
  unfold fetch_bills, fetch_bills_query.
  destruct (bills db) as [bs|]; [|by intros ?%elem_of_nil].
  destruct (ministries db) as [ms|]; [|by intros ?%elem_of_nil].
  destruct (states db) as [ss|]; [|by intros ?%elem_of_nil]. simpl.
  rewrite elem_of_bill_views, elem_of_select_joined, where_clause_true. simpl.
  intros (? & _ & _ & ? & _). eauto.
Qed.

Lemma elem_of_fetch_questions db lb q v :
  v ∈ df_rows (fetch_questions db lb q).1 ->
  exists t, questions db = Some t /\ qv_question v ∈ rows t
            /\ question_legislative_body (qv_question v) = lb.
Proof.
  unfold fetch_questions, fetch_questions_query.
  destruct (questions db) as [qs|]; [|by intros ?%elem_of_nil].
  destruct (ministries db) as [ms|]; [|by intros ?%elem_of_nil].
  destruct (states db) as [ss|]; [|by intros ?%elem_of_nil]. simpl.
  rewrite elem_of_question_views, elem_of_select_joined, where_clause_true. simpl.
  intros (? & _ & _ & ? & _). eauto.
Qed.

(** C6.  The bill form stores [is_money_bill = false] whenever the body is
    Rajya Sabha, whatever the box says; and after any sequence of runs
    from a new file, every stored bill whose body is Rajya Sabha has
    [is_money_bill = false]. *)
Theorem rajya_sabha_bill_is_never_a_money_bill :
  (forall db db' form env said t t' b,
     render_bill_form db "Rajya Sabha" form env = inr (db', said) ->
     bills db = Some t -> bills db' = Some t' -> rows t' = rows t ++ [b] ->
     bill_legislative_body b = "Rajya Sabha" /\ bill_is_money_bill b = false)
  /\ (forall db t b,
        reachable db -> bills db = Some t -> b ∈ rows t ->
        bill_legislative_body b = "Rajya Sabha" -> bill_is_money_bill b = false).
Proof.
  split.
  - intros db db' form env said t t' b Hrun Ht Ht' Hrows.
    apply render_bill_form_cases in Hrun
      as [->|(t0 & ms & mc & m & sc & Hb & _ & _ & _ & _ & b0 & -> & _ & Hbody & _ & _
              & Hmoney & _)].
    { rewrite Ht in Ht'. injection Ht' as <-. by destruct (not_appended (rows t) b). }
    simpl in Ht'. simplify_eq/=. done.
  - intros db t b Hreach Ht Hb Hbody.
    destruct (records_ok_reachable db Hreach) as [Hbills _].
    specialize (Hbills t Ht). rewrite Forall_forall in Hbills.
    by apply (Hbills b Hb).
Qed.

(** ** Suggestions *)

Lemma str_le_neq_lt (a b : string) : String.le a b -> a <> b -> str_lt a b.
Proof.
  unfold String.le, str_lt, String.leb, String.ltb. intros Hle Hne.
  destruct (String.compare a b) eqn:E; [|done|done].
  by apply String.compare_eq_iff in E.
Qed.

(** [sorted(list(a_set))]: strictly increasing, so in order and without
    repeats. *)
Lemma sorted_elements_strict (s : gset string) : StronglySorted str_lt (sorted (elements s)).
Proof.
  unfold sorted.
  assert (NoDup (merge_sort String.le (elements s))) as Hnd.
  { rewrite merge_sort_Permutation. apply NoDup_elements. }
  assert (StronglySorted String.le (merge_sort String.le (elements s))) as Hs.
  { apply StronglySorted_merge_sort; apply _. }
  induction Hs as [|x l Hs IH Hx]; [constructor|].
  apply NoDup_cons in Hnd as [Hx' Hnd]. constructor; [auto|].
  rewrite Forall_forall in Hx |- *. intros y Hy.
  apply str_le_neq_lt; [auto|]. intros ->. done.
Qed.

Lemma length_sorted (l : list string) : length (sorted l) = length l.
Proof. unfold sorted. by rewrite merge_sort_Permutation. Qed.

Lemma size_union_le (X Y : gset string) : size (X ∪ Y) <= size X + size Y.
Proof.
  rewrite size_union_alt. assert (size (Y ∖ X) <= size Y); [|lia].
  apply subseteq_size. set_solver.
Qed.

Lemma size_add_suggestions (X : gset string) (row : suggestion_row) :
  size (add_suggestions X row) <= size X + 3.
Proof.
  destruct row as [[code name] mn]. unfold add_suggestions.
  pose proof (size_union_le (X ∪ {[code]} ∪ {[name]}) {[mn]}).
  pose proof (size_union_le (X ∪ {[code]}) {[name]}).
  pose proof (size_union_le X {[code]}).
  rewrite !size_singleton in *. lia.
Qed.

Lemma size_suggestions (df : list suggestion_row) (X : gset string) :
  size (fold_left add_suggestions df X) <= size X + 3 * length df.
Proof.
  revert X. induction df as [|row df IH]; intros X; simpl; [lia|].
  pose proof (IH (add_suggestions X row)). pose proof (size_add_suggestions X row). lia.
Qed.

Lemma elem_of_suggestions (df : list suggestion_row) (X : gset string) (s : string) :
  s ∈ fold_left add_suggestions df X
  <-> s ∈ X \/ exists code name ministry_name,
                 (code, name, ministry_name) ∈ df
                 /\ (s = code \/ s = name \/ s = ministry_name).
Proof.
  revert X. induction df as [|[[c n] m] df IH]; intros X; simpl.
  - split; [auto|]. intros [?|(? & ? & ? & ?%elem_of_nil & _)]; done.
  - rewrite IH. unfold add_suggestions. rewrite !elem_of_union, !elem_of_singleton.
    setoid_rewrite elem_of_cons. split.
    + intros [[[[?|?]|?]|?]|(c' & n' & m' & ? & ?)]; eauto 10.
      all: right; exists c, n, m; auto.
    + intros [?|(c' & n' & m' & [?|?] & ?)]; simplify_eq; eauto 10.
      naive_solver.
Qed.

Lemma suggestions_query_returns db lb q :
  is_Some (bills db) -> is_Some (questions db) -> is_Some (ministries db) ->
  exists df, suggestions_query db lb q = inr df /\ length df <= 10.
Proof.
  intros [bs Hb] [qs Hq] [ms Hm]. unfold suggestions_query. rewrite Hb, Hq, Hm. simpl.
  destruct (Text.contains "Bill" lb); simpl; eexists; (split; [reflexivity|]);
    rewrite length_fmap, length_take; lia.
Qed.

(** C3 (as amended).  A query shorter than two characters, as [len]
    counts them, gives the empty list without any query being run.
    Otherwise, when the tables exist,
    the lookup returns a list: the codes, names or titles, and ministry
    names of the at most ten rows its query selects, hence at most thirty
    suggestions, each once, in increasing order. *)
Theorem suggestions_are_sorted_distinct_and_at_most_thirty
    (db : database) (legislative_body search_term : string) :
  (Text.len search_term < 2 ->
     fetch_search_suggestions db legislative_body search_term = inr [])
  /\ (is_Some (bills db) -> is_Some (questions db) -> is_Some (ministries db) ->
      exists suggestions,
        fetch_search_suggestions db legislative_body search_term = inr suggestions
        /\ length suggestions <= 30
        /\ StronglySorted str_lt suggestions
        /\ NoDup suggestions
        /\ (2 <= Text.len search_term ->
            exists df,
              suggestions_query db legislative_body search_term = inr df
              /\ length df <= 10
              /\ forall s, s ∈ suggestions
                           <-> exists code name ministry_name,
                                 (code, name, ministry_name) ∈ df
                                 /\ (s = code \/ s = name \/ s = ministry_name))).
Proof.
  split.
  - intros Hshort. unfold fetch_search_suggestions.
    apply Nat.ltb_lt in Hshort. by rewrite Hshort, orb_true_r.
  - intros Hb Hq Hm. unfold fetch_search_suggestions.
    destruct (negb (Text.truthy search_term) || (Text.len search_term <? 2)%nat) eqn:Hs.
    + exists []. split_and!; [done|simpl; lia|constructor|constructor|].
      intros Hlong. apply orb_true_iff in Hs as [Hs|Hs].
      * destruct search_term; simpl in *; [lia|done].
      * apply Nat.ltb_lt in Hs. lia.
    + destruct (suggestions_query_returns db legislative_body search_term Hb Hq Hm)
        as (df & Hdf & Hlen).
      rewrite Hdf. simpl. eexists. split; [reflexivity|].
      pose proof (sorted_elements_strict (fold_left add_suggestions df ∅)) as Hsorted.
      split_and!.
      * rewrite length_sorted.
        pose proof (size_suggestions df ∅) as Hsize. rewrite size_empty in Hsize.
        unfold size, set_size in Hsize. simpl in Hsize. lia.
      * done.
      * unfold sorted. rewrite merge_sort_Permutation. apply NoDup_elements.
      * intros _. exists df. split_and!; [done|done|]. intros s.
        unfold sorted. rewrite merge_sort_Permutation, elem_of_elements, elem_of_suggestions.
        rewrite elem_of_empty. tauto.
Qed.

(** ** The status sort of the viewers *)

Lemma key_le_total {A K : Type} (le : K -> K -> bool) (key : A -> K) :
  (forall x y, le x y = true \/ le y x = true) -> Total (key_le le key).
Proof. intros H a b. apply H. Qed.

Lemma key_le_trans {A K : Type} (le : K -> K -> bool) (key : A -> K) :
  (forall x y z, le x y = true -> le y z = true -> le x z = true) ->
  Transitive (key_le le key).
Proof. intros H a b c. apply H. Qed.

Lemma merge_sorter_ok : sorter_ok merge_sorter.
Proof.
  split; unfold merge_sorter.
  - intros. apply merge_sort_Permutation.
  - intros A K le key l Htotal _.
    apply (@Sorted_merge_sort _ _ _ (key_le_total le key Htotal)).
Qed.

Section sort_values.
Context {A K : Type} (qs : sorter) (le : K -> K -> bool) (key : A -> option K).
Hypothesis qs_ok : sorter_ok qs.
Hypothesis le_total : forall x y, le x y = true \/ le y x = true.
Hypothesis le_trans : forall x y z, le x y = true -> le y z = true -> le x z = true.

Local Notation "'keyed' df" :=
  (omap (fun r : A => k ← key r; Some (r, k)) df) (at level 10, df at level 9).

Lemma elem_of_keyed (df : list A) (p : A * K) : p ∈ keyed df -> key p.1 = Some p.2.
Proof.
  rewrite list_elem_of_omap. intros (r & _ & Hr).
  destruct (key r) as [k|] eqn:E; simplify_eq/=. done.
Qed.

Lemma keyed_nans_Permutation (df : list A) :
  (fst <$> keyed df) ++ filter (fun r => key r = None) df ≡ₚ df.
Proof.
  induction df as [|r df IH]; [done|]. rewrite filter_cons. simpl.
  destruct (key r) as [k|] eqn:E; simpl.
  - by rewrite IH.
  - rewrite <- Permutation_middle. by rewrite IH.
Qed.

Lemma sort_values_Permutation (ascending : bool) (df : list A) :
  sort_values qs le key ascending df ≡ₚ df.
Proof.
  unfold sort_values. etrans; [|apply keyed_nans_Permutation].
  apply Permutation_app; [|done]. apply fmap_Permutation.
  destruct ascending.
  - apply (sorter_perm _ qs_ok).
  - by rewrite reverse_Permutation, (sorter_perm _ qs_ok), reverse_Permutation.
Qed.

Lemma StronglySorted_members (R : relation (A * K)) (P : A * K -> Prop) (l : list (A * K)) :
  StronglySorted R l -> Forall P l ->
  StronglySorted (fun x y => P x /\ P y /\ R x y) l.
Proof.
  induction 1 as [|x l Hs IH Hx]; intros Hall; [constructor|].
  apply Forall_cons in Hall as [Hpx Hall]. constructor; [auto|].
  rewrite Forall_forall in Hx, Hall |- *. auto.
Qed.

Lemma sort_values_sorted (ascending : bool) (df : list A) :
  StronglySorted
    (fun a b => nan_last (if ascending then le else flip le) (key a) (key b))
    (sort_values qs le key ascending df).
Proof.
  unfold sort_values.
  set (le' := if ascending then le else flip le).
  set (sp := if ascending then qs (A * K)%type K le snd (keyed df)
             else reverse (qs (A * K)%type K le snd (reverse (keyed df)))).
  assert (sp ≡ₚ keyed df) as Hperm.
  { unfold sp. destruct ascending.
    - apply (sorter_perm _ qs_ok).
    - by rewrite reverse_Permutation, (sorter_perm _ qs_ok), reverse_Permutation. }
  assert (StronglySorted (key_le le' snd) sp) as Hsorted.
  { unfold sp, le'. destruct ascending.
    - apply (@Sorted_StronglySorted _ _ (key_le_trans le snd le_trans)).
      by apply (sorter_sorted _ qs_ok).
    - assert (Transitive (key_le (flip le) (snd : A * K -> K))) as Htrans.
      { intros a b c H1 H2. unfold key_le, flip in *. eauto. }
      apply (@Sorted_StronglySorted _ _ Htrans).
      apply (Sorted_reverse (key_le le snd)). by apply (sorter_sorted _ qs_ok). }
  assert (Forall (fun p : A * K => key p.1 = Some p.2) sp) as Hkeys.
  { apply Forall_forall. intros p Hp. rewrite Hperm in Hp. by apply (elem_of_keyed df). }
  apply StronglySorted_app. split_and!.
  - intros a b _ [Hb _]%list_elem_of_filter. rewrite Hb. by destruct (key a).
  - apply (StronglySorted_fmap fst
             (fun x y => key x.1 = Some x.2 /\ key y.1 = Some y.2 /\ key_le le' snd x y)).
    + intros [a ka] [b kb] (Ha & Hb & Hle). simpl in *. by rewrite Ha, Hb.
    + by apply StronglySorted_members.
  - assert (Forall (fun r => key r = None) (filter (fun r => key r = None) df)) as Hnone.
    { apply Forall_forall. by intros x [? _]%list_elem_of_filter. }
    induction Hnone as [|x l Hx Hl IH]; constructor; [done|].
    apply Forall_forall. intros y Hy. rewrite Forall_forall in Hl. rewrite (Hl y Hy).
    by destruct (key x).
Qed.

End sort_values.

Lemma StronglySorted_weaken {A : Type} (R1 R2 : relation A) (l : list A) :
  (forall x y, R1 x y -> R2 x y) -> StronglySorted R1 l -> StronglySorted R2 l.
Proof.
  intros H. induction 1 as [|x l Hs IH Hx]; constructor; [done|].
  eapply Forall_impl; [exact Hx|]. auto.
Qed.

Lemma bill_status_code (status : string) :
  categorical_code ["Passed"; "Pending"; "Not Passed"] status
  = if (bill_status_place status <? 3)%nat then Some (bill_status_place status) else None.
Proof.
  unfold categorical_code, bill_status_place. simpl.
  destruct (String.eqb_spec status "Passed") as [->|H1]; [done|].
  destruct (String.eqb_spec status "Pending") as [->|H2]; [done|].
  destruct (String.eqb_spec status "Not Passed") as [->|H3]; [done|].
  by rewrite !decide_False by done.
Qed.

Lemma question_status_code (status : string) :
  categorical_code ["Answered"; "Not Answered"] status
  = if (question_status_place status <? 2)%nat
    then Some (1 - question_status_place status) else None.
Proof.
  unfold categorical_code, question_status_place. simpl.
  destruct (String.eqb_spec status "Not Answered") as [->|H1]; [done|].
  destruct (String.eqb_spec status "Answered") as [->|H2]; [done|].
  by rewrite !decide_False by done.
Qed.

Lemma nat_leb_total (x y : nat) : Nat.leb x y = true \/ Nat.leb y x = true.
Proof. rewrite !Nat.leb_le. lia. Qed.

Lemma nat_leb_trans (x y z : nat) :
  Nat.leb x y = true -> Nat.leb y z = true -> Nat.leb x z = true.
Proof. rewrite !Nat.leb_le. lia. Qed.

Lemma sort_bills_by_status (qs : sorter) (df : list bill_view) :
  sorter_ok qs ->
  sort_bills qs "Status" df ≡ₚ df
  /\ StronglySorted
       (fun a b => bill_status_place (bill_current_status (bv_bill a))
                   <= bill_status_place (bill_current_status (bv_bill b)))
       (sort_bills qs "Status" df).
Proof.
  intros Hok. unfold sort_bills. simpl. split.
  - by apply sort_values_Permutation.
  - eapply StronglySorted_weaken;
      [|apply (sort_values_sorted qs Nat.leb _ Hok nat_leb_total nat_leb_trans true)].
    intros a b. simpl. rewrite !bill_status_code.
    pose proof (Nat.ltb_spec (bill_status_place (bill_current_status (bv_bill a))) 3) as Ha.
    pose proof (Nat.ltb_spec (bill_status_place (bill_current_status (bv_bill b))) 3) as Hb.
    assert (forall s, bill_status_place s <= 3) as Hmax.
    { intros s. unfold bill_status_place. repeat case_match; lia. }
    pose proof (Hmax (bill_current_status (bv_bill a))).
    destruct Ha, Hb; simpl; rewrite ?Nat.leb_le; lia.
Qed.

Lemma sort_questions_by_status (qs : sorter) (df : list question_view) :
  sorter_ok qs ->
  sort_questions qs "Status" df ≡ₚ df
  /\ StronglySorted
       (fun a b => question_status_place (question_current_status (qv_question a))
                   <= question_status_place (question_current_status (qv_question b)))
       (sort_questions qs "Status" df).
Proof.
  intros Hok. unfold sort_questions. simpl. split.
  - by apply sort_values_Permutation.
  - eapply StronglySorted_weaken;
      [|apply (sort_values_sorted qs Nat.leb _ Hok nat_leb_total nat_leb_trans false)].
    intros a b. simpl. rewrite !question_status_code.
    pose proof (Nat.ltb_spec (question_status_place
                                (question_current_status (qv_question a))) 2) as Ha.
    pose proof (Nat.ltb_spec (question_status_place
                                (question_current_status (qv_question b))) 2) as Hb.
    assert (forall s, question_status_place s <= 2) as Hmax.
    { intros s. unfold question_status_place. repeat case_match; lia. }
    pose proof (Hmax (question_current_status (qv_question a))).
    destruct Ha, Hb; simpl; unfold flip; rewrite ?Nat.leb_le; lia.
Qed.

(** *** A stable sort keeps the fetch order among rows of equal status *)

Lemma insert_by_Permutation {A K : Type} (le : K -> K -> bool) (key : A -> K) (x : A)
    (l : list A) : insert_by le key x l ≡ₚ x :: l.
Proof.
  induction l as [|y l IH]; simpl; [done|].
  destruct (le (key x) (key y)); [done|]. rewrite IH. apply Permutation_swap.
Qed.

Lemma insert_by_Sorted {A K : Type} (le : K -> K -> bool) (key : A -> K) (x : A) (l : list A) :
  (forall a b, le a b = true \/ le b a = true) ->
  Sorted (key_le le key) l -> Sorted (key_le le key) (insert_by le key x l).
Proof.
  intros Htotal. induction 1 as [|y l Hs IH Hy]; simpl; [by repeat constructor|].
  destruct (le (key x) (key y)) eqn:E.
  - constructor; [by constructor|]. by constructor.
  - constructor; [done|].
    assert (key_le le key y x) as Hyx.
    { unfold key_le. destruct (Htotal (key x) (key y)); congruence. }
    destruct Hy as [|z l Hz]; simpl; [by constructor|].
    destruct (le (key x) (key z)); by constructor.
Qed.

Lemma insertion_sorter_ok : sorter_ok insertion_sorter.
Proof.
  split; unfold insertion_sorter.
  - intros A K le key l. induction l as [|x l IH]; simpl; [done|].
    by rewrite insert_by_Permutation, IH.
  - intros A K le key l Htotal _. induction l as [|x l IH]; simpl; [constructor|].
    by apply insert_by_Sorted.
Qed.

Lemma insert_by_filter {A K : Type} (le : K -> K -> bool) (key : A -> K) (P : A -> bool)
    (x : A) (l : list A) :
  (forall a b, P a = true -> P b = true -> le (key a) (key b) = true) ->
  filter (fun a => P a = true) (insert_by le key x l) = filter (fun a => P a = true) (x :: l).
Proof.
  intros HP. induction l as [|y l IH]; simpl; [done|].
  destruct (le (key x) (key y)) eqn:E; [done|].
  rewrite (filter_cons _ y), IH, !filter_cons.
  destruct (decide (P y = true)) as [Hy|Hy], (decide (P x = true)) as [Hx|Hx]; try done.
  rewrite (HP x y Hx Hy) in E. done.
Qed.

Lemma insertion_sorter_stable : sorter_stable insertion_sorter.
Proof.
  intros A K le key l P HP. unfold insertion_sorter.
  induction l as [|x l IH]; simpl; [done|].
  rewrite insert_by_filter by done. by rewrite !filter_cons, IH.
Qed.

Lemma filter_nothing {A : Type} (P : A -> Prop) `{!forall x, Decision (P x)} (l : list A) :
  (forall x, x ∈ l -> ~ P x) -> filter P l = [].
Proof.
  induction l as [|x l IH]; intros Hno; [done|]. rewrite filter_cons.
  rewrite decide_False by (apply Hno; left). apply IH. intros y Hy. apply Hno. by right.
Qed.

Lemma filter_all {A : Type} (P : A -> Prop) `{!forall x, Decision (P x)} (l : list A) :
  (forall x, x ∈ l -> P x) -> filter P l = l.
Proof.
  induction l as [|x l IH]; intros Hall; [done|]. rewrite filter_cons.
  rewrite decide_True by (apply Hall; left). f_equal. apply IH. intros y Hy. apply Hall. by right.
Qed.

Lemma filter_reverse_comm {A : Type} (P : A -> Prop) `{!forall x, Decision (P x)} (l : list A) :
  filter P (reverse l) = reverse (filter P l).
Proof.
  induction l as [|x l IH]; [done|].
  rewrite reverse_cons, filter_app, IH, (filter_cons _ x l), (filter_cons _ x []).
  destruct (decide (P x)).
  - by rewrite reverse_cons.
  - by rewrite filter_nil, List.app_nil_r.
Qed.

Section stable.
Context {A K : Type} (qs : sorter) (le : K -> K -> bool) (key : A -> option K).
Hypothesis qs_ok : sorter_ok qs.
Hypothesis qs_stable : sorter_stable qs.
Hypothesis le_total : forall x y, le x y = true \/ le y x = true.
Hypothesis le_trans : forall x y z, le x y = true -> le y z = true -> le x z = true.

Local Notation "'keyed' df" :=
  (omap (fun r : A => k ← key r; Some (r, k)) df) (at level 10, df at level 9).

(** The rows of one key keep their order. *)
Lemma sort_values_stable (ascending : bool) (P : A -> bool) (k : K) (df : list A) :
  (forall a, P a = true -> key a = Some k) ->
  filter (fun a => P a = true) (sort_values qs le key ascending df)
  = filter (fun a => P a = true) df.
Proof.
  intros HP. unfold sort_values. rewrite filter_app.
  rewrite (filter_nothing _ (filter _ df)).
  2:{ intros a [Ha _]%list_elem_of_filter Hp. rewrite (HP a Hp) in Ha. done. }
  rewrite List.app_nil_r.
  set (P' := fun p : A * K => P p.1 && le p.2 k && le k p.2).
  set (sp := if ascending then qs (A * K)%type K le snd (keyed df)
             else reverse (qs (A * K)%type K le snd (reverse (keyed df)))).
  assert (sp ≡ₚ keyed df) as Hperm.
  { unfold sp. destruct ascending.
    - apply (sorter_perm _ qs_ok).
    - by rewrite reverse_Permutation, (sorter_perm _ qs_ok), reverse_Permutation. }
  assert (forall p, key p.1 = Some p.2 -> P p.1 = true <-> P' p = true) as HPP'.
  { intros [a ka] Hk. unfold P'. simpl in *. split.
    - intros Hp. rewrite Hp. rewrite (HP a Hp) in Hk. injection Hk as <-.
      destruct (le_total k k) as [->| ->]; done.
    - by intros [[? _]%andb_true_iff _]%andb_true_iff. }
  assert (forall l : list (A * K), (forall p, p ∈ l -> key p.1 = Some p.2) ->
            filter (fun a => P a = true) (fst <$> l)
            = fst <$> filter (fun p => P' p = true) l) as Hfst.
  { intros l Hl. induction l as [|p l IH]; [done|].
    rewrite fmap_cons, !filter_cons, IH by (intros q Hq; apply Hl; by right).
    pose proof (HPP' p (Hl p ltac:(left))) as Hp.
    destruct (decide (P p.1 = true)) as [H1|H1], (decide (P' p = true)) as [H2|H2];
      try done; tauto. }
  assert (filter (fun p => P' p = true) sp = filter (fun p => P' p = true) (keyed df)) as Hst.
  { assert (forall x y : A * K, P' x = true -> P' y = true -> le x.2 y.2 = true) as Hclass.
    { intros x y [[_ Hx]%andb_true_iff _]%andb_true_iff [[_ _]%andb_true_iff Hy]%andb_true_iff.
      eauto. }
    unfold sp. destruct ascending.
    - by apply qs_stable.
    - rewrite filter_reverse_comm, (qs_stable _ _ le snd _ P' Hclass), filter_reverse_comm.
      apply reverse_involutive. }
  rewrite Hfst.
  2:{ intros p Hp. rewrite Hperm in Hp. by apply (elem_of_keyed key df). }
  fold sp. rewrite Hst. rewrite <- Hfst.
  2:{ intros p Hp. by apply (elem_of_keyed key df). }
  clear -HP. induction df as [|r df IH]; [done|]. simpl.
  destruct (key r) as [kr|] eqn:E; simpl.
  - rewrite !filter_cons. destruct (decide (P r = true)); [f_equal|]; apply IH.
  - rewrite filter_cons. destruct (decide (P r = true)) as [Hp|Hp]; [|apply IH].
    rewrite (HP r Hp) in E. done.
Qed.

(** The rows without a key keep their order, after the others. *)
Lemma sort_values_stable_nan (ascending : bool) (P : A -> bool) (df : list A) :
  (forall a, P a = true -> key a = None) ->
  filter (fun a => P a = true) (sort_values qs le key ascending df)
  = filter (fun a => P a = true) df.
Proof.
  intros HP. unfold sort_values. rewrite filter_app.
  set (sp := if ascending then qs (A * K)%type K le snd (keyed df)
             else reverse (qs (A * K)%type K le snd (reverse (keyed df)))).
  assert (sp ≡ₚ keyed df) as Hperm.
  { unfold sp. destruct ascending.
    - apply (sorter_perm _ qs_ok).
    - by rewrite reverse_Permutation, (sorter_perm _ qs_ok), reverse_Permutation. }
  rewrite (filter_nothing _ (fst <$> sp)).
  2:{ intros a (p & -> & Hp)%list_elem_of_fmap Ha. rewrite Hperm in Hp.
      apply (elem_of_keyed key df) in Hp. rewrite (HP _ Ha) in Hp. done. }
  simpl. clear -HP. induction df as [|r df IH]; [done|].
  rewrite !filter_cons. destruct (decide (key r = None)) as [Hk|Hk].
  - rewrite filter_cons, IH. done.
  - rewrite IH. destruct (decide (P r = true)) as [Hp|Hp]; [|done]. by destruct Hk; auto.
Qed.
End stable.

Lemma filter_bool {A : Type} (P : A -> Prop) `{!forall x, Decision (P x)} (l : list A) :
  filter P l = filter (fun a => bool_decide (P a) = true) l.
Proof.
  induction l as [|x l IH]; [done|]. rewrite !filter_cons, IH.
  destruct (decide (P x)) as [Hp|Hp].
  - by rewrite decide_True by (by apply bool_decide_eq_true).
  - by rewrite decide_False by (by rewrite bool_decide_eq_true).
Qed.

(** A list in the order of its places is its rows of place 0, then those
    of place 1, and so on. *)
Lemma filter_place_S {A : Type} (place : A -> nat) (k : nat) (l : list A) :
  StronglySorted (fun a b => place a <= place b) l ->
  filter (fun a => place a < k) l ++ filter (fun a => place a = k) l
  = filter (fun a => place a < S k) l.
Proof.
  induction 1 as [|x l Hs IH Hx]; [done|]. rewrite !filter_cons.
  destruct (decide (place x < k)) as [H1|H1], (decide (place x = k)) as [H2|H2],
    (decide (place x < S k)) as [H3|H3]; try lia.
  - simpl. by rewrite IH.
  - rewrite <- IH. rewrite (filter_nothing (fun a => place a < k) l); [done|].
    intros y Hy. rewrite Forall_forall in Hx. specialize (Hx y Hy). lia.
  - done.
Qed.

Lemma by_place_sorted {A : Type} (place : A -> nat) (n : nat) (l : list A) :
  StronglySorted (fun a b => place a <= place b) l ->
  Forall (fun a => place a < n) l ->
  by_place place n l = l.
Proof.
  intros Hs Hall. unfold by_place.
  assert (forall m, (i ← seq 0 m; filter (fun a => place a = i) l)
                    = filter (fun a => place a < m) l) as Hm.
  { induction m as [|m IH].
    - simpl. symmetry. apply filter_nothing. intros; lia.
    - rewrite seq_S, bind_app, IH. simpl. rewrite List.app_nil_r. by apply filter_place_S. }
  rewrite Hm. apply filter_all. by apply Forall_forall.
Qed.

Lemma by_place_ext {A : Type} (place : A -> nat) (n : nat) (l l' : list A) :
  (forall i, filter (fun a => place a = i) l = filter (fun a => place a = i) l') ->
  by_place place n l = by_place place n l'.
Proof.
  intros H. unfold by_place. induction (seq 0 n) as [|i s IH]; [done|].
  by rewrite !bind_cons, H, IH.
Qed.

Lemma sort_bills_stable (qs : sorter) (df : list bill_view) :
  sorter_ok qs -> sorter_stable qs ->
  sort_bills qs "Status" df
  = by_place (fun v => bill_status_place (bill_current_status (bv_bill v))) 4 df.
Proof.
  intros Hok Hst. destruct (sort_bills_by_status qs df Hok) as [_ Hsorted].
  set (place := fun v => bill_status_place (bill_current_status (bv_bill v))).
  rewrite <- (by_place_sorted place 4 (sort_bills qs "Status" df)); [|done|].
  2:{ apply Forall_forall. intros v _. unfold place, bill_status_place.
      repeat case_match; lia. }
  apply by_place_ext. intros i. rewrite !(filter_bool (fun a => place a = i)).
  unfold sort_bills. simpl.
  destruct (Nat.ltb_spec i 3) as [Hi|Hi].
  - apply (sort_values_stable qs Nat.leb _ Hok Hst nat_leb_total nat_leb_trans true _ i).
    intros v Hv%bool_decide_eq_true. unfold place in Hv. rewrite bill_status_code, Hv.
    by apply Nat.ltb_lt in Hi as ->.
  - apply (sort_values_stable_nan qs Nat.leb _ Hok true).
    intros v Hv%bool_decide_eq_true. unfold place in Hv. rewrite bill_status_code, Hv.
    by apply Nat.ltb_ge in Hi as ->.
Qed.

Lemma sort_questions_stable (qs : sorter) (df : list question_view) :
  sorter_ok qs -> sorter_stable qs ->
  sort_questions qs "Status" df
  = by_place (fun v => question_status_place (question_current_status (qv_question v))) 3 df.
Proof.
  intros Hok Hst. destruct (sort_questions_by_status qs df Hok) as [_ Hsorted].
  set (place := fun v => question_status_place (question_current_status (qv_question v))).
  rewrite <- (by_place_sorted place 3 (sort_questions qs "Status" df)); [|done|].
  2:{ apply Forall_forall. intros v _. unfold place, question_status_place.
      repeat case_match; lia. }
  apply by_place_ext. intros i. rewrite !(filter_bool (fun a => place a = i)).
  unfold sort_questions. simpl.
  destruct (Nat.ltb_spec i 2) as [Hi|Hi].
  - apply (sort_values_stable qs Nat.leb _ Hok Hst nat_leb_total nat_leb_trans false _ (1 - i)).
    intros v Hv%bool_decide_eq_true. unfold place in Hv.
    rewrite question_status_code, Hv.
    by apply Nat.ltb_lt in Hi as ->.
  - apply (sort_values_stable_nan qs Nat.leb _ Hok false).
    intros v Hv%bool_decide_eq_true. unfold place in Hv.
    rewrite question_status_code, Hv.
    by apply Nat.ltb_ge in Hi as ->.
Qed.

(** C4 (as amended).  Whatever sort stands behind [sort_values], the
    status sort lists the same rows it was given, bills in the order
    Passed, Pending, Not Passed and questions in the order Not Answered,
    Answered, rows of any other status last; the viewers show the rows in
    that order and leave the database as it was.  When that sort is
    stable, the rows of equal status keep the order of the fetch: the
    result is the rows of the first status as the fetch has them, then
    those of the second, and so on. *)
Theorem status_sort_follows_the_listed_order (qs : sorter) :
  sorter_ok qs ->
  (forall df,
     sort_bills qs "Status" df ≡ₚ df
     /\ StronglySorted
          (fun a b => bill_status_place (bill_current_status (bv_bill a))
                      <= bill_status_place (bill_current_status (bv_bill b)))
          (sort_bills qs "Status" df))
  /\ (forall df,
        sort_questions qs "Status" df ≡ₚ df
        /\ StronglySorted
             (fun a b => question_status_place (question_current_status (qv_question a))
                         <= question_status_place (question_current_status (qv_question b)))
             (sort_questions qs "Status" df))
  /\ (forall db legislative_body form db' shown said,
        render_bills_viewer qs db legislative_body form = inr (db', shown, said) ->
        db' = db
        /\ (vf_sort_by form = 1 ->
            StronglySorted
              (fun a b => bill_status_place (bill_current_status (bv_bill a))
                          <= bill_status_place (bill_current_status (bv_bill b)))
              shown))
  /\ (forall db form db' shown said,
        render_questions_viewer qs db form = inr (db', shown, said) ->
        db' = db
        /\ (vf_sort_by form = 1 ->
            StronglySorted
              (fun a b => question_status_place (question_current_status (qv_question a))
                          <= question_status_place (question_current_status (qv_question b)))
              shown))
  /\ (sorter_stable qs ->
      (forall df,
         sort_bills qs "Status" df
         = by_place (fun v => bill_status_place (bill_current_status (bv_bill v))) 4 df)
      /\ (forall df,
            sort_questions qs "Status" df
            = by_place (fun v => question_status_place
                                   (question_current_status (qv_question v))) 3 df)).
Proof.
  intros Hok. split_and!.
  5:{ intros Hst. split; intros df; [by apply sort_bills_stable|by apply sort_questions_stable]. }
  - intros df. by apply sort_bills_by_status.
  - intros df. by apply sort_questions_by_status.
  - intros db lb form db' shown said. unfold render_bills_viewer.
    destruct (fetch_search_suggestions db lb (vf_raw_search_query form)) as [|sug]; [done|].
    simpl. destruct (final_search_query sug form _) as [query said0].
    destruct (fetch_bills db lb query) as [df failed].
    destruct (df_empty df); intros [= <- <- <-]; (split; [done|]); intros Hsort.
    + constructor.
    + rewrite Hsort. by apply sort_bills_by_status.
  - intros db form db' shown said. unfold render_questions_viewer.
    destruct (fetch_search_suggestions db _ (vf_raw_search_query form)) as [|sug]; [done|].
    simpl. destruct (final_search_query sug form _) as [query said0].
    destruct (fetch_questions db _ query) as [df failed].
    destruct (df_empty df); intros [= <- <- <-]; (split; [done|]); intros Hsort.
    + constructor.
    + rewrite Hsort. by apply sort_questions_by_status.
Qed.

Lemma question_status_of_place (status : string) :
  (question_status_place status = 0 -> status = "Not Answered")
  /\ (question_status_place status = 1 -> status = "Answered").
Proof.
  unfold question_status_place.
  destruct (String.eqb_spec status "Not Answered") as [->|H1]; [done|].
  destruct (String.eqb_spec status "Answered") as [->|H2]; done.
Qed.

(** ** What one run writes *)

Lemma existsb_eqb_false {A : Type} (f : A -> string) (c : string) (l : list A) :
  existsb (fun r => String.eqb (f r) c) l = false <-> c ∉ (f <$> l).
Proof.
  induction l as [|r l IH]; simpl.
  - split; [intros _ ?%elem_of_nil; done|done].
  - rewrite orb_false_iff, IH, not_elem_of_cons. split.
    + intros [E ?]. split; [|done]. intros ->. by rewrite String.eqb_refl in E.
    + intros [E ?]. split; [|done]. apply not_true_iff_false.
      rewrite String.eqb_eq. congruence.
Qed.

Lemma existsb_eqb_true {A : Type} (f : A -> string) (c : string) (l : list A) :
  existsb (fun r => String.eqb (f r) c) l = true <-> c ∈ (f <$> l).
Proof.
  destruct (existsb _ l) eqn:E.
  - split; [intros _|done]. destruct (decide (c ∈ (f <$> l))) as [|H]; [done|].
    apply existsb_eqb_false in H. congruence.
  - apply existsb_eqb_false in E. split; [done|]. intros ?. done.
Qed.

Lemma truthy_ne (s : string) : Text.truthy s = true <-> s <> "".
Proof. destruct s; simpl; split; congruence. Qed.

(** The box of the code keeps two characters at most. *)
Lemma len_first_chars (n : nat) (s : string) : Text.len (Text.first_chars n s) <= n.
Proof.
  revert n. induction s as [|c s IH]; intros n; simpl; [lia|].
  destruct (Text.is_continuation c) eqn:E; simpl.
  - rewrite E. apply IH.
  - destruct n as [|n]; simpl; [lia|]. rewrite E. specialize (IH n). lia.
Qed.

Lemma typed_code_ok (typed : string) :
  text_input_max 2 typed <> "" -> code_ok (str_upper (text_input_max 2 typed)).
Proof.
  intros Hne. exists (text_input_max 2 typed). split_and!; [done|done|].
  apply len_first_chars.
Qed.

Lemma insert_meta_inv name tbl code nm t' :
  insert_meta name tbl code nm = inr t' ->
  exists t, tbl = Some t
    /\ t' = append_row t (fun i => {| meta_id := i; meta_code := code; meta_name := nm |})
    /\ (code ∉ (meta_code <$> rows t)) /\ nm ∉ (meta_name <$> rows t).
Proof.
  unfold insert_meta. destruct tbl as [t|]; [|done]. simpl.
  destruct (existsb _ (rows t)) eqn:Ec; [done|].
  destruct (existsb _ (rows t)) eqn:En in |- *; [done|]. intros [= <-].
  apply existsb_eqb_false in Ec, En. by exists t.
Qed.

(** The metadata form writes nothing, or one new row at the end of its
    table. *)
Lemma add_metadata_inv db which label form db' said :
  add_metadata db which label form = inr (db', said) ->
  db' = db
  \/ exists t,
       let code := str_upper (text_input_max 2 (mf_code form)) in
       let row := fun i => {| meta_id := i; meta_code := code; meta_name := mf_name form |} in
       mf_submitted form = true /\ code_ok code /\ mf_name form <> ""
       /\ (code ∉ (meta_code <$> rows t)) /\ (mf_name form ∉ (meta_name <$> rows t))
       /\ (which = States /\ states db = Some t /\ db' = set_states db (append_row t row)
           \/ which <> States /\ ministries db = Some t
              /\ db' = set_ministries db (append_row t row)).
Proof.
  unfold add_metadata. destruct (mf_submitted form); simpl; [|intros [= <- <-]; by left].
  destruct (Text.truthy (text_input_max 2 _)) eqn:Hc; simpl; [|intros [= <- <-]; by left].
  destruct (Text.truthy (mf_name form)) eqn:Hn; simpl; [|intros [= <- <-]; by left].
  apply truthy_ne in Hc, Hn. apply typed_code_ok in Hc.
  destruct which; simpl.
  all: destruct (insert_meta _ _ _ _) as [[]|t'] eqn:Hins; simpl; intros [= <- <-];
    try (by left).
  all: apply insert_meta_inv in Hins as (t & Ht & -> & ? & ?); right; exists t; simpl;
    split_and!; try done.
  all: first [ by right | by left ].
Qed.

Lemma insert_bill_inv db data db' :
  insert_bill db data = inr db' ->
  exists t, bills db = Some t /\ db' = set_bills db (append_row t data)
            /\ bill_code (data 0%N) ∉ (bill_code <$> rows t).
Proof.
  unfold insert_bill. destruct (bills db) as [t|]; [|done]. simpl.
  destruct (existsb _ (rows t)) eqn:E; [done|]. intros [= <-].
  apply existsb_eqb_false in E. by exists t.
Qed.

Lemma insert_question_inv db data db' :
  insert_question db data = inr db' ->
  exists t, questions db = Some t /\ db' = set_questions db (append_row t data)
            /\ question_code (data 0%N) ∉ (question_code <$> rows t).
Proof.
  unfold insert_question. destruct (questions db) as [t|]; [|done]. simpl.
  destruct (existsb _ (rows t)) eqn:E; [done|]. intros [= <-].
  apply existsb_eqb_false in E. by exists t.
Qed.

Lemma selectbox_options (options : list string) (choice : nat) :
  options <> [] -> selectbox options choice ∈ options.
Proof.
  destruct options as [|o l]; [done|]. intros _. apply selectbox_elem_of.
Qed.

(** The values the bill form stores that [render_bill_form_cases] leaves
    open. *)
Lemma render_bill_form_values db body form env db' said :
  render_bill_form db body form env = inr (db', said) ->
  db' = db
  \/ exists t b,
       bills db = Some t
       /\ db' = set_bills db {| rows := rows t ++ [b]; sqlite_sequence := next_id t |}
       /\ bf_submitted form = true
       /\ (bf_pdf form <> None -> disk_ok env = true)
       /\ (bill_code b ∉ (bill_code <$> rows t))
       /\ bill_name b = bf_bill_name form
       /\ bill_current_status b ∈ ["Pending"; "Passed"; "Not Passed"]
       /\ bill_approval_status b
          = Some (if String.eqb body "State Assembly"
                  then "Governor Approval" else "President Approval")
       /\ (exists r, bill_approval_result b = Some r /\ r ∈ ["Pending"; "Yes"; "No"])
       /\ bill_pdf_path b
          = (if bool_decide (bf_pdf form = None) then None
             else Some ("pdfs/" +:+ bill_code b +:+ "_bill.pdf"))
       /\ bill_id b = next_id t.
Proof.
  unfold render_bill_form.
  destruct (fetch_metadata db "ministries") as [|md] eqn:Hmd; [done|].
  destruct (fetch_metadata db "states") as [|sd] eqn:Hsd; [done|]. simpl.
  destruct (_ || _) eqn:Hpre; [intros [= <- <-]; by left|].
  destruct (bf_submitted form) eqn:Hsub; simpl; [|intros [= <- <-]; by left].
  destruct (_ || _) eqn:Hsel in |- *; [intros [= <- <-]; by left|].
  destruct (_ && _) eqn:Hpdf in |- *; [intros [= <- <-]; by left|].
  unfold save_bill_record.
  destruct (insert_bill db _) as [|d] eqn:Hins; intros [= <- <-]; [by left|].
  apply insert_bill_inv in Hins as (t & Ht & -> & Hfresh). simpl in Hfresh.
  right. exists t. eexists. split; [done|]. split; [reflexivity|]. simpl.
  split_and!; try done.
  - intros Hp. apply andb_false_iff in Hpdf as [Hp'|Hd].
    + apply bool_decide_eq_false in Hp'. done.
    + by apply negb_false_iff in Hd.
  - by apply selectbox_options.
  - eexists. split; [done|]. by apply selectbox_options.
  - destruct (bf_pdf form); done.
Qed.

Lemma render_question_form_values db body form env db' said :
  render_question_form db body form env = inr (db', said) ->
  db' = db
  \/ exists t q,
       questions db = Some t
       /\ db' = set_questions db {| rows := rows t ++ [q]; sqlite_sequence := next_id t |}
       /\ qf_submitted form = true
       /\ (qf_pdf form <> None -> disk_ok env = true)
       /\ (question_code q ∉ (question_code <$> rows t))
       /\ question_title q = qf_question_title form
       /\ question_q_type q ∈ ["Starred"; "Unstarred"]
       /\ question_current_status q ∈ ["Answered"; "Not Answered"]
       /\ question_pdf_path q
          = (if bool_decide (qf_pdf form = None) then None
             else Some ("pdfs/" +:+ question_code q +:+ "_qn.pdf"))
       /\ question_id q = next_id t.
Proof.
  unfold render_question_form.
  destruct (fetch_metadata db "ministries") as [|md] eqn:Hmd; [done|].
  destruct (fetch_metadata db "states") as [|sd] eqn:Hsd; [done|]. simpl.
  destruct (_ || _) eqn:Hpre; [intros [= <- <-]; by left|].
  destruct (qf_submitted form) eqn:Hsub; simpl; [|intros [= <- <-]; by left].
  destruct (_ || _) eqn:Hsel in |- *; [intros [= <- <-]; by left|].
  destruct (_ && _) eqn:Hpdf in |- *; [intros [= <- <-]; by left|].
  destruct (insert_question db _) as [|d] eqn:Hins; intros [= <- <-]; [by left|].
  apply insert_question_inv in Hins as (t & Ht & -> & Hfresh). simpl in Hfresh.
  right. exists t. eexists. split; [done|]. split; [reflexivity|]. simpl.
  split_and!; try done.
  - intros Hp. apply andb_false_iff in Hpdf as [Hp'|Hd].
    + apply bool_decide_eq_false in Hp'. done.
    + by apply negb_false_iff in Hd.
  - by apply selectbox_options.
  - by apply selectbox_options.
  - destruct (qf_pdf form); done.
Qed.

Lemma exec_delete_bills db i db' :
  exec_delete db "bills" i = inr db' ->
  exists t, bills db = Some t /\ db' = set_bills db (delete_where_id bill_id i t).
Proof.
  unfold exec_delete. simpl. destruct (bills db) as [t|]; [|done]. intros [= <-]. by exists t.
Qed.

Lemma exec_delete_questions db i db' :
  exec_delete db "questions" i = inr db' ->
  exists t, questions db = Some t /\ db' = set_questions db (delete_where_id question_id i t).
Proof.
  unfold exec_delete. simpl. destruct (questions db) as [t|]; [|done]. intros [= <-].
  by exists t.
Qed.

Lemma exec_delete_current_affairs db i db' :
  exec_delete db "current_affairs" i = inr db' ->
  exists t, current_affairs db = Some t
            /\ db' = set_current_affairs db (delete_where_id ca_id i t).
Proof.
  unfold exec_delete. simpl. destruct (current_affairs db) as [t|]; [|done]. intros [= <-].
  by exists t.
Qed.

(** What the update/delete box does: nothing, or a DELETE or an UPDATE on
    the id of the first row of its frame that has the selected code. *)
Lemma render_update_delete_ui_inv db df body is_bill form db' said :
  render_update_delete_ui db df body is_bill form = inr (db', said) ->
  db' = db
  \/ exists record rest i,
       filter (fun r => col_code r = selectbox (select_code :: (col_code <$> df))
                                       (ud_selected_code form)) df = record :: rest
       /\ col_code record <> select_code
       /\ col_id record = Some i
       /\ (ud_delete_clicked form = true
           /\ exec_delete db (if is_bill then "bills" else "questions") i = inr db'
           \/ exists s a,
                ud_delete_clicked form = false
                /\ update_choice is_bill record form = inr (s, a)
                /\ ud_update_submitted form = true
                /\ (if is_bill then update_bill_status db s a i
                    else update_question_status db s i) = inr db').
Proof.
  unfold render_update_delete_ui.
  destruct (String.eqb _ select_code) eqn:Hsel; [intros [= <- <-]; by left|].
  destruct (filter _ df) as [|record rest] eqn:Hf; [intros [= <- <-]; by left|].
  assert (col_code record <> select_code) as Hne.
  { assert (record ∈ record :: rest) as Hr by left. rewrite <- Hf in Hr.
    apply list_elem_of_filter in Hr as [-> _]. intros E. rewrite E, String.eqb_refl in Hsel.
    done. }
  destruct (col_id record) as [i|] eqn:Hid; [|intros [= <- <-]; by left].
  unfold delete_button. destruct (ud_delete_clicked form) eqn:Hdel.
  - destruct (exec_delete _ _ _) as [|d] eqn:Hex.
    + destruct (update_choice _ _ _) as [|[s a]]; [done|]. simpl.
      destruct (negb _) eqn:Hsub; [intros [= <- <-]; by left|].
      apply negb_false_iff in Hsub.
      unfold submit_update.
      destruct (if is_bill then update_bill_status _ _ _ _ else _) as [|d] eqn:Hup; simpl.
      * intros [= <- <-]. by left.
      * intros [= <- <-]. destruct is_bill.
        -- unfold update_bill_status in Hup. unfold exec_delete in Hex. simpl in Hex.
           destruct (bills db); simpl in *; done.
        -- unfold update_question_status in Hup. unfold exec_delete in Hex. simpl in Hex.
           destruct (questions db); simpl in *; done.
    + intros [= <- <-]. right. exists record, rest, i. split_and!; try done. by left.
  - destruct (update_choice _ _ _) as [|[s a]] eqn:Hch; [done|]. simpl.
    destruct (negb _) eqn:Hsub; [intros [= <- <-]; by left|].
    apply negb_false_iff in Hsub. unfold submit_update.
    destruct (if is_bill then update_bill_status _ _ _ _ else _) as [|d] eqn:Hup; simpl; intros [= <- <-]; [by left|].
    right. exists record, rest, i. split_and!; try done. right. by exists s, a.
Qed.

Lemma list_index_elem_of (options : list string) (x : string) :
  x ∈ options -> exists i, list_index options x = inr i.
Proof.
  intros Hx. unfold list_index.
  destruct (list_find _ options) as [[i y]|] eqn:E; [by exists i|].
  apply list_find_None in E. rewrite Forall_forall in E. by destruct (E x Hx).
Qed.

Lemma list_index_inv (options : list string) (x : string) (i : nat) :
  list_index options x = inr i -> x ∈ options.
Proof.
  unfold list_index. destruct (list_find _ options) as [[j y]|] eqn:E; [|done]. intros _.
  apply list_find_Some in E as (Hy & -> & _). by eapply list_elem_of_lookup_2.
Qed.

(** The new values of the update form are options of its boxes. *)
Lemma update_choice_bill (b : bill_view) form s a :
  bill_values_ok (bv_bill b) ->
  update_choice true (cols_of_bill b) form = inr (s, a) ->
  s ∈ ["Pending"; "Passed"; "Not Passed"]
  /\ exists r, a = Some r /\ r ∈ ["Pending"; "Yes"; "No"].
Proof.
  intros (_ & _ & Hap & _ & _). unfold update_choice. simpl. rewrite Hap.
  destruct (list_index _ (bill_current_status _)) as [|i]; [done|]. simpl.
  destruct (String.eqb _ "State Assembly").
  all: destruct (bill_approval_result (bv_bill b)) as [r|]; [|done];
    destruct (list_index _ r); [done|]; simpl; intros [= <- <-];
    (split; [by apply selectbox_options|];
     eexists; split; [done|]; by apply selectbox_options).
Qed.

Lemma update_choice_question (q : question_view) form s a :
  update_choice false (cols_of_question q) form = inr (s, a) ->
  s ∈ ["Answered"; "Not Answered"] /\ a = None.
Proof.
  unfold update_choice. simpl.
  destruct (list_index _ _) as [|i]; [done|]. simpl. intros [= <- <-].
  split; [by apply selectbox_options|done].
Qed.

(** On rows that hold options of the boxes, the box finds its index. *)
Lemma update_choice_bill_returns (b : bill_view) form :
  bill_values_ok (bv_bill b) -> exists new, update_choice true (cols_of_bill b) form = inr new.
Proof.
  intros (_ & Hst & Hap & (r & Hr & Hro) & _). unfold update_choice. simpl.
  destruct (list_index_elem_of _ _ Hst) as [i ->]. simpl. rewrite Hap, Hr.
  destruct (list_index_elem_of _ _ Hro) as [j ->].
  destruct (String.eqb _ "State Assembly"); simpl; by eexists.
Qed.

Lemma update_choice_question_returns (q : question_view) form :
  question_values_ok (qv_question q) ->
  exists new, update_choice false (cols_of_question q) form = inr new.
Proof.
  intros (_ & _ & Hst & _). unfold update_choice. simpl.
  destruct (list_index_elem_of _ _ Hst) as [i ->]. simpl. by eexists.
Qed.

(** On a row that holds options of the boxes, the update form has the
    options picked in it. *)
Lemma update_choice_bill_value (b : bill_view) form :
  bill_values_ok (bv_bill b) ->
  update_choice true (cols_of_bill b) form
  = inr (selectbox ["Pending"; "Passed"; "Not Passed"] (ud_new_status form),
         Some (selectbox ["Pending"; "Yes"; "No"] (ud_new_approval form))).
Proof.
  intros (_ & Hst & Hap & (r & Hr & Hro) & _). unfold update_choice. simpl.
  destruct (list_index_elem_of _ _ Hst) as [i ->]. simpl. rewrite Hap, Hr.
  destruct (list_index_elem_of _ _ Hro) as [j ->].
  by destruct (String.eqb _ "State Assembly").
Qed.

Lemma update_choice_question_value (q : question_view) form :
  question_values_ok (qv_question q) ->
  update_choice false (cols_of_question q) form
  = inr (selectbox ["Answered"; "Not Answered"] (ud_new_status form), None).
Proof.
  intros (_ & _ & Hst & _). unfold update_choice. simpl.
  by destruct (list_index_elem_of _ _ Hst) as [i ->].
Qed.

(** What the current affairs page does: nothing, or one new row.  Its
    delete button removes nothing, because the id it hands to
    [delete_record] cannot be bound. *)
Lemma render_manage_ca_inv db form env db' said :
  render_manage_ca db form env = inr (db', said) ->
  db' = db
  \/ (exists t,
        current_affairs db = Some t
        /\ cf_submitted form = true /\ cf_title form <> "" /\ cf_description form <> ""
        /\ (cf_pdf form <> None -> disk_ok env = true)
        /\ db' = set_current_affairs db (append_row t (fun i =>
                   {| ca_id := i; ca_title := cf_title form;
                      ca_description := cf_description form; ca_url := cf_url form;
                      ca_pdf_path :=
                        (if bool_decide (cf_pdf form = None) then None
                         else Some ("pdfs/CA_" +:+ replace_spaces (cf_title form) +:+ "_"
                                    +:+ Text.str_int (random_randint env 100 999) +:+ ".pdf"));
                      ca_published_date := cf_published_date form |}))).
Proof.
  unfold render_manage_ca.
  destruct (render_current_affairs_form db form env) as [[d s]|s] eqn:Hform.
  - intros [= <- <-]. right.
    unfold render_current_affairs_form, insert_current_affair in Hform.
    destruct (cf_submitted form); simpl in Hform; [|done].
    destruct (Text.truthy (cf_title form)) eqn:Ht; simpl in Hform; [|done].
    destruct (Text.truthy (cf_description form)) eqn:Hd; simpl in Hform; [|done].
    destruct (_ && _) eqn:Hpdf in Hform; [done|].
    destruct (current_affairs db) as [t|]; [|done]. simpl in Hform.
    apply truthy_ne in Ht, Hd. exists t. split_and!; try done.
    + intros Hp. apply andb_false_iff in Hpdf as [Hp'|Hk].
      * by apply bool_decide_eq_false in Hp'.
      * by apply negb_false_iff in Hk.
    + injection Hform as <- _. do 2 f_equal. destruct (cf_pdf form); done.
  - unfold fetch_current_affairs.
    destruct (current_affairs db) as [t|] eqn:Hca; [|done]. simpl.
    destruct (negb (df_empty _)); [|intros [= <- <-]; by left]. simpl.
    destruct (negb _ && _); [|intros [= <- <-]; by left].
    destruct (filter _ _) as [|record rest]; intros [= <- <-]; by left.
Qed.

(** ** The conditions on the tables, statement by statement *)

Lemma ids_ok_empty {R : Type} (get_id : R -> N) : ids_ok get_id empty_table.
Proof. split; constructor. Qed.

Lemma ids_ok_append {R : Type} (get_id : R -> N) (t : table R) (mk : N -> R) :
  ids_ok get_id t -> get_id (mk (next_id t)) = next_id t -> ids_ok get_id (append_row t mk).
Proof.
  intros [Hs Hle] Hid. unfold ids_ok, append_row, next_id in *. simpl. split.
  - rewrite fmap_app. apply StronglySorted_app_2; [|done|repeat constructor].
    intros x1 x2 (r & -> & Hr)%list_elem_of_fmap Hx2. simpl in Hx2.
    apply list_elem_of_singleton in Hx2 as ->. rewrite Hid.
    rewrite Forall_forall in Hle. specialize (Hle r Hr). lia.
  - apply Forall_app. split.
    + eapply Forall_impl; [done|]. simpl. intros; lia.
    + apply Forall_singleton. lia.
Qed.

Lemma StronglySorted_fmap_filter {A B : Type} (R : relation B) (f : A -> B) (P : A -> Prop)
    `{!forall x, Decision (P x)} (l : list A) :
  StronglySorted R (f <$> l) -> StronglySorted R (f <$> filter P l).
Proof.
  induction l as [|x l IH]; simpl; [done|].
  rewrite StronglySorted_cons. intros [Hx Hl]. rewrite filter_cons.
  destruct (decide (P x)); [|auto]. simpl. apply StronglySorted_cons. split; [|auto].
  rewrite Forall_forall in Hx |- *. intros y (r & -> & Hr)%list_elem_of_fmap.
  apply list_elem_of_filter in Hr as [_ Hr]. apply Hx, list_elem_of_fmap. eauto.
Qed.

Lemma ids_ok_delete {R : Type} (get_id : R -> N) (i : N) (t : table R) :
  ids_ok get_id t -> ids_ok get_id (delete_where_id get_id i t).
Proof.
  intros [Hs Hle]. split; simpl.
  - by apply StronglySorted_fmap_filter.
  - by apply Forall_filter_keeps.
Qed.

Lemma fmap_update {R B : Type} (f : R -> B) (get_id : R -> N) (i : N) (set : R -> R)
    (l : list R) :
  (forall r, f (set r) = f r) ->
  f <$> ((fun r => if decide (get_id r = i) then set r else r) <$> l) = f <$> l.
Proof.
  intros Hf. rewrite <- list_fmap_compose. apply list_fmap_ext.
  intros _ r _. simpl. by destruct (decide _).
Qed.

Lemma ids_ok_update {R : Type} (get_id : R -> N) (i : N) (set : R -> R) (t : table R) :
  (forall r, get_id (set r) = get_id r) ->
  ids_ok get_id t -> ids_ok get_id (update_where_id get_id i set t).
Proof.
  intros Hset [Hs Hle]. split; simpl.
  - by rewrite fmap_update.
  - apply Forall_fmap. eapply Forall_impl; [done|]. simpl. intros r Hr.
    destruct (decide _); [by rewrite Hset|done].
Qed.

Lemma NoDup_fmap_snoc {A B : Type} (f : A -> B) (l : list A) (x : A) :
  NoDup (f <$> l) -> f x ∉ (f <$> l) -> NoDup (f <$> l ++ [x]).
Proof.
  intros Hl Hx. rewrite fmap_app. apply NoDup_app. split_and!; [done| |].
  - intros y Hy ->%list_elem_of_singleton. done.
  - apply NoDup_singleton.
Qed.

Lemma NoDup_fmap_filter {A B : Type} (f : A -> B) (P : A -> Prop)
    `{!forall x, Decision (P x)} (l : list A) :
  NoDup (f <$> l) -> NoDup (f <$> filter P l).
Proof.
  intros Hnd. eapply sublist_NoDup; [done|]. apply fmap_sublist, sublist_filter.
Qed.

Lemma StronglySorted_lt_NoDup (l : list N) : StronglySorted N.lt l -> NoDup l.
Proof.
  induction 1 as [|x l _ IH Hx]; constructor; [|done].
  intros Hin. rewrite Forall_forall in Hx. specialize (Hx x Hin). lia.
Qed.

Lemma refers_ok_more_ministries (t t' : table meta_row) ss mc sc :
  rows t ⊆ rows t' -> refers_ok (Some t) ss mc sc -> refers_ok (Some t') ss mc sc.
Proof.
  intros Hsub [(t0 & m & [= <-] & Hm & Hmc) Hs]. split; [|done].
  exists t', m. auto.
Qed.

Lemma refers_ok_more_states (t t' : table meta_row) ms mc sc :
  rows t ⊆ rows t' -> refers_ok ms (Some t) mc sc -> refers_ok ms (Some t') mc sc.
Proof.
  intros Hsub [Hm Hs]. split; [done|]. intros code Hc.
  destruct (Hs code Hc) as (t0 & s & [= <-] & Hin & Hcode). exists t', s. auto.
Qed.

Lemma tables_together_set db :
  is_Some (ministries db) \/ is_Some (states db) \/ is_Some (bills db)
  \/ is_Some (questions db) \/ is_Some (current_affairs db) ->
  tables_together db -> all_tables db.
Proof.
  intros H [->|?]; [|done]. simpl in H.
  destruct H as [[? ?]|[[? ?]|[[? ?]|[[? ?]|[? ?]]]]]; done.
Qed.

Lemma store_ok_set_ministries db t t' :
  store_ok db -> ministries db = Some t -> meta_ok t' -> rows t ⊆ rows t' ->
  store_ok (set_ministries db t').
Proof.
  intros (Htog & Hm & Hs & Hb & Hq & Hc) Ht Hok Hsub.
  destruct (tables_together_set db) as (? & ? & ? & ? & ?); [left; by eexists|done|].
  split_and!; simpl; try done.
  - right. simpl. split_and!; try done.
  - by intros ? [= <-].
  - intros tb Htb. destruct (Hb tb Htb) as (? & ? & Hall). split_and!; try done.
    eapply Forall_impl; [done|]. simpl. intros b [? Hr]. split; [done|].
    rewrite Ht in Hr. by eapply refers_ok_more_ministries.
  - intros tq Htq. destruct (Hq tq Htq) as (? & ? & Hall). split_and!; try done.
    eapply Forall_impl; [done|]. simpl. intros q [? Hr]. split; [done|].
    rewrite Ht in Hr. by eapply refers_ok_more_ministries.
Qed.

Lemma store_ok_set_states db t t' :
  store_ok db -> states db = Some t -> meta_ok t' -> rows t ⊆ rows t' ->
  store_ok (set_states db t').
Proof.
  intros (Htog & Hm & Hs & Hb & Hq & Hc) Ht Hok Hsub.
  destruct (tables_together_set db) as (? & ? & ? & ? & ?); [right; left; by eexists|done|].
  split_and!; simpl; try done.
  - right. simpl. split_and!; try done.
  - by intros ? [= <-].
  - intros tb Htb. destruct (Hb tb Htb) as (? & ? & Hall). split_and!; try done.
    eapply Forall_impl; [done|]. simpl. intros b [? Hr]. split; [done|].
    rewrite Ht in Hr. by eapply refers_ok_more_states.
  - intros tq Htq. destruct (Hq tq Htq) as (? & ? & Hall). split_and!; try done.
    eapply Forall_impl; [done|]. simpl. intros q [? Hr]. split; [done|].
    rewrite Ht in Hr. by eapply refers_ok_more_states.
Qed.

Lemma store_ok_set_bills db t t' :
  store_ok db -> bills db = Some t ->
  ids_ok bill_id t' -> NoDup (bill_code <$> rows t') ->
  Forall (fun b => bill_values_ok b
                   /\ refers_ok (ministries db) (states db)
                        (bill_ministry_code b) (bill_state_code b)) (rows t') ->
  store_ok (set_bills db t').
Proof.
  intros (Htog & Hm & Hs & Hb & Hq & Hc) Ht Hids Hnd Hall.
  destruct (tables_together_set db) as (? & ? & ? & ? & ?);
    [right; right; left; by eexists|done|].
  split_and!; simpl; try done.
  - right. simpl. split_and!; try done.
  - by intros ? [= <-].
Qed.

Lemma store_ok_set_questions db t t' :
  store_ok db -> questions db = Some t ->
  ids_ok question_id t' -> NoDup (question_code <$> rows t') ->
  Forall (fun q => question_values_ok q
                   /\ refers_ok (ministries db) (states db)
                        (question_ministry_code q) (question_state_code q)) (rows t') ->
  store_ok (set_questions db t').
Proof.
  intros (Htog & Hm & Hs & Hb & Hq & Hc) Ht Hids Hnd Hall.
  destruct (tables_together_set db) as (? & ? & ? & ? & ?);
    [right; right; right; left; by eexists|done|].
  split_and!; simpl; try done.
  - right. simpl. split_and!; try done.
  - by intros ? [= <-].
Qed.

Lemma store_ok_set_current_affairs db t t' :
  store_ok db -> current_affairs db = Some t ->
  ids_ok ca_id t' -> Forall current_affair_ok (rows t') ->
  store_ok (set_current_affairs db t').
Proof.
  intros (Htog & Hm & Hs & Hb & Hq & Hc) Ht Hids Hall.
  destruct (tables_together_set db) as (? & ? & ? & ? & ?);
    [right; right; right; right; by eexists|done|].
  split_and!; simpl; try done.
  - right. simpl. split_and!; try done.
  - by intros ? [= <-].
Qed.

Lemma initialize_database_present db : all_tables db -> initialize_database db = db.
Proof.
  destruct db as [m s b q c]. unfold all_tables. simpl.
  by intros ([? ->] & [? ->] & [? ->] & [? ->] & [? ->]).
Qed.

Lemma store_ok_new_file : store_ok new_file.
Proof. split_and!; simpl; try done. by left. Qed.

Lemma store_ok_initialize db : store_ok db -> store_ok (initialize_database db).
Proof.
  intros Hok. destruct (proj1 Hok) as [->|Hall].
  - split_and!; simpl.
    + right. simpl. split_and!; by eexists.
    + intros ? [= <-]. split_and!; first [apply ids_ok_empty|constructor].
    + intros ? [= <-]. split_and!; first [apply ids_ok_empty|constructor].
    + intros ? [= <-]. split_and!; first [apply ids_ok_empty|constructor].
    + intros ? [= <-]. split_and!; first [apply ids_ok_empty|constructor].
    + intros ? [= <-]. split_and!; first [apply ids_ok_empty|constructor].
  - by rewrite initialize_database_present.
Qed.

Lemma meta_ok_append (t : table meta_row) (code name : string) :
  meta_ok t -> code_ok code -> name <> "" ->
  code ∉ (meta_code <$> rows t) -> name ∉ (meta_name <$> rows t) ->
  meta_ok (append_row t (fun i => {| meta_id := i; meta_code := code; meta_name := name |})).
Proof.
  intros (Hids & Hc & Hn & Hall) Hcode Hname Hfc Hfn. split_and!.
  - by apply ids_ok_append.
  - simpl. by apply NoDup_fmap_snoc.
  - simpl. by apply NoDup_fmap_snoc.
  - simpl. apply Forall_app. split; [done|]. by apply Forall_singleton.
Qed.

Lemma store_ok_add_metadata db which label form db' said :
  add_metadata db which label form = inr (db', said) -> store_ok db -> store_ok db'.
Proof.
  intros [->|(t & _ & Hcode & Hname & Hfc & Hfn & H)]%add_metadata_inv Hok; [done|].
  destruct H as [(_ & Ht & ->)|(_ & Ht & ->)].
  - eapply store_ok_set_states; [exact Hok|exact Ht| |].
    + apply meta_ok_append; try done. by apply (proj1 (proj2 (proj2 Hok))).
    + simpl. set_solver.
  - eapply store_ok_set_ministries; [exact Hok|exact Ht| |].
    + apply meta_ok_append; try done. by apply (proj1 (proj2 Hok)).
    + simpl. set_solver.
Qed.

Lemma set_bills_inj db (t t' : table bill) : set_bills db t = set_bills db t' -> t = t'.
Proof. by intros [= ->]. Qed.

Lemma set_questions_inj db (t t' : table question) :
  set_questions db t = set_questions db t' -> t = t'.
Proof. by intros [= ->]. Qed.

Lemma store_ok_bill_form db body form env db' said :
  body ∈ legislative_bodies ->
  render_bill_form db body form env = inr (db', said) -> store_ok db -> store_ok db'.
Proof.
  intros Hbody Hrun Hok.
  destruct (render_bill_form_values _ _ _ _ _ _ Hrun)
    as [->|(t & b & Ht & Hdb & _ & _ & Hfresh & _ & Hst & Hap & Hres & Hpdf & _)]; [done|].
  destruct (render_bill_form_cases _ _ _ _ _ _ Hrun)
    as [->|(t0 & ms & mc & m & sc & Ht0 & Hms & Hm & Hmc & Hsc & b0 & Hdb0 & Hid & Hb & Hmcode
            & Hstate & _)].
  { rewrite Hdb. eapply store_ok_set_bills; try done.
    all: exfalso; apply (f_equal bills) in Hdb; simpl in Hdb; rewrite Ht in Hdb;
      injection Hdb as Hdb; apply (f_equal rows) in Hdb; simpl in Hdb;
      by apply not_appended in Hdb. }
  rewrite Ht in Ht0. injection Ht0 as <-. rewrite Hdb in Hdb0.
  apply set_bills_inj in Hdb0. injection Hdb0 as Hrows. apply app_inj_tail in Hrows as [_ <-].
  destruct (proj1 (proj2 (proj2 (proj2 Hok))) t Ht) as (Hids & Hnd & Hall).
  rewrite Hdb. eapply store_ok_set_bills; try done.
  - apply (ids_ok_append bill_id t (fun _ => b)); done.
  - simpl. by apply NoDup_fmap_snoc.
  - simpl. apply Forall_app. split; [done|]. apply Forall_singleton. split.
    + unfold bill_values_ok. rewrite Hb. split_and!; try done.
      rewrite Hpdf. destruct (bool_decide _); auto.
    + rewrite Hmcode, Hstate, Hms. split.
      * exists ms, m. by rewrite Hmc.
      * intros code ->. destruct (String.eqb body "State Assembly"); [|done].
        destruct Hsc as (ss & s & Hss & Hs & [= ->]). by exists ss, s.
Qed.

Lemma store_ok_question_form db body form env db' said :
  body ∈ legislative_bodies ->
  render_question_form db body form env = inr (db', said) -> store_ok db -> store_ok db'.
Proof.
  intros Hbody Hrun Hok.
  destruct (render_question_form_values _ _ _ _ _ _ Hrun)
    as [->|(t & q & Ht & Hdb & _ & _ & Hfresh & _ & Hty & Hst & Hpdf & _)]; [done|].
  destruct (render_question_form_cases _ _ _ _ _ _ Hrun)
    as [->|(t0 & ms & mc & m & sc & Ht0 & Hms & Hm & Hmc & Hsc & q0 & Hdb0 & Hid & Hb & Hmcode
            & Hstate & _)].
  { rewrite Hdb. eapply store_ok_set_questions; try done.
    all: exfalso; apply (f_equal questions) in Hdb; simpl in Hdb; rewrite Ht in Hdb;
      injection Hdb as Hdb; apply (f_equal rows) in Hdb; simpl in Hdb;
      by apply not_appended in Hdb. }
  rewrite Ht in Ht0. injection Ht0 as <-. rewrite Hdb in Hdb0.
  apply set_questions_inj in Hdb0. injection Hdb0 as Hrows.
  apply app_inj_tail in Hrows as [_ <-].
  destruct (proj1 (proj2 (proj2 (proj2 (proj2 Hok)))) t Ht) as (Hids & Hnd & Hall).
  rewrite Hdb. eapply store_ok_set_questions; try done.
  - apply (ids_ok_append question_id t (fun _ => q)); done.
  - simpl. by apply NoDup_fmap_snoc.
  - simpl. apply Forall_app. split; [done|]. apply Forall_singleton. split.
    + unfold question_values_ok. rewrite Hb. split_and!; try done.
      rewrite Hpdf. destruct (bool_decide _); auto.
    + rewrite Hmcode, Hstate, Hms. split.
      * exists ms, m. by rewrite Hmc.
      * intros code ->. destruct (String.eqb body "State Assembly"); [|done].
        destruct Hsc as (ss & s & Hss & Hs & [= ->]). by exists ss, s.
Qed.

(** The update/delete tab of the bills: nothing, or a DELETE or an UPDATE
    on the id of a listed bill that has the selected code. *)
Lemma manage_bills_inv db body form db' said :
  manage_bills db body form = inr (db', said) ->
  db' = db
  \/ exists t v,
       bills db = Some t
       /\ v ∈ df_rows (fetch_bills db body "").1
       /\ bill_code (bv_bill v)
          = selectbox (select_code :: (col_code <$> (cols_of_bill <$> df_rows (fetch_bills db body "").1)))
              (ud_selected_code form)
       /\ bill_code (bv_bill v) <> select_code
       /\ (ud_delete_clicked form = true
           /\ db' = set_bills db (delete_where_id bill_id (bill_id (bv_bill v)) t)
           \/ exists s a,
                ud_delete_clicked form = false /\ ud_update_submitted form = true
                /\ update_choice true (cols_of_bill v) form = inr (s, a)
                /\ db' = set_bills db (update_where_id bill_id (bill_id (bv_bill v))
                                         (set_bill_status s a) t)).
Proof.
  unfold manage_bills. destruct (fetch_bills db body "") as [df s0] eqn:Hf. simpl.
  destruct (negb (df_empty df)); [|intros [= <- <-]; by left].
  destruct (render_update_delete_ui _ _ _ _ _) as [|[d s']] eqn:H; [done|].
  simpl. intros [= <- <-].
  apply render_update_delete_ui_inv in H
    as [->|(record & rest & i & Hfil & Hne & Hid & Hact)]; [by left|].
  assert (record ∈ record :: rest) as Hr by left. rewrite <- Hfil in Hr.
  apply list_elem_of_filter in Hr as [Hcode Hr].
  apply list_elem_of_fmap in Hr as (v & -> & Hv). simpl in *. injection Hid as <-.
  destruct Hact as [[Hdel Hex]|(s & a & Hdel & Hch & Hsub & Hup)].
  - apply exec_delete_bills in Hex as (t & Ht & ->). right. exists t, v.
    split_and!; try done. by left.
  - unfold update_bill_status in Hup. destruct (bills db) as [t|] eqn:Ht; [|done].
    simpl in Hup. injection Hup as <-. right. exists t, v. split_and!; try done.
    right. by exists s, a.
Qed.

Lemma manage_questions_inv db body form db' said :
  manage_questions db body form = inr (db', said) ->
  db' = db
  \/ exists t v,
       questions db = Some t
       /\ v ∈ df_rows (fetch_questions db body "").1
       /\ question_code (qv_question v)
          = selectbox (select_code
                       :: (col_code <$> (cols_of_question <$> df_rows (fetch_questions db body "").1)))
              (ud_selected_code form)
       /\ question_code (qv_question v) <> select_code
       /\ (ud_delete_clicked form = true
           /\ db' = set_questions db
                      (delete_where_id question_id (question_id (qv_question v)) t)
           \/ exists s a,
                ud_delete_clicked form = false /\ ud_update_submitted form = true
                /\ update_choice false (cols_of_question v) form = inr (s, a)
                /\ db' = set_questions db
                           (update_where_id question_id (question_id (qv_question v))
                              (set_question_status s) t)).
Proof.
  unfold manage_questions. destruct (fetch_questions db body "") as [df s0] eqn:Hf. simpl.
  destruct (negb (df_empty df)); [|intros [= <- <-]; by left].
  destruct (render_update_delete_ui _ _ _ _ _) as [|[d s']] eqn:H; [done|].
  simpl. intros [= <- <-].
  apply render_update_delete_ui_inv in H
    as [->|(record & rest & i & Hfil & Hne & Hid & Hact)]; [by left|].
  assert (record ∈ record :: rest) as Hr by left. rewrite <- Hfil in Hr.
  apply list_elem_of_filter in Hr as [Hcode Hr].
  apply list_elem_of_fmap in Hr as (v & -> & Hv). simpl in *. injection Hid as <-.
  destruct Hact as [[Hdel Hex]|(s & a & Hdel & Hch & Hsub & Hup)].
  - apply exec_delete_questions in Hex as (t & Ht & ->). right. exists t, v.
    split_and!; try done. by left.
  - unfold update_question_status in Hup. destruct (questions db) as [t|] eqn:Ht; [|done].
    simpl in Hup. injection Hup as <-. right. exists t, v. split_and!; try done.
    right. by exists s, a.
Qed.

Lemma bill_values_ok_set_status s r b :
  s ∈ ["Pending"; "Passed"; "Not Passed"] -> r ∈ ["Pending"; "Yes"; "No"] ->
  bill_values_ok b -> bill_values_ok (set_bill_status s (Some r) b).
Proof.
  intros Hs Hr (? & ? & ? & ? & ?). unfold bill_values_ok. simpl. split_and!; try done.
  by exists r.
Qed.

Lemma question_values_ok_set_status s q :
  s ∈ ["Answered"; "Not Answered"] ->
  question_values_ok q -> question_values_ok (set_question_status s q).
Proof. intros Hs (? & ? & ? & ?). unfold question_values_ok. simpl. by split_and!. Qed.

Lemma store_ok_manage_bills db body form db' said :
  manage_bills db body form = inr (db', said) -> store_ok db -> store_ok db'.
Proof.
  intros [->|(t & v & Ht & Hv & _ & _ & Hact)]%manage_bills_inv Hok; [done|].
  destruct (proj1 (proj2 (proj2 (proj2 Hok))) t Ht) as (Hids & Hnd & Hall).
  destruct Hact as [[_ ->]|(s & a & _ & _ & Hch & ->)].
  - eapply store_ok_set_bills; [exact Hok|exact Ht| | |]; simpl.
    + by apply ids_ok_delete.
    + by apply NoDup_fmap_filter.
    + by apply Forall_filter_keeps.
  - apply elem_of_fetch_bills in Hv as (t0 & Ht0 & Hb & _).
    rewrite Ht in Ht0. injection Ht0 as <-.
    rewrite Forall_forall in Hall. destruct (Hall _ Hb) as [Hvals _].
    destruct (update_choice_bill _ _ _ _ Hvals Hch) as (Hs & r & -> & Hr).
    eapply store_ok_set_bills; [exact Hok|exact Ht| | |]; simpl.
    + by apply ids_ok_update.
    + by rewrite fmap_update.
    + apply Forall_fmap, Forall_forall. intros b' Hb'. simpl.
      destruct (Hall _ Hb') as [Hv' Hr']. destruct (decide _); [|done].
      split; [by apply bill_values_ok_set_status|done].
Qed.

Lemma store_ok_manage_questions db body form db' said :
  manage_questions db body form = inr (db', said) -> store_ok db -> store_ok db'.
Proof.
  intros [->|(t & v & Ht & Hv & _ & _ & Hact)]%manage_questions_inv Hok; [done|].
  destruct (proj1 (proj2 (proj2 (proj2 (proj2 Hok)))) t Ht) as (Hids & Hnd & Hall).
  destruct Hact as [[_ ->]|(s & a & _ & _ & Hch & ->)].
  - eapply store_ok_set_questions; [exact Hok|exact Ht| | |]; simpl.
    + by apply ids_ok_delete.
    + by apply NoDup_fmap_filter.
    + by apply Forall_filter_keeps.
  - destruct (update_choice_question _ _ _ _ Hch) as (Hs & ->).
    rewrite Forall_forall in Hall.
    eapply store_ok_set_questions; [exact Hok|exact Ht| | |]; simpl.
    + by apply ids_ok_update.
    + by rewrite fmap_update.
    + apply Forall_fmap, Forall_forall. intros q' Hq'. simpl.
      destruct (Hall _ Hq') as [Hv' Hr']. destruct (decide _); [|done].
      split; [by apply question_values_ok_set_status|done].
Qed.

Lemma store_ok_manage_ca db form env db' said :
  render_manage_ca db form env = inr (db', said) -> store_ok db -> store_ok db'.
Proof.
  intros [->|(t & Ht & _ & Htitle & Hdesc & _ & ->)]%render_manage_ca_inv Hok; [done|].
  destruct (proj2 (proj2 (proj2 (proj2 (proj2 Hok)))) t Ht) as (Hids & Hall).
  eapply store_ok_set_current_affairs; [exact Hok|exact Ht| |].
  - by apply ids_ok_append.
  - simpl. apply Forall_app. split; [done|]. apply Forall_singleton.
    unfold current_affair_ok. simpl. split_and!; try done.
    destruct (bool_decide _); [by left|]. right. exists (random_randint env 100 999).
    split; [|done]. apply elem_of_randint, random_randint_range. lia.
Qed.

Lemma selectbox_legislative_bodies (body : nat) :
  selectbox legislative_bodies body ∈ legislative_bodies.
Proof. by apply selectbox_options. Qed.

Lemma store_ok_after {B : Type} db (r : result (database * B)) :
  (forall db' said, r = inr (db', said) -> store_ok db') -> store_ok db ->
  store_ok (after db r).
Proof. intros H Hok. destruct r as [|[db' said]]; simpl; eauto. Qed.

Lemma store_ok_step db db' : step db db' -> store_ok db -> store_ok db'.
Proof.
  intros Hstep Hok. destruct Hstep.
  - by apply store_ok_initialize.
  - apply store_ok_after; [|done]. intros ???. by eapply store_ok_add_metadata.
  - apply store_ok_after; [|done]. intros ???. by eapply store_ok_add_metadata.
  - apply store_ok_after; [|done]. intros ???.
    eapply store_ok_bill_form; [apply selectbox_legislative_bodies|done|done].
  - apply store_ok_after; [|done]. intros ???.
    eapply store_ok_question_form; [apply selectbox_legislative_bodies|done|done].
  - apply store_ok_after; [|done]. intros ???. by eapply store_ok_manage_bills.
  - apply store_ok_after; [|done]. intros ???. by eapply store_ok_manage_questions.
  - apply store_ok_after; [|done]. intros ???. by eapply store_ok_manage_ca.
Qed.

(** Every database the administrator can reach keeps the conditions. *)
Lemma store_ok_reachable db : reachable db -> store_ok db.
Proof.
  unfold reachable. revert db. apply rtc_ind_r.
  - apply store_ok_new_file.
  - intros y z _ Hstep IH. by eapply store_ok_step.
Qed.

(** ** The setup script, and the table each page writes *)

Lemma all_tables_initialize db : all_tables (initialize_database db).
Proof.
  unfold all_tables, initialize_database, create_if_absent. simpl.
  split_and!; case_match; by eexists.
Qed.

Lemma writes_only_refl (t : table_name) db : writes_only t db db.
Proof. intros other _. by destruct other. Qed.

Lemma writes_only_set_ministries db t : writes_only Ministries db (set_ministries db t).
Proof. intros other Hne. by destruct other. Qed.

Lemma writes_only_set_states db t : writes_only States db (set_states db t).
Proof. intros other Hne. by destruct other. Qed.

Lemma writes_only_set_bills db t : writes_only Bills db (set_bills db t).
Proof. intros other Hne. by destruct other. Qed.

Lemma writes_only_set_questions db t : writes_only Questions db (set_questions db t).
Proof. intros other Hne. by destruct other. Qed.

Lemma writes_only_set_current_affairs db t :
  writes_only CurrentAffairs db (set_current_affairs db t).
Proof. intros other Hne. by destruct other. Qed.

Lemma rewrites_writes_only which db db' : rewrites which db db' -> writes_only which db db'.
Proof.
  destruct 1; auto using writes_only_refl, writes_only_set_ministries, writes_only_set_states,
    writes_only_set_bills, writes_only_set_questions, writes_only_set_current_affairs.
Qed.

Lemma rewrites_all_tables which db db' : rewrites which db db' -> all_tables db -> all_tables db'.
Proof.
  destruct 1; [done|..]; intros (? & ? & ? & ? & ?); unfold all_tables; simpl;
    split_and!; try done; by eexists.
Qed.

Lemma rewrites_add_ministry db form : rewrites Ministries db (after db (add_ministry db form)).
Proof.
  unfold add_ministry. destruct (add_metadata _ _ _ _) as [|[db' said]] eqn:E; simpl.
  { constructor. }
  apply add_metadata_inv in E as [->|(t & _ & _ & _ & _ & _ & H)]; [constructor|].
  destruct H as [([=] & _)|(_ & Ht & ->)]. by econstructor.
Qed.

Lemma rewrites_add_state db form : rewrites States db (after db (add_state db form)).
Proof.
  unfold add_state. destruct (add_metadata _ _ _ _) as [|[db' said]] eqn:E; simpl.
  { constructor. }
  apply add_metadata_inv in E as [->|(t & _ & _ & _ & _ & _ & H)]; [constructor|].
  destruct H as [(_ & Ht & ->)|(? & _)]; [|done]. by econstructor.
Qed.

Lemma rewrites_bill_form db body form env :
  rewrites Bills db (after db (render_bill_form db body form env)).
Proof.
  destruct (render_bill_form _ _ _ _) as [|[db' said]] eqn:E; simpl; [constructor|].
  apply render_bill_form_values in E as [->|(t & b & Ht & -> & _)]; [constructor|].
  by econstructor.
Qed.

Lemma rewrites_question_form db body form env :
  rewrites Questions db (after db (render_question_form db body form env)).
Proof.
  destruct (render_question_form _ _ _ _) as [|[db' said]] eqn:E; simpl; [constructor|].
  apply render_question_form_values in E as [->|(t & b & Ht & -> & _)]; [constructor|].
  by econstructor.
Qed.

Lemma rewrites_manage_bills db body form :
  rewrites Bills db (after db (manage_bills db body form)).
Proof.
  destruct (manage_bills _ _ _) as [|[db' said]] eqn:E; simpl; [constructor|].
  apply manage_bills_inv in E as [->|(t & v & Ht & _ & _ & _ & H)]; [constructor|].
  destruct H as [[_ ->]|(s & a & _ & _ & _ & ->)]; by econstructor.
Qed.

Lemma rewrites_manage_questions db body form :
  rewrites Questions db (after db (manage_questions db body form)).
Proof.
  destruct (manage_questions _ _ _) as [|[db' said]] eqn:E; simpl; [constructor|].
  apply manage_questions_inv in E as [->|(t & v & Ht & _ & _ & _ & H)]; [constructor|].
  destruct H as [[_ ->]|(s & a & _ & _ & _ & ->)]; by econstructor.
Qed.

Lemma rewrites_manage_ca db form env :
  rewrites CurrentAffairs db (after db (render_manage_ca db form env)).
Proof.
  destruct (render_manage_ca _ _ _) as [|[db' said]] eqn:E; simpl; [constructor|].
  apply render_manage_ca_inv in E as [->|(t & Ht & _ & _ & _ & _ & ->)];
    [constructor|by econstructor].
Qed.

Lemma step_all_tables db db' : step db db' -> all_tables db -> all_tables db'.
Proof.
  destruct 1; intros Hall.
  - apply all_tables_initialize.
  - eapply rewrites_all_tables; [apply rewrites_add_ministry|done].
  - eapply rewrites_all_tables; [apply rewrites_add_state|done].
  - eapply rewrites_all_tables; [apply rewrites_bill_form|done].
  - eapply rewrites_all_tables; [apply rewrites_question_form|done].
  - eapply rewrites_all_tables; [apply rewrites_manage_bills|done].
  - eapply rewrites_all_tables; [apply rewrites_manage_questions|done].
  - eapply rewrites_all_tables; [apply rewrites_manage_ca|done].
Qed.

(** X1.  The setup script only creates what is missing, and no admin page
    drops a table: after the script has run once, whatever the file held
    before, every database the admin pages reach from there is left
    exactly as it is by another run of the script, rows and id counters
    included, and passes the check of [run.py] that [bills] can be
    read. *)
Theorem rerunning_the_setup_script_changes_nothing (db0 db : database) :
  rtc step (initialize_database db0) db ->
  initialize_database db = db /\ check_database_exists db = true.
Proof.
  intros Hrun.
  assert (all_tables db) as Hall.
  { revert db Hrun. apply rtc_ind_r; [apply all_tables_initialize|].
    intros y z _ Hstep IH. by eapply step_all_tables. }
  split; [by apply initialize_database_present|].
  destruct Hall as (_ & _ & [t Ht] & _). unfold check_database_exists. by rewrite Ht.
Qed.

(** X2.  Each admin page writes its own table and no other: the two
    metadata forms write [ministries] and [states], the bill form and the
    update/delete tab of the bills write [bills], the question form and
    the update/delete tab of the questions write [questions], and the
    current affairs page writes [current_affairs]; after a run, each of
    the other four tables is what it was.  So no delete cascades and no
    form touches the metadata it reads. *)
Theorem each_admin_page_writes_its_own_table (db : database) :
  (forall form, writes_only Ministries db (after db (add_ministry db form)))
  /\ (forall form, writes_only States db (after db (add_state db form)))
  /\ (forall body form env,
        writes_only Bills db (after db (render_bill_form db body form env)))
  /\ (forall body form env,
        writes_only Questions db (after db (render_question_form db body form env)))
  /\ (forall body form, writes_only Bills db (after db (manage_bills db body form)))
  /\ (forall body form, writes_only Questions db (after db (manage_questions db body form)))
  /\ (forall form env,
        writes_only CurrentAffairs db (after db (render_manage_ca db form env))).
Proof.
  split_and!; intros; apply rewrites_writes_only;
    auto using rewrites_add_ministry, rewrites_add_state, rewrites_bill_form,
      rewrites_question_form, rewrites_manage_bills, rewrites_manage_questions,
      rewrites_manage_ca.
Qed.

(** ** The metadata *)

Lemma dict_keys_set_fresh (d : Dict.t) (k v : string) :
  k ∉ Dict.keys d -> Dict.keys (Dict.set d k v) = Dict.keys d ++ [k].
Proof.
  unfold Dict.keys. induction d as [|[k0 v0] d IH]; simpl; [done|].
  intros [Hne Hk]%not_elem_of_cons.
  destruct (String.eqb_spec k0 k) as [->|_]; [done|]. simpl. f_equal. by apply IH.
Qed.

Lemma dict_of_rows_keys (l : list meta_row) (d : Dict.t) :
  NoDup (Dict.keys d ++ (meta_name <$> l)) ->
  Dict.keys (fold_left (fun d row => Dict.set d (meta_name row) (meta_code row)) l d)
  = Dict.keys d ++ (meta_name <$> l).
Proof.
  revert d. induction l as [|r l IH]; intros d Hnd; simpl.
  - by rewrite List.app_nil_r.
  - assert (meta_name r ∉ Dict.keys d) as Hfresh.
    { apply NoDup_app in Hnd as (_ & Hdis & _). intros Hin. apply (Hdis _ Hin). left. }
    rewrite IH; rewrite dict_keys_set_fresh by done.
    + by rewrite <- app_assoc.
    + by rewrite <- app_assoc.
Qed.

Lemma dict_of_rows_get_other (l : list meta_row) (d : Dict.t) (k : string) :
  k ∉ (meta_name <$> l) ->
  Dict.get (fold_left (fun d row => Dict.set d (meta_name row) (meta_code row)) l d) k
  = Dict.get d k.
Proof.
  revert d. induction l as [|r l IH]; intros d; simpl; [done|].
  intros [Hne Hk]%not_elem_of_cons. rewrite IH by done. rewrite dict_get_set.
  destruct (String.eqb_spec (meta_name r) k); [congruence|done].
Qed.

(** A name all of whose rows have one code is a key for that code. *)
Lemma dict_of_rows_get_row (l : list meta_row) (d : Dict.t) (r : meta_row) :
  r ∈ l -> (forall r', r' ∈ l -> meta_name r' = meta_name r -> meta_code r' = meta_code r) ->
  Dict.get (fold_left (fun d row => Dict.set d (meta_name row) (meta_code row)) l d)
    (meta_name r) = Some (meta_code r).
Proof.
  revert d r. induction l as [|r0 l IH]; intros d r Hr Hsame; simpl.
  - by apply elem_of_nil in Hr.
  - destruct (decide (meta_name r ∈ meta_name <$> l)) as [Hn|Hn].
    + apply list_elem_of_fmap in Hn as (r' & Hname & Hr').
      rewrite Hname, <- (Hsame r'); [|by right|done].
      apply IH; [done|]. intros r'' Hr'' E. rewrite (Hsame r''); [|by right|congruence].
      symmetry. apply Hsame; [by right|done].
    + apply elem_of_cons in Hr as [->|Hr].
      * rewrite dict_of_rows_get_other by done. rewrite dict_get_set.
        by rewrite String.eqb_refl.
      * destruct Hn. apply list_elem_of_fmap. eauto.
Qed.

Lemma NoDup_fmap_same {A B : Type} (f : A -> B) (l : list A) (x y : A) :
  NoDup (f <$> l) -> x ∈ l -> y ∈ l -> f x = f y -> x = y.
Proof.
  induction l as [|z l IH]; simpl; [by intros _ ?%elem_of_nil|].
  intros [Hz Hnd]%NoDup_cons [->|Hx]%elem_of_cons [->|Hy]%elem_of_cons E; auto.
  - destruct Hz. rewrite E. apply list_elem_of_fmap. eauto.
  - destruct Hz. rewrite <- E. apply list_elem_of_fmap. eauto.
Qed.

Lemma StronglySorted_le_lt (l : list string) :
  StronglySorted String.le l -> NoDup l -> StronglySorted str_lt l.
Proof.
  induction 1 as [|x l Hs IH Hx]; [constructor|].
  intros [Hx' Hnd]%NoDup_cons. constructor; [auto|].
  rewrite Forall_forall in Hx |- *. intros y Hy.
  apply str_le_neq_lt; [auto|]. intros ->. done.
Qed.

Lemma fetch_metadata_table db (which : string) (t : table meta_row) :
  which = "ministries" /\ ministries db = Some t \/ which = "states" /\ states db = Some t ->
  fetch_metadata db which
  = inr (fold_left (fun d row => Dict.set d (meta_name row) (meta_code row))
           (merge_sort (asc meta_name) (rows t)) []).
Proof. intros [[-> Ht]|[-> Ht]]; unfold fetch_metadata; simpl; by rewrite Ht. Qed.

#[local] Instance asc_trans {A : Type} (key : A -> string) : Transitive (asc key).
Proof. intros x y z. unfold asc. apply transitivity. Qed.

#[local] Instance asc_total {A : Type} (key : A -> string) : Total (asc key).
Proof. intros x y. unfold asc. apply total, _. Qed.

#[local] Instance desc_trans {A : Type} (key : A -> string) : Transitive (desc key).
Proof. intros x y z. unfold desc. intros ? ?. by etrans. Qed.

#[local] Instance desc_total {A : Type} (key : A -> string) : Total (desc key).
Proof. intros x y. unfold desc. apply total, _. Qed.

(** X3.  The metadata a bill or question form reads: when the names of a
    metadata table are pairwise distinct, as its UNIQUE constraint makes
    them, [fetch_metadata] returns a dict that maps a name to a code
    exactly when the table has a row of that name and code, and whose
    keys are the names of the table in strictly increasing order. *)
Theorem fetch_metadata_maps_each_name_to_its_code (db : database) (which : string)
    (t : table meta_row) :
  which = "ministries" /\ ministries db = Some t \/ which = "states" /\ states db = Some t ->
  NoDup (meta_name <$> rows t) ->
  exists d,
    fetch_metadata db which = inr d
    /\ (forall name code,
          Dict.get d name = Some code
          <-> exists r, r ∈ rows t /\ meta_name r = name /\ meta_code r = code)
    /\ Dict.keys d ≡ₚ meta_name <$> rows t
    /\ StronglySorted str_lt (Dict.keys d).
Proof.
  intros Hwhich Hnd. eexists. split; [by apply fetch_metadata_table|].
  assert (NoDup (meta_name <$> merge_sort (asc meta_name) (rows t))) as Hnd'.
  { by rewrite merge_sort_Permutation. }
  split_and!.
  - intros name code. split.
    + intros [?|(r & Hr & ? & ?)]%dict_of_rows_get; [done|].
      rewrite merge_sort_Permutation in Hr. eauto.
    + intros (r & Hr & <- & <-). apply dict_of_rows_get_row.
      * by rewrite merge_sort_Permutation.
      * intros r' Hr' E. f_equal. eapply NoDup_fmap_same; [exact Hnd'|done| |done].
        by rewrite merge_sort_Permutation.
  - rewrite dict_of_rows_keys by done. simpl. by rewrite merge_sort_Permutation.
  - rewrite dict_of_rows_keys by done. simpl. apply StronglySorted_le_lt; [|done].
    apply (StronglySorted_fmap meta_name (asc meta_name) String.le); [done|].
    apply StronglySorted_merge_sort; apply _.
Qed.

Lemma upper_char_idem (c : ascii) : Text.upper_char (Text.upper_char c) = Text.upper_char c.
Proof. destruct c as [[] [] [] [] [] [] [] []]; reflexivity. Qed.

Lemma upper_idem (s : string) : Text.upper (Text.upper s) = Text.upper s.
Proof. induction s as [|c s IH]; simpl; [done|]. by rewrite upper_char_idem, IH. Qed.

Lemma length_upper (s : string) : String.length (Text.upper s) = String.length s.
Proof. induction s as [|c s IH]; simpl; [done|]. by rewrite IH. Qed.

(** In ASCII text every byte is a character. *)
Lemma len_ascii (s : string) : Text.is_ascii s = true -> Text.len s = String.length s.
Proof.
  induction s as [|c s IH]; simpl; [done|]. intros [Hc Hs]%andb_true_iff.
  unfold Text.is_continuation. apply Nat.ltb_lt in Hc.
  destruct (Nat.leb_spec 128 (nat_of_ascii c)); [lia|]. simpl. by rewrite IH.
Qed.

(** X4.  In every database the administrator can reach, the codes of the
    ministries, and of the states, are pairwise distinct, and each is
    [typed.upper()] of a text that is not empty and has at most two
    characters; the names are pairwise distinct and not empty.  The form
    cuts the code at two characters, refuses an empty code or name and
    stores the code upper-cased, and the UNIQUE constraints refuse a
    second row of a code or a name.  For a text of ASCII characters the
    upper-cased code has as many characters, one or two, and none of them
    is a lower-case letter; [str.upper] may make other texts longer. *)
Theorem metadata_codes_are_upper_cased_and_unique (db : database) (t : table meta_row) :
  reachable db -> ministries db = Some t \/ states db = Some t ->
  NoDup (meta_code <$> rows t)
  /\ NoDup (meta_name <$> rows t)
  /\ Forall (fun r => (exists typed, meta_code r = str_upper typed /\ typed <> ""
                                     /\ Text.len typed <= 2)
                      /\ meta_name r <> "") (rows t)
  /\ (forall typed,
        Text.is_ascii typed = true -> typed <> "" -> Text.len typed <= 2 ->
        1 <= String.length (str_upper typed) <= 2
        /\ Text.upper (str_upper typed) = str_upper typed).
Proof.
  intros Hreach Ht. apply store_ok_reachable in Hreach as (_ & Hm & Hs & _).
  assert (meta_ok t) as (_ & Hc & Hn & Hall) by (destruct Ht; auto).
  split_and!; [done..|].
  intros typed Ha Hne Hlen. rewrite str_upper_ascii by done.
  rewrite length_upper, upper_idem, <- len_ascii by done. split; [|done].
  split; [|done]. rewrite len_ascii by done. destruct typed; [done|simpl; lia].
Qed.

(** X5.  A submitted metadata form whose code, cut at two characters and
    upper-cased by [str.upper], is that of a row of the table, or whose
    name is that of a row, writes nothing and shows "Error: ... Code or
    Name already exists.". *)
Theorem duplicate_metadata_is_rejected (db : database) (which : table_name) (label : string)
    (form : metadata_form) (t : table meta_row) :
  metadata_table which db = Some t ->
  mf_submitted form = true ->
  text_input_max 2 (mf_code form) <> "" -> mf_name form <> "" ->
  (exists r, r ∈ rows t
             /\ (meta_code r = str_upper (text_input_max 2 (mf_code form))
                 \/ meta_name r = mf_name form)) ->
  add_metadata db which label form
  = inr (db, [st_error ("Error: " +:+ label +:+ " Code or Name already exists.")]).
Proof.
  intros Ht Hsub Hc%truthy_ne Hn%truthy_ne (r & Hr & Hdup).
  unfold add_metadata. rewrite Hsub, Hc, Hn. simpl.
  assert (forall name,
            exists e, insert_meta name (Some t) (str_upper (text_input_max 2 (mf_code form)))
                        (mf_name form) = inl (IntegrityError e)) as Hins.
  { intros name. unfold insert_meta. simpl.
    destruct (existsb _ (rows t)) eqn:Ec; [by eexists|].
    destruct (existsb _ (rows t)) eqn:En in |- *; [by eexists|].
    apply existsb_eqb_false in Ec, En. destruct Hdup as [E|E].
    - destruct Ec. rewrite <- E. apply list_elem_of_fmap. eauto.
    - destruct En. rewrite <- E. apply list_elem_of_fmap. eauto. }
  unfold metadata_table in Ht.
  destruct which; rewrite Ht;
    first [destruct (Hins "ministries") as [e ->]|destruct (Hins "states") as [e ->]];
    reflexivity.
Qed.

Lemma dict_get_Some_keys (d : Dict.t) (k v : string) : Dict.get d k = Some v -> k ∈ Dict.keys d.
Proof.
  unfold Dict.keys. induction d as [|[k0 v0] d IH]; simpl; [done|].
  destruct (String.eqb_spec k0 k) as [->|_]; [left|right; auto].
Qed.

(** X6.  Insert, then look up: when a run of a metadata form has changed
    the database, the next [fetch_metadata] of that table has the name
    typed among its keys and gives for it the code typed, cut at two
    characters and upper-cased by [str.upper]; so the bill and question
    forms offer the new ministry or state and build their codes from that
    code. *)
Theorem added_metadata_is_found_by_name (db db' : database) (which : table_name)
    (label : string) (form : metadata_form) (said : list banner) :
  add_metadata db which label form = inr (db', said) -> db' <> db ->
  exists d,
    fetch_metadata db' (match which with States => "states" | _ => "ministries" end) = inr d
    /\ Dict.get d (mf_name form) = Some (str_upper (text_input_max 2 (mf_code form)))
    /\ mf_name form ∈ Dict.keys d.
Proof.
  intros [->|(t & _ & _ & _ & _ & Hfresh & H)]%add_metadata_inv Hne; [done|].
  set (row := {| meta_id := next_id t;
                 meta_code := str_upper (text_input_max 2 (mf_code form));
                 meta_name := mf_name form |}).
  assert (forall l, l ≡ₚ rows t ++ [row] ->
            Dict.get (fold_left (fun d r => Dict.set d (meta_name r) (meta_code r)) l [])
              (mf_name form) = Some (str_upper (text_input_max 2 (mf_code form)))) as Hget.
  { intros l Hl. apply (dict_of_rows_get_row l [] row).
    - rewrite Hl. apply elem_of_app. right. left.
    - intros r'. rewrite Hl. intros [Hr'|Hr']%elem_of_app E.
      2:{ by apply list_elem_of_singleton in Hr' as ->. }
      destruct Hfresh. simpl in E. rewrite <- E. apply list_elem_of_fmap. eauto. }
  eexists. split_and!.
  - apply fetch_metadata_table.
    destruct H as [(-> & Ht & ->)|(Hw & Ht & ->)]; [right|left]; simpl.
    + split; reflexivity.
    + split; [by destruct which|reflexivity].
  - apply Hget. apply merge_sort_Permutation.
  - eapply dict_get_Some_keys. apply Hget. apply merge_sort_Permutation.
Qed.

(** ** The state code rule *)

(** The row a run of the bill form stores has the code of the ministry
    picked in the form and, for State Assembly, of the state picked. *)
Lemma render_bill_form_selected db body form env db' said t t' b :
  render_bill_form db body form env = inr (db', said) ->
  bills db = Some t -> bills db' = Some t' -> rows t' = rows t ++ [b] ->
  (exists ms m, ministries db = Some ms /\ m ∈ rows ms
      /\ meta_name m = selected_name db "ministries" select_ministry (bf_ministry form)
      /\ bill_ministry_code b = Some (meta_code m))
  /\ (body = "State Assembly" ->
      exists ss s, states db = Some ss /\ s ∈ rows ss
        /\ meta_name s = selected_name db "states" select_state (bf_state form)
        /\ bill_state_code b = Some (meta_code s)).
Proof.
  intros Hrun Ht Ht' Hrows.
  assert (db' <> db) as Hne.
  { intros ->. rewrite Ht in Ht'. injection Ht' as <-. by destruct (not_appended (rows t) b). }
  revert Hrun. unfold render_bill_form, selected_name.
  destruct (fetch_metadata db "ministries") as [|md] eqn:Hmd; [done|].
  destruct (fetch_metadata db "states") as [|sd] eqn:Hsd; [done|]. simpl.
  destruct (_ || _) eqn:Hpre; [by intros [= <- <-]|].
  destruct (negb (bf_submitted form)); [by intros [= <- <-]|].
  destruct (_ || _) eqn:Hsel in |- *; [by intros [= <- <-]|].
  destruct (_ && _) eqn:Hpdf in |- *; [by intros [= <- <-]|].
  apply orb_false_iff in Hsel as [Hsel Hst].
  destruct (selected_code md select_ministry (bf_ministry form) Hsel) as [mc Hmc].
  destruct (fetch_metadata_get _ _ _ _ _ Hmd Hmc)
    as (ms & m & [[_ Hms]|[? _]] & Hm & Hname & Hcode); [|done].
  rewrite Hmc.
  unfold save_bill_record, insert_bill. rewrite Ht. simpl.
  destruct (existsb _ (rows t)); simpl; intros [= <- <-]; [done|].
  simpl in Ht'. injection Ht' as <-. simpl in Hrows.
  apply app_inv_head in Hrows. injection Hrows as <-. simpl. split.
  - exists ms, m. by rewrite Hcode.
  - intros ->. simpl in *.
    apply bool_decide_eq_false in Hst.
    assert (String.eqb (selectbox (select_state :: Dict.keys sd) (bf_state form)) select_state
            = false) as Hst'.
    { apply not_true_iff_false. rewrite String.eqb_eq. congruence. }
    destruct (selected_code sd select_state (bf_state form) Hst') as [sc Hsc].
    destruct (fetch_metadata_get _ _ _ _ _ Hsd Hsc)
      as (ss & s & [[? _]|[_ Hss]] & Hs & Hsname & Hscode); [done|].
    exists ss, s. rewrite Hsc. by rewrite Hscode.
Qed.

Lemma render_question_form_selected db body form env db' said t t' q :
  render_question_form db body form env = inr (db', said) ->
  questions db = Some t -> questions db' = Some t' -> rows t' = rows t ++ [q] ->
  (exists ms m, ministries db = Some ms /\ m ∈ rows ms
      /\ meta_name m = selected_name db "ministries" select_ministry (qf_ministry form)
      /\ question_ministry_code q = Some (meta_code m))
  /\ (body = "State Assembly" ->
      exists ss s, states db = Some ss /\ s ∈ rows ss
        /\ meta_name s = selected_name db "states" select_state (qf_state form)
        /\ question_state_code q = Some (meta_code s)).
Proof.
  intros Hrun Ht Ht' Hrows.
  assert (db' <> db) as Hne.
  { intros ->. rewrite Ht in Ht'. injection Ht' as <-. by destruct (not_appended (rows t) q). }
  revert Hrun. unfold render_question_form, selected_name.
  destruct (fetch_metadata db "ministries") as [|md] eqn:Hmd; [done|].
  destruct (fetch_metadata db "states") as [|sd] eqn:Hsd; [done|]. simpl.
  destruct (_ || _) eqn:Hpre; [by intros [= <- <-]|].
  destruct (negb (qf_submitted form)); [by intros [= <- <-]|].
  destruct (_ || _) eqn:Hsel in |- *; [by intros [= <- <-]|].
  destruct (_ && _) eqn:Hpdf in |- *; [by intros [= <- <-]|].
  apply orb_false_iff in Hsel as [Hsel Hst].
  destruct (selected_code md select_ministry (qf_ministry form) Hsel) as [mc Hmc].
  destruct (fetch_metadata_get _ _ _ _ _ Hmd Hmc)
    as (ms & m & [[_ Hms]|[? _]] & Hm & Hname & Hcode); [|done].
  rewrite Hmc.
  unfold insert_question. rewrite Ht. simpl.
  destruct (existsb _ (rows t)); simpl; intros [= <- <-]; [done|].
  simpl in Ht'. injection Ht' as <-. simpl in Hrows.
  apply app_inv_head in Hrows. injection Hrows as <-. simpl. split.
  - exists ms, m. by rewrite Hcode.
  - intros ->. simpl in *.
    apply bool_decide_eq_false in Hst.
    assert (String.eqb (selectbox (select_state :: Dict.keys sd) (qf_state form)) select_state
            = false) as Hst'.
    { apply not_true_iff_false. rewrite String.eqb_eq. congruence. }
    destruct (selected_code sd select_state (qf_state form) Hst') as [sc Hsc].
    destruct (fetch_metadata_get _ _ _ _ _ Hsd Hsc)
      as (ss & s & [[? _]|[_ Hss]] & Hs & Hsname & Hscode); [done|].
    exists ss, s. rewrite Hsc. by rewrite Hscode.
Qed.

(** C7.  A bill or question the creation form stores has a state code if
    and only if its body is State Assembly, and then the code is that of
    the row of [states] whose name is the one picked in the state box of
    the form; and after any sequence of runs from a new file, every
    stored bill and question, and every row [fetch_bills] or
    [fetch_questions] returns, has a non-null state code if and only if
    its body is State Assembly, and no two rows of [states] have one
    name, so that the name picked stands for one state. *)
Theorem state_code_iff_state_assembly :
  (forall db db' body form env said t t' b,
     render_bill_form db body form env = inr (db', said) ->
     bills db = Some t -> bills db' = Some t' -> rows t' = rows t ++ [b] ->
     bill_legislative_body b = body
     /\ (is_Some (bill_state_code b) <-> body = "State Assembly")
     /\ (body = "State Assembly" ->
         exists ss s, states db = Some ss /\ s ∈ rows ss
                      /\ meta_name s = selected_name db "states" select_state (bf_state form)
                      /\ bill_state_code b = Some (meta_code s)))
  /\ (forall db db' body form env said t t' q,
        render_question_form db body form env = inr (db', said) ->
        questions db = Some t -> questions db' = Some t' -> rows t' = rows t ++ [q] ->
        question_legislative_body q = body
        /\ (is_Some (question_state_code q) <-> body = "State Assembly")
        /\ (body = "State Assembly" ->
            exists ss s, states db = Some ss /\ s ∈ rows ss
                         /\ meta_name s = selected_name db "states" select_state (qf_state form)
                         /\ question_state_code q = Some (meta_code s)))
  /\ (forall db, reachable db ->
        (forall t b, bills db = Some t -> b ∈ rows t ->
           (is_Some (bill_state_code b) <-> bill_legislative_body b = "State Assembly"))
        /\ (forall t q, questions db = Some t -> q ∈ rows t ->
              (is_Some (question_state_code q)
               <-> question_legislative_body q = "State Assembly"))
        /\ (forall legislative_body search_term v,
              v ∈ df_rows (fetch_bills db legislative_body search_term).1 ->
              (is_Some (bill_state_code (bv_bill v)) <-> legislative_body = "State Assembly"))
        /\ (forall legislative_body search_term v,
              v ∈ df_rows (fetch_questions db legislative_body search_term).1 ->
              (is_Some (question_state_code (qv_question v))
               <-> legislative_body = "State Assembly"))
        /\ (forall ss s s', states db = Some ss -> s ∈ rows ss -> s' ∈ rows ss ->
              meta_name s = meta_name s' -> s = s')).
Proof.
  split_and!.
  - intros db db' body form env said t t' b Hrun Ht Ht' Hrows.
    destruct (render_bill_form_selected _ _ _ _ _ _ _ _ _ Hrun Ht Ht' Hrows) as [_ Hpicked].
    apply render_bill_form_cases in Hrun
      as [->|(t0 & ms & mc & m & sc & Hb & _ & _ & _ & Hsc & b0 & -> & _ & Hbody & _ & Hstate
              & _)].
    { rewrite Ht in Ht'. injection Ht' as <-. by destruct (not_appended (rows t) b). }
    simpl in Ht'. simplify_eq/=.
    destruct (String.eqb_spec (bill_legislative_body b) "State Assembly") as [Hsa|Hsa].
    + destruct Hsc as (ss & s & ? & ? & Hs). rewrite Hs.
      split_and!; [done|split; [done|by eexists]|]. intros _. rewrite <- Hs. auto.
    + rewrite Hsc. split_and!; [done| |done]. split; [by intros [? ?]|done].
  - intros db db' body form env said t t' q Hrun Ht Ht' Hrows.
    destruct (render_question_form_selected _ _ _ _ _ _ _ _ _ Hrun Ht Ht' Hrows)
      as [_ Hpicked].
    apply render_question_form_cases in Hrun
      as [->|(t0 & ms & mc & m & sc & Hb & _ & _ & _ & Hsc & q0 & -> & _ & Hbody & _ & Hstate
              & _)].
    { rewrite Ht in Ht'. injection Ht' as <-. by destruct (not_appended (rows t) q). }
    simpl in Ht'. simplify_eq/=.
    destruct (String.eqb_spec (question_legislative_body q) "State Assembly") as [Hsa|Hsa].
    + destruct Hsc as (ss & s & ? & ? & Hs). rewrite Hs.
      split_and!; [done|split; [done|by eexists]|]. intros _. rewrite <- Hs. auto.
    + rewrite Hsc. split_and!; [done| |done]. split; [by intros [? ?]|done].
  - intros db Hreach. destruct (records_ok_reachable db Hreach) as [Hbills Hquestions].
    assert (forall t b, bills db = Some t -> b ∈ rows t ->
              (is_Some (bill_state_code b) <-> bill_legislative_body b = "State Assembly"))
      as Hb.
    { intros t b Ht Hin. specialize (Hbills t Ht). rewrite Forall_forall in Hbills.
      apply (Hbills b Hin). }
    assert (forall t q, questions db = Some t -> q ∈ rows t ->
              (is_Some (question_state_code q)
               <-> question_legislative_body q = "State Assembly")) as Hq.
    { intros t q Ht Hin. specialize (Hquestions t Ht). rewrite Forall_forall in Hquestions.
      apply (Hquestions q Hin). }
    split_and!; [done|done| | |].
    + intros lb search v (t & Ht & Hin & <-)%elem_of_fetch_bills. by eapply Hb.
    + intros lb search v (t & Ht & Hin & <-)%elem_of_fetch_questions. by eapply Hq.
    + intros ss s s' Hss Hs Hs' Hname.
      apply store_ok_reachable in Hreach as (_ & _ & Hst & _).
      destruct (Hst ss Hss) as (_ & _ & Hnames & _).
      by eapply (NoDup_fmap_same meta_name).
Qed.

(** ** The stored records *)

Lemma codes_and_ids_NoDup (db : database) :
  reachable db ->
  (forall t, bills db = Some t -> NoDup (bill_code <$> rows t) /\ NoDup (bill_id <$> rows t))
  /\ (forall t, questions db = Some t ->
        NoDup (question_code <$> rows t) /\ NoDup (question_id <$> rows t)).
Proof.
  intros (_ & _ & _ & Hb & Hq & _)%store_ok_reachable. split; intros t Ht.
  - destruct (Hb t Ht) as ([? ?] & ? & _). split; [done|by apply StronglySorted_lt_NoDup].
  - destruct (Hq t Ht) as ([? ?] & ? & _). split; [done|by apply StronglySorted_lt_NoDup].
Qed.

(** X7.  In every database the administrator can reach, no two bills have
    the same code and no two questions have the same code (a code the
    form draws a second time is refused by the UNIQUE constraint, and the
    form stores nothing), and in each of the five tables the ids are
    pairwise distinct and none is above the AUTOINCREMENT counter of the
    table. *)
Theorem record_codes_and_ids_are_unique (db : database) :
  reachable db ->
  (forall t, bills db = Some t ->
     NoDup (bill_code <$> rows t) /\ NoDup (bill_id <$> rows t)
     /\ Forall (fun b => (bill_id b <= sqlite_sequence t)%N) (rows t))
  /\ (forall t, questions db = Some t ->
        NoDup (question_code <$> rows t) /\ NoDup (question_id <$> rows t)
        /\ Forall (fun q => (question_id q <= sqlite_sequence t)%N) (rows t))
  /\ (forall t, ministries db = Some t \/ states db = Some t ->
        NoDup (meta_id <$> rows t)
        /\ Forall (fun r => (meta_id r <= sqlite_sequence t)%N) (rows t))
  /\ (forall t, current_affairs db = Some t ->
        NoDup (ca_id <$> rows t)
        /\ Forall (fun r => (ca_id r <= sqlite_sequence t)%N) (rows t)).
Proof.
  intros (_ & Hm & Hs & Hb & Hq & Hc)%store_ok_reachable. split_and!.
  - intros t Ht. destruct (Hb t Ht) as ([? ?] & ? & _).
    split_and!; [done|by apply StronglySorted_lt_NoDup|done].
  - intros t Ht. destruct (Hq t Ht) as ([? ?] & ? & _).
    split_and!; [done|by apply StronglySorted_lt_NoDup|done].
  - intros t Ht. assert (meta_ok t) as ([? ?] & _) by (destruct Ht; auto).
    split; [by apply StronglySorted_lt_NoDup|done].
  - intros t Ht. destruct (Hc t Ht) as ([? ?] & _).
    split; [by apply StronglySorted_lt_NoDup|done].
Qed.

Lemma filter_by_unique_key {A : Type} (f : A -> string) (c : option string) (l : list A) :
  NoDup (f <$> l) ->
  filter (fun x => c = Some (f x)) l = []
  \/ exists x, filter (fun x => c = Some (f x)) l = [x].
Proof.
  intros Hnd. apply (NoDup_fmap_filter f (fun x => c = Some (f x))) in Hnd.
  destruct (filter _ l) as [|y [|z r]] eqn:E; [by left|right; by exists y|].
  assert (y ∈ filter (fun x => c = Some (f x)) l) as Hy by (rewrite E; left).
  assert (z ∈ filter (fun x => c = Some (f x)) l) as Hz by (rewrite E; right; left).
  apply list_elem_of_filter in Hy as [Hy _]. apply list_elem_of_filter in Hz as [Hz _].
  simpl in Hnd. apply NoDup_cons in Hnd as [Hnd _]. destruct Hnd.
  assert (f y = f z) as -> by congruence. left.
Qed.

(** With distinct codes in the two metadata tables and an existing
    ministry for every record, the SELECT of the two fetches with an empty
    search returns each record of the body once. *)
Lemma select_joined_each_once {R : Type} (src : source R) (xs : list R) (ms ss : list meta_row)
    (lb : string) :
  NoDup (meta_code <$> ms) -> NoDup (meta_code <$> ss) ->
  (forall x, x ∈ xs -> exists m, m ∈ ms /\ src_ministry_code src x = Some (meta_code m)) ->
  (fun j : R * string * option string => j.1.1) <$> select_joined src xs ms ss lb ""
  ≡ₚ filter (fun x => src_legislative_body src x = lb) xs.
Proof.
  intros Hms Hss Hrefs. unfold select_joined. rewrite merge_sort_Permutation.
  induction xs as [|x xs IH]; [done|].
  destruct (Hrefs x) as (m & Hm & Hcode); [left|].
  assert (exists mn sn, (mn ← join_ministry ms (src_ministry_code src x);
                         sn ← left_join_state ss (src_state_code src x);
                         [ (x, mn, sn) ]) = [(x, mn, sn)]) as (mn & sn & Hx).
  { unfold join_ministry, left_join_state.
    destruct (filter_by_unique_key meta_code (src_ministry_code src x) ms Hms) as [E|[m' E]].
    { assert (m ∈ filter (fun m => src_ministry_code src x = Some (meta_code m)) ms) as Hin
        by (by apply list_elem_of_filter).
      rewrite E in Hin. by apply elem_of_nil in Hin. }
    rewrite E.
    destruct (filter_by_unique_key meta_code (src_state_code src x) ss Hss) as [E'|[s' E']];
      rewrite E'; simpl; by eexists _, _. }
  change ((x :: xs) ≫= ?g) with (g x ++ (xs ≫= g)). cbv beta. rewrite Hx. simpl.
  assert (forall y, y ∈ xs ->
            exists m, m ∈ ms /\ src_ministry_code src y = Some (meta_code m)) as Hrefs'.
  { intros y Hy. apply Hrefs. by right. }
  destruct (String.eqb_spec (src_legislative_body src x) lb) as [E|E].
  - rewrite filter_cons_True.
    2:{ unfold where_clause. simpl. by rewrite E, String.eqb_refl. }
    rewrite (filter_cons_True _ x) by done. simpl. constructor. by apply IH.
  - rewrite filter_cons_False.
    2:{ unfold where_clause. simpl. rewrite andb_true_r.
        intros E'. by apply String.eqb_eq in E'. }
    rewrite (filter_cons_False _ x) by done. by apply IH.
Qed.

(** X8.  In every database the administrator can reach, each stored bill
    names a ministry that exists (the forms take the code from a row of
    [ministries] and no page deletes one), so the inner join of the fetch
    drops nothing: [fetch_bills] with an empty search returns the stored
    bills of the body asked for, each exactly once, and [fetch_questions]
    the stored questions of that body. *)
Theorem every_stored_record_is_listed_once (db : database) (body : string) :
  reachable db ->
  (forall t, bills db = Some t ->
     bv_bill <$> df_rows (fetch_bills db body "").1
     ≡ₚ filter (fun b => bill_legislative_body b = body) (rows t))
  /\ (forall t, questions db = Some t ->
        qv_question <$> df_rows (fetch_questions db body "").1
        ≡ₚ filter (fun q => question_legislative_body q = body) (rows t)).
Proof.
  intros (Htog & Hm & Hs & Hb & Hq & _)%store_ok_reachable. split.
  - intros t Ht.
    destruct (tables_together_set db) as ([ms Hms] & [ss Hss] & _);
      [right; right; left; by eexists|done|].
    rewrite (fetch_bills_rows db t ms ss) by done. simpl.
    rewrite <- list_fmap_compose.
    etrans; [|apply (select_joined_each_once bill_source (rows t) (rows ms) (rows ss) body)].
    + done.
    + by apply Hm.
    + by apply Hs.
    + intros b Hin. destruct (Hb t Ht) as (_ & _ & Hall). rewrite Forall_forall in Hall.
      destruct (Hall b Hin) as [_ [(tm & m & Htm & Hmin & Hcode) _]].
      rewrite Hms in Htm. injection Htm as <-. by exists m.
  - intros t Ht.
    destruct (tables_together_set db) as ([ms Hms] & [ss Hss] & _);
      [right; right; right; left; by eexists|done|].
    rewrite (fetch_questions_rows db t ms ss) by done. simpl.
    rewrite <- list_fmap_compose.
    etrans; [|apply (select_joined_each_once question_source (rows t) (rows ms) (rows ss) body)].
    + done.
    + by apply Hm.
    + by apply Hs.
    + intros q Hin. destruct (Hq t Ht) as (_ & _ & Hall). rewrite Forall_forall in Hall.
      destruct (Hall q Hin) as [_ [(tm & m & Htm & Hmin & Hcode) _]].
      rewrite Hms in Htm. injection Htm as <-. by exists m.
Qed.


(** X10.  [list.index] raises [ValueError] when the stored status is not
    an option of the update box.  In a database the administrator can
    reach it never does: for every record the update/delete tab of the
    bills lists, [status_options.index(record['current_status'])] and
    [approval_options.index(record['approval_result'])] find their
    argument, and the update form holds the status and the approval
    result picked in its two boxes; likewise for every question listed
    and the one box of its form.  (What Streamlit makes of two widgets of
    one key, when the two tabs of one run show records of one code, is no
    part of this statement.) *)
Theorem update_form_finds_the_stored_status (db : database) (body : string)
    (form : update_delete_form) :
  reachable db ->
  (forall v, v ∈ df_rows (fetch_bills db body "").1 ->
     update_choice true (cols_of_bill v) form
     = inr (selectbox ["Pending"; "Passed"; "Not Passed"] (ud_new_status form),
            Some (selectbox ["Pending"; "Yes"; "No"] (ud_new_approval form))))
  /\ (forall v, v ∈ df_rows (fetch_questions db body "").1 ->
        update_choice false (cols_of_question v) form
        = inr (selectbox ["Answered"; "Not Answered"] (ud_new_status form), None)).
Proof.
  intros (_ & _ & _ & Hb & Hq & _)%store_ok_reachable. split.
  - intros v (t & Ht & Hin & _)%elem_of_fetch_bills.
    apply update_choice_bill_value. destruct (Hb t Ht) as (_ & _ & Hall).
    rewrite Forall_forall in Hall. by destruct (Hall _ Hin).
  - intros v (t & Ht & Hin & _)%elem_of_fetch_questions.
    apply update_choice_question_value. destruct (Hq t Ht) as (_ & _ & Hall).
    rewrite Forall_forall in Hall. by destruct (Hall _ Hin).
Qed.

(** X11.  In every database the administrator can reach, each current
    affairs record has a title and a description that are not empty (the
    form refuses to publish without them), and its PDF path is NULL or
    [pdfs/CA_{title}_{n}.pdf], with every blank of the title replaced by
    an underscore and [n] one of the numbers from 100 to 999. *)
Theorem published_current_affairs_are_complete (db : database) (t : table current_affair) :
  reachable db -> current_affairs db = Some t -> Forall current_affair_ok (rows t).
Proof.
  intros (_ & _ & _ & _ & _ & Hc)%store_ok_reachable Ht. by destruct (Hc t Ht).
Qed.

(** ** Deleting, and the order of the listings *)

(** X12.  A DELETE by id that went through takes the record out of every
    later listing and leaves the others in: after [delete_record] on
    [bills] (or on [questions]) with an id, the success banner is shown,
    and for every body and every search the rows [fetch_bills] (or
    [fetch_questions]) returns are those it returned before that have
    another id. *)
Theorem deleted_record_is_in_no_later_listing (db : database) (i : N) (code : string)
    (tb : table bill) (tq : table question) :
  bills db = Some tb -> questions db = Some tq ->
  ((delete_record db "bills" (Some i) code).2
   = [st_success ("Record " +:+ code +:+ " deleted successfully from bills. Refreshing...")]
   /\ forall body q v,
        v ∈ df_rows (fetch_bills (delete_record db "bills" (Some i) code).1 body q).1
        <-> v ∈ df_rows (fetch_bills db body q).1 /\ bill_id (bv_bill v) <> i)
  /\ ((delete_record db "questions" (Some i) code).2
      = [st_success ("Record " +:+ code
                     +:+ " deleted successfully from questions. Refreshing...")]
      /\ forall body q v,
           v ∈ df_rows (fetch_questions (delete_record db "questions" (Some i) code).1 body q).1
           <-> v ∈ df_rows (fetch_questions db body q).1 /\ question_id (qv_question v) <> i).
Proof.
  intros Hb Hq. split.
  - unfold delete_record, exec_delete. simpl. rewrite Hb. simpl. split; [done|].
    intros body q v. unfold fetch_bills, fetch_bills_query. simpl. rewrite Hb. simpl.
    destruct (ministries db) as [ms|]; simpl.
    2:{ split; [by intros ?%elem_of_nil|by intros [?%elem_of_nil _]]. }
    destruct (states db) as [ss|]; simpl.
    2:{ split; [by intros ?%elem_of_nil|by intros [?%elem_of_nil _]]. }
    rewrite !elem_of_bill_views, !elem_of_select_joined. simpl.
    rewrite list_elem_of_filter. tauto.
  - unfold delete_record, exec_delete. simpl. rewrite Hq. simpl. split; [done|].
    intros body q v. unfold fetch_questions, fetch_questions_query. simpl. rewrite Hq. simpl.
    destruct (ministries db) as [ms|]; simpl.
    2:{ split; [by intros ?%elem_of_nil|by intros [?%elem_of_nil _]]. }
    destruct (states db) as [ss|]; simpl.
    2:{ split; [by intros ?%elem_of_nil|by intros [?%elem_of_nil _]]. }
    rewrite !elem_of_question_views, !elem_of_select_joined. simpl.
    rewrite list_elem_of_filter. tauto.
Qed.

(** X13.  The listings come newest first: whatever the database, the
    body and the search, the rows of [fetch_bills] and of
    [fetch_questions] are in decreasing order of [introduced_date] and
    all of the body asked for; and [fetch_current_affairs], when the
    table is there, returns all its rows, in decreasing order of
    [published_date]. *)
Theorem listings_are_newest_first (db : database) (body q : string) :
  (StronglySorted (desc (fun v => bill_introduced_date (bv_bill v)))
     (df_rows (fetch_bills db body q).1)
   /\ Forall (fun v => bill_legislative_body (bv_bill v) = body)
        (df_rows (fetch_bills db body q).1))
  /\ (StronglySorted (desc (fun v => question_introduced_date (qv_question v)))
        (df_rows (fetch_questions db body q).1)
      /\ Forall (fun v => question_legislative_body (qv_question v) = body)
           (df_rows (fetch_questions db body q).1))
  /\ (forall t, current_affairs db = Some t ->
        exists df, fetch_current_affairs db = inr df
                   /\ df_rows df ≡ₚ rows t
                   /\ StronglySorted (desc ca_published_date) (df_rows df)).
Proof.
  split_and!.
  - unfold fetch_bills, fetch_bills_query.
    destruct (bills db) as [bs|]; [|constructor].
    destruct (ministries db) as [ms|]; [|constructor].
    destruct (states db) as [ss|]; [|constructor]. simpl.
    apply (StronglySorted_fmap bill_view_of
             (desc (fun j : bill * string * option string => bill_introduced_date j.1.1)));
      [done|].
    unfold select_joined. apply StronglySorted_merge_sort; apply _.
  - apply Forall_forall. intros v Hv. by apply elem_of_fetch_bills in Hv as (? & _ & _ & ?).
  - unfold fetch_questions, fetch_questions_query.
    destruct (questions db) as [bs|]; [|constructor].
    destruct (ministries db) as [ms|]; [|constructor].
    destruct (states db) as [ss|]; [|constructor]. simpl.
    apply (StronglySorted_fmap question_view_of
             (desc (fun j : question * string * option string =>
                      question_introduced_date j.1.1)));
      [done|].
    unfold select_joined. apply StronglySorted_merge_sort; apply _.
  - apply Forall_forall. intros v Hv.
    by apply elem_of_fetch_questions in Hv as (? & _ & _ & ?).
  - intros t Ht. unfold fetch_current_affairs. rewrite Ht. simpl. eexists.
    split; [done|]. simpl. split; [apply merge_sort_Permutation|].
    apply StronglySorted_merge_sort; apply _.
Qed.

Lemma string_leb_total (x y : string) : String.leb x y = true \/ String.leb y x = true.
Proof. apply leb_total. Qed.

Lemma string_leb_trans (x y z : string) :
  String.leb x y = true -> String.leb y z = true -> String.leb x z = true.
Proof.
  intros H1%Is_true_true H2%Is_true_true. apply Is_true_true.
  change (String.le x z). by etrans.
Qed.

Lemma sort_by_text_column {A : Type} (qs : sorter) (key : A -> string) (df : list A) :
  sorter_ok qs ->
  sort_values qs String.leb (fun v => Some (key v)) true df ≡ₚ df
  /\ StronglySorted (asc key) (sort_values qs String.leb (fun v => Some (key v)) true df).
Proof.
  intros Hok. split; [by apply sort_values_Permutation|].
  eapply StronglySorted_weaken;
    [|apply (sort_values_sorted qs String.leb _ Hok string_leb_total string_leb_trans true)].
  intros a b. simpl. unfold asc. intros H. by apply Is_true_true.
Qed.

(** X14.  Whatever sort stands behind [sort_values], "Alphabetical (Bill
    Name)" lists the bills it was given, each once, in increasing order
    of their names, and "Type" lists the questions it was given in
    increasing order of their types (Starred before Unstarred); every
    other choice that is not "Status", the default one by date among
    them, leaves the rows in the order of the fetch. *)
Theorem name_and_type_sorts_follow_the_text_order (qs : sorter) :
  sorter_ok qs ->
  (forall df,
     sort_bills qs "Alphabetical (Bill Name)" df ≡ₚ df
     /\ StronglySorted (asc (fun v => bill_name (bv_bill v)))
          (sort_bills qs "Alphabetical (Bill Name)" df))
  /\ (forall df,
        sort_questions qs "Type" df ≡ₚ df
        /\ StronglySorted (asc (fun v => question_q_type (qv_question v)))
             (sort_questions qs "Type" df))
  /\ (forall sort_by df,
        sort_by <> "Status" -> sort_by <> "Alphabetical (Bill Name)" ->
        sort_bills qs sort_by df = df)
  /\ (forall sort_by df,
        sort_by <> "Status" -> sort_by <> "Type" -> sort_questions qs sort_by df = df).
Proof.
  intros Hok. split_and!.
  - intros df. unfold sort_bills. simpl. by apply sort_by_text_column.
  - intros df. unfold sort_questions. simpl. by apply sort_by_text_column.
  - intros sort_by df H1 H2. unfold sort_bills.
    destruct (String.eqb_spec sort_by "Status"); [done|].
    by destruct (String.eqb_spec sort_by "Alphabetical (Bill Name)").
  - intros sort_by df H1 H2. unfold sort_questions.
    destruct (String.eqb_spec sort_by "Status"); [done|].
    by destruct (String.eqb_spec sort_by "Type").
Qed.

(** ** The update/delete tab acts on the record picked *)

Lemma filter_ext_elem {A : Type} (P Q : A -> Prop) `{!forall x, Decision (P x)}
    `{!forall x, Decision (Q x)} (l : list A) :
  (forall x, x ∈ l -> P x <-> Q x) -> filter P l = filter Q l.
Proof.
  induction l as [|x l IH]; intros Hext; [done|]. rewrite !filter_cons.
  rewrite IH by (intros y Hy; apply Hext; by right).
  destruct (decide (P x)) as [HP|HP], (decide (Q x)) as [HQ|HQ]; try done.
  - destruct HQ. apply Hext; [left|done].
  - destruct HP. apply Hext; [left|done].
Qed.

Lemma render_update_delete_ui_delete (db : database) (df : list record_cols) (body : string)
    (is_bill : bool) (form : update_delete_form) (record : record_cols)
    (rest : list record_cols) (i : N) (db' : database) :
  String.eqb (selectbox (select_code :: (col_code <$> df)) (ud_selected_code form)) select_code
  = false ->
  filter (fun r => col_code r = selectbox (select_code :: (col_code <$> df))
                                  (ud_selected_code form)) df = record :: rest ->
  col_id record = Some i ->
  ud_delete_clicked form = true ->
  exec_delete db (if is_bill then "bills" else "questions") i = inr db' ->
  render_update_delete_ui db df body is_bill form
  = inr (db',
         [st_warning ("DEBUG: Selected Record ID (must be integer > 0): "
                      +:+ Text.str_int (Z.of_N i));
          st_success ("Record " +:+ selectbox (select_code :: (col_code <$> df))
                                      (ud_selected_code form)
                      +:+ " deleted successfully from "
                      +:+ (if is_bill then "bills" else "questions") +:+ "! Refreshing...")]).
Proof.
  intros Hsel Hf Hid Hdel Hex. unfold render_update_delete_ui.
  rewrite Hsel, Hf, Hid. unfold delete_button. rewrite Hdel, Hex. done.
Qed.

Lemma picked_record (df : list record_cols) (choice : nat) :
  selectbox (select_code :: (col_code <$> df)) choice <> select_code ->
  exists record rest,
    filter (fun r => col_code r = selectbox (select_code :: (col_code <$> df)) choice) df
    = record :: rest
    /\ record ∈ df
    /\ col_code record = selectbox (select_code :: (col_code <$> df)) choice.
Proof.
  intros Hne.
  pose proof (selectbox_elem_of select_code (col_code <$> df) choice) as [E|Hin]%elem_of_cons;
    [done|].
  apply list_elem_of_fmap in Hin as (r & Hr & Hin).
  destruct (filter _ df) as [|record rest] eqn:Hf.
  - assert (r ∈ filter (fun r => col_code r = selectbox (select_code :: (col_code <$> df))
                                                choice) df) as H
      by (by apply list_elem_of_filter).
    rewrite Hf in H. by apply elem_of_nil in H.
  - exists record, rest. split; [done|].
    assert (record ∈ record :: rest) as H by left. rewrite <- Hf in H.
    apply list_elem_of_filter in H as [? ?]. done.
Qed.

(** X15.  The delete button of the update/delete tab removes the record
    picked and no other: in a database the administrator can reach, when
    a code is picked in the box and the button is pressed, the run
    deletes from [bills] exactly the rows of that code, keeps the others
    in their order, leaves the id counter alone and shows the success
    banner; likewise for [questions]. *)
Theorem delete_button_removes_the_record_picked (db : database) (body : string)
    (form : update_delete_form) (tb : table bill) (tq : table question) :
  reachable db -> bills db = Some tb -> questions db = Some tq ->
  ud_delete_clicked form = true ->
  (selected_bill_code db body form <> select_code ->
   exists said,
     manage_bills db body form
     = inr (set_bills db
              {| rows := filter (fun b => bill_code b <> selected_bill_code db body form)
                           (rows tb);
                 sqlite_sequence := sqlite_sequence tb |}, said)
     /\ st_success ("Record " +:+ selected_bill_code db body form
                    +:+ " deleted successfully from bills! Refreshing...") ∈ said)
  /\ (selected_question_code db body form <> select_code ->
      exists said,
        manage_questions db body form
        = inr (set_questions db
                 {| rows := filter (fun q => question_code q
                                             <> selected_question_code db body form)
                              (rows tq);
                    sqlite_sequence := sqlite_sequence tq |}, said)
        /\ st_success ("Record " +:+ selected_question_code db body form
                       +:+ " deleted successfully from questions! Refreshing...") ∈ said).
Proof.
  intros Hreach Hb Hq Hdel.
  destruct (codes_and_ids_NoDup db Hreach) as [Hbu Hqu].
  split.
  - unfold selected_bill_code. intros Hne.
    destruct (picked_record _ _ Hne) as (record & rest & Hf & Hin & Hcode).
    apply list_elem_of_fmap in Hin as (v & -> & Hv).
    pose proof Hv as Hv'. apply elem_of_fetch_bills in Hv' as (t & Ht & Hrow & _).
    rewrite Hb in Ht. injection Ht as <-.
    unfold manage_bills. destruct (fetch_bills db body "") as [df s0] eqn:Hfetch.
    simpl in *.
    assert (df_empty df = false) as ->.
    { unfold fetch_bills in Hfetch. destruct (fetch_bills_query db body "").
      - injection Hfetch as <- _. by apply elem_of_nil in Hv.
      - injection Hfetch as <- _. simpl in *. unfold df_empty. simpl.
        destruct l; [by apply elem_of_nil in Hv|done]. }
    simpl.
    erewrite render_update_delete_ui_delete; [| |exact Hf|reflexivity|exact Hdel|].
    2:{ apply not_true_iff_false. by rewrite String.eqb_eq. }
    2:{ unfold exec_delete. simpl. rewrite Hb. reflexivity. }
    simpl. eexists. split.
    + do 3 f_equal. unfold delete_where_id. f_equal.
      destruct (Hbu tb Hb) as [Hcodes Hids].
      apply filter_ext_elem. intros b Hbin. simpl in Hcode. split.
      * intros Hid E. apply Hid. f_equal.
        eapply (NoDup_fmap_same bill_code); [exact Hcodes|done..|congruence].
      * intros Hc E. apply Hc. rewrite <- Hcode. f_equal.
        eapply (NoDup_fmap_same bill_id); [exact Hids|done..].
    + apply elem_of_app. right. right. left.
  - unfold selected_question_code. intros Hne.
    destruct (picked_record _ _ Hne) as (record & rest & Hf & Hin & Hcode).
    apply list_elem_of_fmap in Hin as (v & -> & Hv).
    pose proof Hv as Hv'. apply elem_of_fetch_questions in Hv' as (t & Ht & Hrow & _).
    rewrite Hq in Ht. injection Ht as <-.
    unfold manage_questions. destruct (fetch_questions db body "") as [df s0] eqn:Hfetch.
    simpl in *.
    assert (df_empty df = false) as ->.
    { unfold fetch_questions in Hfetch. destruct (fetch_questions_query db body "").
      - injection Hfetch as <- _. by apply elem_of_nil in Hv.
      - injection Hfetch as <- _. simpl in *. unfold df_empty. simpl.
        destruct l; [by apply elem_of_nil in Hv|done]. }
    simpl.
    erewrite render_update_delete_ui_delete; [| |exact Hf|reflexivity|exact Hdel|].
    2:{ apply not_true_iff_false. by rewrite String.eqb_eq. }
    2:{ unfold exec_delete. simpl. rewrite Hq. reflexivity. }
    simpl. eexists. split.
    + do 3 f_equal. unfold delete_where_id. f_equal.
      destruct (Hqu tq Hq) as [Hcodes Hids].
      apply filter_ext_elem. intros b Hbin. simpl in Hcode. split.
      * intros Hid E. apply Hid. f_equal.
        eapply (NoDup_fmap_same question_code); [exact Hcodes|done..|congruence].
      * intros Hc E. apply Hc. rewrite <- Hcode. f_equal.
        eapply (NoDup_fmap_same question_id); [exact Hids|done..].
    + apply elem_of_app. right. right. left.
Qed.

Lemma render_update_delete_ui_update (db : database) (df : list record_cols) (body : string)
    (is_bill : bool) (form : update_delete_form) (record : record_cols)
    (rest : list record_cols) (i : N) (new_status : string) (new_approval : option string) :
  String.eqb (selectbox (select_code :: (col_code <$> df)) (ud_selected_code form)) select_code
  = false ->
  filter (fun r => col_code r = selectbox (select_code :: (col_code <$> df))
                                  (ud_selected_code form)) df = record :: rest ->
  col_id record = Some i ->
  ud_delete_clicked form = false ->
  ud_update_submitted form = true ->
  update_choice is_bill record form = inr (new_status, new_approval) ->
  render_update_delete_ui db df body is_bill form
  = inr ((submit_update db is_bill new_status new_approval i
            (selectbox (select_code :: (col_code <$> df)) (ud_selected_code form))).1,
         st_warning ("DEBUG: Selected Record ID (must be integer > 0): "
                     +:+ Text.str_int (Z.of_N i))
         :: (submit_update db is_bill new_status new_approval i
               (selectbox (select_code :: (col_code <$> df)) (ud_selected_code form))).2).
Proof.
  intros Hsel Hf Hid Hdel Hsub Hch. unfold render_update_delete_ui.
  rewrite Hsel, Hf, Hid. unfold delete_button. rewrite Hdel, Hch. simpl. rewrite Hsub. simpl.
  by destruct (submit_update _ _ _ _ _ _).
Qed.

Lemma df_empty_rows {R : Type} (columns : list string) (l : list R) (v : R) :
  columns <> [] -> v ∈ l -> df_empty {| df_columns := columns; df_rows := l |} = false.
Proof. intros Hc Hv. unfold df_empty. simpl. destruct columns, l; try done. by apply elem_of_nil in Hv. Qed.

(** C8.  The update form of the update/delete tab changes the status of
    the record picked and nothing else.  In a database the administrator
    can reach, when a code is picked in the box, the delete button is not
    pressed and the form is submitted, the run shows the success banner
    and leaves [bills] with the row of that code, of which there is one,
    holding the status and the approval result chosen in the form, every
    other row and the id counter as they were; the four other tables are
    as they were, and every later [fetch_bills] returns the rows it
    returned before, in the same order, the one of that code with its two
    new values.  [set_bill_status] keeps the thirteen other columns of
    the row.  The tab of the questions does the same with
    [current_status] alone. *)
Theorem update_status_changes_status_only (db : database) (body : string)
    (form : update_delete_form) (tb : table bill) (tq : table question) :
  reachable db -> bills db = Some tb -> questions db = Some tq ->
  ud_delete_clicked form = false -> ud_update_submitted form = true ->
  (selected_bill_code db body form <> select_code ->
   let code := selected_bill_code db body form in
   let new_status := selectbox ["Pending"; "Passed"; "Not Passed"] (ud_new_status form) in
   let new_approval := Some (selectbox ["Pending"; "Yes"; "No"] (ud_new_approval form)) in
   exists db' said,
     manage_bills db body form = inr (db', said)
     /\ st_success ("Record " +:+ code +:+ " updated successfully! Refreshing...") ∈ said
     /\ (exists b, b ∈ rows tb /\ bill_code b = code /\ bill_legislative_body b = body)
     /\ NoDup (bill_code <$> rows tb)
     /\ bills db'
        = Some {| rows := (fun b => if decide (bill_code b = code)
                                    then set_bill_status new_status new_approval b else b)
                            <$> rows tb;
                  sqlite_sequence := sqlite_sequence tb |}
     /\ ministries db' = ministries db /\ states db' = states db
     /\ questions db' = questions db /\ current_affairs db' = current_affairs db
     /\ (forall legislative_body search_term,
           df_rows (fetch_bills db' legislative_body search_term).1
           = (fun v => if decide (bill_code (bv_bill v) = code)
                       then {| bv_bill := set_bill_status new_status new_approval (bv_bill v);
                               bv_ministry_name := bv_ministry_name v;
                               bv_state_name := bv_state_name v |}
                       else v)
               <$> df_rows (fetch_bills db legislative_body search_term).1))
  /\ (forall new_status new_approval b,
        bill_current_status (set_bill_status new_status new_approval b) = new_status
        /\ bill_approval_result (set_bill_status new_status new_approval b) = new_approval
        /\ bill_id (set_bill_status new_status new_approval b) = bill_id b
        /\ bill_code (set_bill_status new_status new_approval b) = bill_code b
        /\ bill_name (set_bill_status new_status new_approval b) = bill_name b
        /\ bill_introduced_by (set_bill_status new_status new_approval b) = bill_introduced_by b
        /\ bill_ministry_code (set_bill_status new_status new_approval b) = bill_ministry_code b
        /\ bill_legislative_body (set_bill_status new_status new_approval b)
           = bill_legislative_body b
        /\ bill_state_code (set_bill_status new_status new_approval b) = bill_state_code b
        /\ bill_votes_favour (set_bill_status new_status new_approval b) = bill_votes_favour b
        /\ bill_votes_against (set_bill_status new_status new_approval b) = bill_votes_against b
        /\ bill_approval_status (set_bill_status new_status new_approval b)
           = bill_approval_status b
        /\ bill_is_money_bill (set_bill_status new_status new_approval b) = bill_is_money_bill b
        /\ bill_pdf_path (set_bill_status new_status new_approval b) = bill_pdf_path b
        /\ bill_introduced_date (set_bill_status new_status new_approval b)
           = bill_introduced_date b)
  /\ (selected_question_code db body form <> select_code ->
      let code := selected_question_code db body form in
      let new_status := selectbox ["Answered"; "Not Answered"] (ud_new_status form) in
      exists db' said,
        manage_questions db body form = inr (db', said)
        /\ st_success ("Record " +:+ code +:+ " updated successfully! Refreshing...") ∈ said
        /\ (exists q, q ∈ rows tq /\ question_code q = code
                      /\ question_legislative_body q = body)
        /\ NoDup (question_code <$> rows tq)
        /\ questions db'
           = Some {| rows := (fun q => if decide (question_code q = code)
                                       then set_question_status new_status q else q)
                               <$> rows tq;
                     sqlite_sequence := sqlite_sequence tq |}
        /\ ministries db' = ministries db /\ states db' = states db
        /\ bills db' = bills db /\ current_affairs db' = current_affairs db
        /\ (forall legislative_body search_term,
              df_rows (fetch_questions db' legislative_body search_term).1
              = (fun v => if decide (question_code (qv_question v) = code)
                          then {| qv_question := set_question_status new_status (qv_question v);
                                  qv_ministry_name := qv_ministry_name v;
                                  qv_state_name := qv_state_name v |}
                          else v)
                  <$> df_rows (fetch_questions db legislative_body search_term).1))
  /\ (forall new_status q,
        question_current_status (set_question_status new_status q) = new_status
        /\ question_id (set_question_status new_status q) = question_id q
        /\ question_code (set_question_status new_status q) = question_code q
        /\ question_title (set_question_status new_status q) = question_title q
        /\ question_introduced_by (set_question_status new_status q) = question_introduced_by q
        /\ question_ministry_code (set_question_status new_status q) = question_ministry_code q
        /\ question_legislative_body (set_question_status new_status q)
           = question_legislative_body q
        /\ question_state_code (set_question_status new_status q) = question_state_code q
        /\ question_q_type (set_question_status new_status q) = question_q_type q
        /\ question_pdf_path (set_question_status new_status q) = question_pdf_path q
        /\ question_introduced_date (set_question_status new_status q)
           = question_introduced_date q).
Proof.
  intros Hreach Hb Hq Hdel Hsub.
  destruct (codes_and_ids_NoDup db Hreach) as [Hbu Hqu].
  pose proof (store_ok_reachable db Hreach) as (_ & _ & _ & Hbok & Hqok & _).
  split_and!; [|done| |done].
  - unfold selected_bill_code. intros Hne. simpl.
    destruct (picked_record _ _ Hne) as (record & rest & Hf & Hin & Hcode).
    apply list_elem_of_fmap in Hin as (v & -> & Hv).
    pose proof Hv as Hv'. apply elem_of_fetch_bills in Hv' as (t & Ht & Hrow & Hbody).
    rewrite Hb in Ht. injection Ht as <-.
    destruct (Hbok tb Hb) as (_ & _ & Hall). rewrite Forall_forall in Hall.
    destruct (Hall _ Hrow) as [Hvals _].
    destruct (Hbu tb Hb) as [Hcodes Hids].
    set (s := selectbox ["Pending"; "Passed"; "Not Passed"] (ud_new_status form)).
    set (a := Some (selectbox ["Pending"; "Yes"; "No"] (ud_new_approval form))).
    destruct (proj1 (status_update_frame db tb tq (bill_id (bv_bill v)) s a Hb Hq))
      as (db' & Hup & Hbills & Hm & Hs & Hq' & Hca & Hfetch).
    assert (forall x, x ∈ rows tb ->
              bill_id x = bill_id (bv_bill v) <-> bill_code x = col_code (cols_of_bill v))
      as Hsame.
    { intros x Hx. simpl. split; intros E; f_equal.
      - eapply (NoDup_fmap_same bill_id); [exact Hids|done..].
      - eapply (NoDup_fmap_same bill_code); [exact Hcodes|done..]. }
    assert (exists said,
              manage_bills db body form = inr (db', said)
              /\ st_success ("Record "
                             +:+ selectbox (select_code :: (col_code <$> (cols_of_bill <$> df_rows (fetch_bills db body "").1))) (ud_selected_code form)
                             +:+ " updated successfully! Refreshing...") ∈ said)
      as (said & Hrun & Hsaid).
    { unfold manage_bills. destruct (fetch_bills db body "") as [df s0] eqn:Hfetch0.
      simpl in *.
      assert (df_empty df = false) as ->.
      { unfold fetch_bills in Hfetch0. destruct (fetch_bills_query db body "").
        - injection Hfetch0 as <- _. by apply elem_of_nil in Hv.
        - injection Hfetch0 as <- _. by eapply df_empty_rows. }
      simpl.
      erewrite render_update_delete_ui_update;
        [| |exact Hf|reflexivity|exact Hdel|exact Hsub|by apply update_choice_bill_value].
      2:{ apply not_true_iff_false. by rewrite String.eqb_eq. }
      unfold submit_update. fold s a. rewrite Hup. simpl. eexists. split; [reflexivity|].
      apply elem_of_app. right. right. left. }
    exists db', said. split_and!.
    + exact Hrun.
    + exact Hsaid.
    + exists (bv_bill v). by rewrite <- Hcode.
    + done.
    + rewrite Hbills. do 2 f_equal. apply list_fmap_ext. intros _ x Hx%list_elem_of_lookup_2.
      rewrite <- Hcode. apply Hsame in Hx.
      destruct (decide (bill_id x = _)), (decide (bill_code x = _)); tauto.
    + done.
    + done.
    + done.
    + done.
    + intros lb q. rewrite Hfetch. apply list_fmap_ext.
      intros _ x Hx%list_elem_of_lookup_2.
      apply elem_of_fetch_bills in Hx as (t & Ht & Hx & _).
      rewrite Hb in Ht. injection Ht as <-. rewrite <- Hcode. apply Hsame in Hx.
      destruct (decide (bill_id _ = _)), (decide (bill_code _ = _)); tauto.
  - unfold selected_question_code. intros Hne. simpl.
    destruct (picked_record _ _ Hne) as (record & rest & Hf & Hin & Hcode).
    apply list_elem_of_fmap in Hin as (v & -> & Hv).
    pose proof Hv as Hv'. apply elem_of_fetch_questions in Hv' as (t & Ht & Hrow & Hbody).
    rewrite Hq in Ht. injection Ht as <-.
    destruct (Hqok tq Hq) as (_ & _ & Hall). rewrite Forall_forall in Hall.
    destruct (Hall _ Hrow) as [Hvals _].
    destruct (Hqu tq Hq) as [Hcodes Hids].
    set (s := selectbox ["Answered"; "Not Answered"] (ud_new_status form)).
    destruct (proj1 (proj2 (proj2 (status_update_frame db tb tq (question_id (qv_question v))
                                     s None Hb Hq))))
      as (db' & Hup & Hqs & Hm & Hs & Hb' & Hca & Hfetch).
    assert (forall x, x ∈ rows tq ->
              question_id x = question_id (qv_question v)
              <-> question_code x = col_code (cols_of_question v)) as Hsame.
    { intros x Hx. simpl. split; intros E; f_equal.
      - eapply (NoDup_fmap_same question_id); [exact Hids|done..].
      - eapply (NoDup_fmap_same question_code); [exact Hcodes|done..]. }
    assert (exists said,
              manage_questions db body form = inr (db', said)
              /\ st_success ("Record "
                             +:+ selectbox (select_code :: (col_code <$> (cols_of_question <$> df_rows (fetch_questions db body "").1))) (ud_selected_code form)
                             +:+ " updated successfully! Refreshing...") ∈ said)
      as (said & Hrun & Hsaid).
    { unfold manage_questions. destruct (fetch_questions db body "") as [df s0] eqn:Hfetch0.
      simpl in *.
      assert (df_empty df = false) as ->.
      { unfold fetch_questions in Hfetch0. destruct (fetch_questions_query db body "").
        - injection Hfetch0 as <- _. by apply elem_of_nil in Hv.
        - injection Hfetch0 as <- _. by eapply df_empty_rows. }
      simpl.
      erewrite render_update_delete_ui_update;
        [| |exact Hf|reflexivity|exact Hdel|exact Hsub|by apply update_choice_question_value].
      2:{ apply not_true_iff_false. by rewrite String.eqb_eq. }
      unfold submit_update. fold s. rewrite Hup. simpl. eexists. split; [reflexivity|].
      apply elem_of_app. right. right. left. }
    exists db', said. split_and!.
    + exact Hrun.
    + exact Hsaid.
    + exists (qv_question v). by rewrite <- Hcode.
    + done.
    + rewrite Hqs. do 2 f_equal. apply list_fmap_ext. intros _ x Hx%list_elem_of_lookup_2.
      rewrite <- Hcode. apply Hsame in Hx.
      destruct (decide (question_id x = _)), (decide (question_code x = _)); tauto.
    + done.
    + done.
    + done.
    + done.
    + intros lb q. rewrite Hfetch. apply list_fmap_ext.
      intros _ x Hx%list_elem_of_lookup_2.
      apply elem_of_fetch_questions in Hx as (t & Ht & Hx & _).
      rewrite Hq in Ht. injection Ht as <-. rewrite <- Hcode. apply Hsame in Hx.
      destruct (decide (question_id _ = _)), (decide (question_code _ = _)); tauto.
Qed.

(** ** Suggestions, and the viewers on a file without tables *)

Lemma contains_Bill_legislative_bodies (lb : string) :
  lb ∈ legislative_bodies -> Text.contains "Bill" lb = false.
Proof.
  unfold legislative_bodies. rewrite !elem_of_cons.
  intros [->|[->|[->|?%elem_of_nil]]]; done.
Qed.

(** X16.  [fetch_search_suggestions] reads [bills] only when the body
    text contains "Bill", which none of 'Lok Sabha', 'Rajya Sabha' and
    'State Assembly' does.  So for the three bodies the viewers pass, the
    bills viewer included, the suggestions do not depend on [bills] at
    all, and each suggestion is the code or the title of a stored
    question of that body, or the name of its ministry. *)
Theorem suggestions_come_from_the_questions (db : database) (lb q : string) :
  lb ∈ legislative_bodies ->
  (forall db',
     questions db' = questions db -> ministries db' = ministries db ->
     fetch_search_suggestions db' lb q = fetch_search_suggestions db lb q)
  /\ (forall l s,
        fetch_search_suggestions db lb q = inr l -> s ∈ l ->
        exists tq qn,
          questions db = Some tq /\ qn ∈ rows tq /\ question_legislative_body qn = lb
          /\ (s = question_code qn \/ s = question_title qn
              \/ exists tm m,
                   ministries db = Some tm /\ m ∈ rows tm
                   /\ question_ministry_code qn = Some (meta_code m) /\ s = meta_name m)).
Proof.
  intros Hlb%contains_Bill_legislative_bodies. split.
  - intros db' Hq Hm. unfold fetch_search_suggestions, suggestions_query.
    by rewrite Hlb, Hq, Hm.
  - intros l s. unfold fetch_search_suggestions, suggestions_query. rewrite Hlb.
    destruct (_ || _); [intros [= <-] ?%elem_of_nil; done|].
    destruct (questions db) as [tq|]; [|done].
    destruct (ministries db) as [tm|]; [|done]. simpl. intros [= <-].
    unfold sorted. rewrite merge_sort_Permutation, elem_of_elements, elem_of_suggestions.
    intros [?%elem_of_empty|(code & name & mn & Hrow & Hs)]; [done|].
    apply list_elem_of_fmap in Hrow as ([c mn'] & [= -> -> ->] & Hrow).
    apply subseteq_take in Hrow. apply list_elem_of_filter in Hrow as [Hw Hrow]. simpl in Hw.
    apply andb_true_iff in Hw as [Hbody%String.eqb_eq _].
    apply list_elem_of_bind in Hrow as (c' & Hrow & Hc').
    apply list_elem_of_bind in Hrow as (mn'' & Hrow & Hmn).
    apply list_elem_of_singleton in Hrow as [= <- <-].
    apply list_elem_of_fmap in Hc' as (qn & -> & Hqn).
    apply elem_of_join_ministry in Hmn as (m & Hm & Hcode & <-). simpl in *.
    exists tq, qn. split_and!; try done.
    destruct Hs as [->|[->| ->]]; [by left|by right; left|].
    right. right. by exists tm, m.
Qed.

(** X17.  [fetch_bills] catches a failed query, [fetch_search_suggestions]
    does not.  On a file without [bills] and [questions], as before the
    setup script has run, a viewer given a search text of two characters
    or more, as [len] counts them, raises the error of the suggestion
    query and shows nothing; given a shorter text it shows the error
    banner of [fetch_bills], the SQL text and "No Bills found matching
    your criteria.". *)
Theorem bills_viewer_raises_on_a_search_without_tables (qs : sorter) (db : database)
    (lb : string) (form : viewer_form) :
  lb ∈ legislative_bodies -> bills db = None -> questions db = None ->
  (2 <= Text.len (vf_raw_search_query form) ->
   exists e, render_bills_viewer qs db lb form = inl e)
  /\ (Text.len (vf_raw_search_query form) < 2 ->
      exists e,
        render_bills_viewer qs db lb form
        = inr (db, [],
               [st_info "No suggestions found or start typing (min 2 characters).";
                st_error ("Database Query Failed in fetch_bills. Error: " +:+ error_msg e);
                st_code (fetch_bills_sql (vf_raw_search_query form));
                st_warning "No Bills found matching your criteria."])).
Proof.
  intros Hlb%contains_Bill_legislative_bodies Hb Hq. split; intros Hlen.
  - unfold render_bills_viewer, fetch_search_suggestions, suggestions_query.
    rewrite Hlb, Hq.
    assert (negb (Text.truthy (vf_raw_search_query form))
            || (Text.len (vf_raw_search_query form) <? 2)%nat = false) as ->.
    { apply orb_false_iff. split; [|apply Nat.ltb_ge; lia].
      destruct (vf_raw_search_query form); simpl in *; [lia|done]. }
    by eexists.
  - unfold render_bills_viewer, fetch_search_suggestions.
    assert (negb (Text.truthy (vf_raw_search_query form))
            || (Text.len (vf_raw_search_query form) <? 2)%nat = true) as ->.
    { apply orb_true_iff. right. apply Nat.ltb_lt. lia. }
    simpl. unfold fetch_bills, fetch_bills_query. rewrite Hb. simpl.
    by exists (OperationalError "no such table: bills").
Qed.

(** ** [run.py]: the session *)

Lemma is_admin_page_route (a : bool) (p : string) : is_admin_page (route a p) = a.
Proof. unfold route. destruct a; repeat case_match; done. Qed.

Lemma script_pass_authenticated (s : session_state) (w : widgets) :
  exists a,
    authenticated (script_pass s w).1 = Some a
    /\ (forall shown, (script_pass s w).2 = Some shown -> is_admin_page shown = a)
    /\ (a = true ->
        authenticated s = Some true
        \/ w_login w = true /\ w_password w = ADMIN_PASSWORD)
    /\ (authenticated s = Some true -> w_logout w = true -> a = false)
    /\ ((script_pass s w).2 = None ->
        page (script_pass s w).1 = page s
        /\ (a = true -> w_login w = true /\ w_password w = ADMIN_PASSWORD)).
Proof.
  unfold script_pass.
  destruct (authenticated s) as [[]|]; simpl.
  - destruct (w_logout w); simpl.
    + exists false. split_and!; try done.
    + exists true. split_and!; try done; [|by left].
      intros shown [= <-].
        first [apply (is_admin_page_route true)|apply (is_admin_page_route false)].
  - destruct (w_login w); simpl.
    + destruct (String.eqb_spec (w_password w) ADMIN_PASSWORD); simpl.
      * exists true. split_and!; try done. by right.
      * exists false. split_and!; try done. intros shown [= <-].
        first [apply (is_admin_page_route true)|apply (is_admin_page_route false)].
    + exists false. split_and!; try done. intros shown [= <-].
        first [apply (is_admin_page_route true)|apply (is_admin_page_route false)].
  - destruct (w_login w); simpl.
    + destruct (String.eqb_spec (w_password w) ADMIN_PASSWORD); simpl.
      * exists true. split_and!; try done. by right.
      * exists false. split_and!; try done. intros shown [= <-].
        first [apply (is_admin_page_route true)|apply (is_admin_page_route false)].
    + exists false. split_and!; try done. intros shown [= <-].
        first [apply (is_admin_page_route true)|apply (is_admin_page_route false)].
Qed.

Lemma script_pass_no_click (s : session_state) :
  exists shown,
    script_pass s no_click
    = ({| authenticated := Some (default false (authenticated s));
          page := Some (default "home" (page s)) |}, Some shown)
    /\ is_admin_page shown = default false (authenticated s).
Proof.
  unfold script_pass. simpl.
  destruct (authenticated s) as [[]|]; simpl; eexists; (split; [reflexivity|]);
    first [apply (is_admin_page_route true)|apply (is_admin_page_route false)].
Qed.

(** X18.  The admin pages are behind the password: after any run of the
    script, an admin page (metadata, bills and questions, current
    affairs, or the dashboard) is shown exactly when the session is
    authenticated, so no viewer is shown to a logged-in administrator and
    no admin page to anyone else; and a session that was not
    authenticated before the run is authenticated after it only if Login
    was pressed with the password "admin".  Pressing Logout ends the
    authentication. *)
Theorem admin_pages_need_the_password (s : session_state) (w : widgets) :
  (is_admin_page (run_script s w).2 = true <-> authenticated (run_script s w).1 = Some true)
  /\ (authenticated (run_script s w).1 = Some true ->
      authenticated s = Some true \/ w_login w = true /\ w_password w = "admin")
  /\ (authenticated s = Some true -> w_logout w = true ->
      authenticated (run_script s w).1 = Some false).
Proof.
  unfold run_script.
  destruct (script_pass_authenticated s w) as (a & Ha & Hshown & Hwhy & Hout & Hrerun).
  destruct (script_pass s w) as [s' [shown|]] eqn:E; simpl in *.
  - rewrite Ha, (Hshown shown eq_refl). split_and!.
    + split; [by intros ->|by intros [= ->]].
    + intros [= ->]. auto.
    + intros H1 H2. by rewrite (Hout H1 H2).
  - destruct (script_pass_no_click s') as (shown & -> & Hadmin). simpl.
    rewrite Ha in *. simpl in *. rewrite Hadmin. split_and!.
    + split; [by intros ->|by intros [= ->]].
    + intros [= ->]. right. by apply Hrerun.
    + intros H1 H2. by rewrite (Hout H1 H2).
Qed.

Lemma page_not_rajya_sabha_button (pressed : bool) (target : string) (p : option string) :
  target <> "rajya_sabha" -> p <> Some "rajya_sabha" ->
  button_sets pressed target p <> Some "rajya_sabha".
Proof. intros Ht Hp. destruct pressed; simpl; congruence. Qed.

Lemma route_rajya_sabha (a : bool) (p : string) :
  route a p = bills_viewer "Rajya Sabha" -> p = "rajya_sabha".
Proof.
  unfold route. destruct a; repeat case_match; try done. intros _. by apply String.eqb_eq.
Qed.

Lemma script_pass_not_rajya_sabha (s : session_state) (w : widgets) :
  page s <> Some "rajya_sabha" ->
  page (script_pass s w).1 <> Some "rajya_sabha"
  /\ (script_pass s w).2 <> Some (bills_viewer "Rajya Sabha").
Proof.
  intros Hp. unfold script_pass.
  destruct (if negb _ then _ else _) as [a rerun]. destruct rerun; simpl; [done|].
  set (menu := if a then _ else page s).
  assert (menu <> Some "rajya_sabha") as Hmenu.
  { unfold menu. destruct a; [|done].
    repeat apply page_not_rajya_sabha_button; done. }
  set (navigated := default "home" _).
  assert (navigated <> "rajya_sabha") as Hnav.
  { assert (Some navigated <> Some "rajya_sabha"); [|congruence].
    unfold navigated.
    destruct (w_nav_ca w), (w_nav_sa w), (w_nav_qn w), (w_nav_ls w); simpl; try done.
    destruct menu as [p|]; simpl; congruence. }
  split; [congruence|]. intros [= E]. by apply route_rajya_sabha in E.
Qed.

(** X19.  No button sets the page to 'rajya_sabha': the homepage has
    buttons for Lok Sabha, Questions, State Assemblies and Current
    Affairs only.  So in no session, after no sequence of runs, does the
    router reach its branch [render_bills_viewer('Rajya Sabha')]: the
    Rajya Sabha bills the administrator creates are listed on no public
    page. *)
Theorem rajya_sabha_bills_viewer_is_never_shown (s : session_state) (w : widgets) :
  session_reachable s -> (run_script s w).2 <> bills_viewer "Rajya Sabha".
Proof.
  intros Hs.
  assert (forall s w, page s <> Some "rajya_sabha" ->
            page (run_script s w).1 <> Some "rajya_sabha"
            /\ (run_script s w).2 <> bills_viewer "Rajya Sabha") as Hrun.
  { clear. intros s w Hp. unfold run_script.
    destruct (script_pass_not_rajya_sabha s w Hp) as [H1 H2].
    destruct (script_pass s w) as [s' [shown|]]; simpl in *; [split; congruence|].
    destruct (script_pass_not_rajya_sabha s' no_click H1) as [H3 H4].
    destruct (script_pass s' no_click) as [s'' [shown|]]; simpl in *; split; congruence. }
  apply Hrun. revert s Hs. apply rtc_ind_r; [done|].
  intros s1 s2 _ [w' <-] IH. by apply Hrun.
Qed.

(** ** [ai_services.py] *)

(** X20.  [get_ai_summary] shows a summary only as the reply of the
    model to the whole text of the document: whenever a summary is among
    its banners, the path given is not empty and exists, the PDF could be
    read, its text (the pages joined, a page without text counting as
    empty) has at least 100 characters as [len] counts them, the
    environment gives a key that
    is neither empty nor the placeholder, and the summary is the response
    of [generate_content] for that key, the model 'gemini-2.5-flash', the
    system prompt and the user prompt ending in that text, uncut. *)
Theorem ai_summary_is_the_reply_to_the_whole_text (o : outside) (pdf_path : option string)
    (summary : string) :
  st_info summary ∈ get_ai_summary o pdf_path ->
  exists path pages key,
    pdf_path = Some path /\ path <> "" /\ os_path_exists o path = true
    /\ pdf_pages o path = inr pages
    /\ 100 <= Text.len (fold_left (fun text page => text +:+ default "" page) pages "")
    /\ environ_GEMINI_API_KEY o = Some key /\ key <> "" /\ key <> key_placeholder
    /\ generate_content o key "gemini-2.5-flash" system_prompt
         (user_prompt (fold_left (fun text page => text +:+ default "" page) pages ""))
       = response_text summary.
Proof.
  unfold get_ai_summary, extract_text_from_pdf, no_pdf, too_short.
  destruct pdf_path as [path|]; [|by intros [?|?%elem_of_nil]%elem_of_cons].
  destruct (Text.truthy path) eqn:Hpath; simpl;
    [|by intros [?|?%elem_of_nil]%elem_of_cons].
  destruct (os_path_exists o path) eqn:Hexists; simpl;
    [|by intros [?|?%elem_of_nil]%elem_of_cons].
  destruct (pdf_pages o path) as [e|pages] eqn:Hpages; simpl.
  { intros [?|[?|?%elem_of_nil]%elem_of_cons]%elem_of_cons; done. }
  destruct (Text.truthy (fold_left _ _ _)) eqn:Htext; simpl;
    [|by intros [?|?%elem_of_nil]%elem_of_cons].
  destruct (Text.len _ <? 100)%nat eqn:Hlen; simpl;
    [by intros [?|?%elem_of_nil]%elem_of_cons|].
  apply Nat.ltb_ge in Hlen.
  destruct (String.eqb_spec (GEMINI_API_KEY (environ_GEMINI_API_KEY o)) key_placeholder)
    as [Hkey|Hkey]; simpl; [by intros [?|?%elem_of_nil]%elem_of_cons|].
  destruct (Text.truthy (GEMINI_API_KEY _)) eqn:Htruthy; simpl;
    [|by intros [?|?%elem_of_nil]%elem_of_cons].
  destruct (generate_content o _ _ _ _) as [text|e|e] eqn:Hreply; simpl.
  2,3: by intros [?|?%elem_of_nil]%elem_of_cons.
  intros [[= <-]|[?|?%elem_of_nil]%elem_of_cons]%elem_of_cons; [|done|done].
  unfold GEMINI_API_KEY in *.
  destruct (environ_GEMINI_API_KEY o) as [key|]; [|done].
  destruct (Text.truthy key) eqn:Hk; [|done].
  exists path, pages, key. apply truthy_ne in Hpath, Hk. split_and!; done.
Qed.

(** ** The creation forms, and what the viewers list *)

(** X21.  A run of the bill form stores nothing, or exactly one new row
    at the end of [bills]: and it stores one only when the form was
    submitted and, if a PDF was uploaded, the PDF could be written.  The
    new row has the next id of the table, the name typed, and a code no
    stored bill has (a code drawn a second time is refused, not drawn
    again).  The same holds of the question form and [questions]. *)
Theorem creation_forms_store_one_new_row_or_nothing (db : database) (body : string)
    (env : environment) :
  (forall form,
     after db (render_bill_form db body form env) = db
     \/ bf_submitted form = true
        /\ (bf_pdf form <> None -> disk_ok env = true)
        /\ exists t b,
             bills db = Some t
             /\ after db (render_bill_form db body form env)
                = set_bills db {| rows := rows t ++ [b]; sqlite_sequence := next_id t |}
             /\ bill_id b = next_id t
             /\ bill_name b = bf_bill_name form
             /\ bill_code b ∉ (bill_code <$> rows t))
  /\ (forall form,
        after db (render_question_form db body form env) = db
        \/ qf_submitted form = true
           /\ (qf_pdf form <> None -> disk_ok env = true)
           /\ exists t q,
                questions db = Some t
                /\ after db (render_question_form db body form env)
                   = set_questions db
                       {| rows := rows t ++ [q]; sqlite_sequence := next_id t |}
                /\ question_id q = next_id t
                /\ question_title q = qf_question_title form
                /\ question_code q ∉ (question_code <$> rows t)).
Proof.
  split; intros form.
  - destruct (render_bill_form db body form env) as [|[db' said]] eqn:E; simpl; [by left|].
    apply render_bill_form_values in E
      as [->|(t & b & Ht & -> & Hsub & Hpdf & Hfresh & Hname & _ & _ & _ & _ & Hid)];
      [by left|].
    right. split_and!; try done. by exists t, b.
  - destruct (render_question_form db body form env) as [|[db' said]] eqn:E; simpl;
      [by left|].
    apply render_question_form_values in E
      as [->|(t & q & Ht & -> & Hsub & Hpdf & Hfresh & Hname & _ & _ & _ & Hid)];
      [by left|].
    right. split_and!; try done. by exists t, q.
Qed.

Lemma df_empty_fetch_bills db lb q :
  df_empty (fetch_bills db lb q).1 = true -> df_rows (fetch_bills db lb q).1 = [].
Proof.
  unfold fetch_bills. destruct (fetch_bills_query db lb q) as [|l]; simpl; [done|].
  unfold df_empty. simpl. by destruct l.
Qed.

Lemma df_empty_fetch_questions db lb q :
  df_empty (fetch_questions db lb q).1 = true -> df_rows (fetch_questions db lb q).1 = [].
Proof.
  unfold fetch_questions. destruct (fetch_questions_query db lb q) as [|l]; simpl; [done|].
  unfold df_empty. simpl. by destruct l.
Qed.

Lemma sort_bills_Permutation (qs : sorter) (sort_by : string) (df : list bill_view) :
  sorter_ok qs -> sort_bills qs sort_by df ≡ₚ df.
Proof.
  intros Hok. unfold sort_bills. repeat case_match; try done; by apply sort_values_Permutation.
Qed.

Lemma sort_questions_Permutation (qs : sorter) (sort_by : string) (df : list question_view) :
  sorter_ok qs -> sort_questions qs sort_by df ≡ₚ df.
Proof.
  intros Hok. unfold sort_questions.
  repeat case_match; try done; by apply sort_values_Permutation.
Qed.

Lemma final_search_query_choice (suggestions : list string) (form : viewer_form)
    (no_suggestion : string) :
  (final_search_query suggestions form no_suggestion).1 = vf_raw_search_query form
  \/ (final_search_query suggestions form no_suggestion).1 ∈ suggestions.
Proof.
  unfold final_search_query. destruct suggestions as [|s l]; [by left|].
  destruct (Text.truthy _) eqn:E; simpl; [|by left]. right.
  pose proof (selectbox_elem_of "" (s :: l) (vf_suggestion form)) as [H|H]%elem_of_cons;
    [|done].
  by rewrite H in E.
Qed.

(** X22.  A viewer lists what the fetch returns, no more and no less:
    whatever sort stands behind [sort_values], when
    [render_bills_viewer] returns, the database is as it was, and the
    rows listed are, each once, the rows [fetch_bills] returns for the
    body of the page and the final search text, which is the text typed
    or one of the suggestions offered for it; likewise
    [render_questions_viewer] with [fetch_questions] and the body picked
    in its box. *)
Theorem viewers_list_what_the_fetch_returns (qs : sorter) (db : database) (form : viewer_form) :
  sorter_ok qs ->
  (forall lb db' shown said,
     render_bills_viewer qs db lb form = inr (db', shown, said) ->
     db' = db
     /\ exists l query,
          fetch_search_suggestions db lb (vf_raw_search_query form) = inr l
          /\ (query = vf_raw_search_query form \/ query ∈ l)
          /\ shown ≡ₚ df_rows (fetch_bills db lb query).1)
  /\ (forall db' shown said,
        render_questions_viewer qs db form = inr (db', shown, said) ->
        db' = db
        /\ exists l query,
             fetch_search_suggestions db (selectbox legislative_bodies (vf_body_type form))
               (vf_raw_search_query form) = inr l
             /\ (query = vf_raw_search_query form \/ query ∈ l)
             /\ shown ≡ₚ df_rows (fetch_questions db
                                   (selectbox legislative_bodies (vf_body_type form)) query).1).
Proof.
  intros Hok. split.
  - intros lb db' shown said. unfold render_bills_viewer.
    destruct (fetch_search_suggestions db lb _) as [|l] eqn:Hl; [done|]. simpl.
    pose proof (final_search_query_choice l form
                  "No suggestions found or start typing (min 2 characters).") as Hquery.
    destruct (final_search_query l form _) as [query said0]. simpl in Hquery.
    destruct (fetch_bills db lb query) as [df failed] eqn:Hf.
    destruct (df_empty df) eqn:He; intros [= <- <- <-]; (split; [done|]); exists l, query;
      (split; [done|]); (split; [done|]); rewrite Hf; simpl.
    + pose proof (df_empty_fetch_bills db lb query) as H. rewrite Hf in H. simpl in H.
      by rewrite (H He).
    + by apply sort_bills_Permutation.
  - intros db' shown said. unfold render_questions_viewer.
    destruct (fetch_search_suggestions db _ _) as [|l] eqn:Hl; [done|]. simpl.
    pose proof (final_search_query_choice l form "No suggestions found.") as Hquery.
    destruct (final_search_query l form _) as [query said0]. simpl in Hquery.
    destruct (fetch_questions db _ query) as [df failed] eqn:Hf.
    destruct (df_empty df) eqn:He; intros [= <- <- <-]; (split; [done|]); exists l, query;
      (split; [done|]); (split; [done|]); rewrite Hf; simpl.
    + pose proof (df_empty_fetch_questions db (selectbox legislative_bodies (vf_body_type form))
                    query) as H.
      rewrite Hf in H. simpl in H. by rewrite (H He).
    + by apply sort_questions_Permutation.
Qed.

End properties.

(** * The sample, run

    The statements above at the sample history, with [ascii_case] for
    [str.lower] and [str.upper]: the sample and the queries put to it hold
    ASCII text only, on which every [str_case] is [ascii_case]. *)

#[local] Existing Instance ascii_case.

Example sample_codes :
  bill_code <$> default [] (rows <$> bills sample_db)
  = ["BL-FN-1234"; "BL-FN-4321"; "KA-FN-9999"]
  /\ question_code <$> default [] (rows <$> questions sample_db)
     = ["QN-FN-1000"; "QN-FN-1001"; "QN-FN-1002"; "QN-FN-1003"; "QN-FN-1004"].
Proof. by vm_compute. Qed.

Example sample_search :
  df_rows (fetch_bills sample_db "Lok Sabha" "finance").1 = [sample_bill_view].
Proof. by vm_compute. Qed.

(** C9 at the sample: with the ministry row deleted no fetch returns the
    first bill; with the state row deleted the State Assembly bill is
    still returned, its state name null. *)
Lemma fetch_join_witness :
  Forall (fun v => bv_bill v <> bv_bill sample_bill_view)
    (df_rows (fetch_bills orphan_db "Lok Sabha" "").1)
  /\ (exists b m,
        bills stateless_db ≫= (fun t => rows t !! 2) = Some b
        /\ bill_state_code b = Some "KA"
        /\ {| bv_bill := b; bv_ministry_name := meta_name m; bv_state_name := None |}
             ∈ df_rows (fetch_bills stateless_db (bill_legislative_body b) "").1).
Proof.
  split.
  - apply Forall_forall. intros v Hv.
    pose proof (fun bs qs ms ss Hb Hq Hm Hs =>
                  proj1 (proj2 (fetch_inner_join_ministry_left_join_state orphan_db
                                  bs qs ms ss "Lok Sabha" "" Hb Hq Hm Hs))) as Horphan.
    eapply Horphan; [vm_compute; reflexivity..| | |exact Hv].
    + vm_compute. left.
    + by intros m ?%elem_of_nil.
  - eexists _, {| meta_id := 1; meta_code := "FN"; meta_name := "Finance" |}.
    split; [vm_compute; reflexivity|]. split; [reflexivity|].
    pose proof (fun bs qs ms ss Hb Hq Hm Hs =>
                  proj1 (proj2 (proj2 (fetch_inner_join_ministry_left_join_state stateless_db
                                         bs qs ms ss "State Assembly" "" Hb Hq Hm Hs))))
      as Hstateless.
    eapply Hstateless; [vm_compute; reflexivity..| | | |].
    + vm_compute. right. right. left.
    + vm_compute. left.
    + reflexivity.
    + by intros s ?%elem_of_nil.
Defined.

(** C5 at the sample: the query [REFORM] finds the bill named Finance
    Reform Act. *)
Lemma search_is_substring_witness :
  sample_bill_view ∈ df_rows (fetch_bills sample_db "Lok Sabha" "REFORM").1.
Proof.
  eapply (proj1 (search_is_substring_of_code_name_or_ministry sample_db _ _ _ _
                   "Lok Sabha" "REFORM" _ _ _ _ _)).
  Unshelve. 6-10: vm_compute; reflexivity.
  split.
  - split_and!.
    + vm_compute. left.
    + reflexivity.
    + eexists. split; [left|]. split; reflexivity.
    + vm_compute. left.
  - right. left. by exists "finance ", " act".
Defined.

(** C5, the counterexample.  A query of one blank is whitespace only, yet
    it returns none of the Rajya Sabha bills although there is one; and
    the query [f_n] returns that bill although [f_n] occurs in none of its
    three lower-cased fields. *)
Lemma whitespace_query_matches_nothing :
  Text.whitespace_only " " = true
  /\ bill_code ∘ bv_bill <$> df_rows (fetch_bills sample_db "Rajya Sabha" "").1 = ["BL-FN-4321"]
  /\ df_rows (fetch_bills sample_db "Rajya Sabha" " ").1 = []
  /\ (fun v => (Text.lower (bill_code (bv_bill v)), Text.lower (bill_name (bv_bill v)),
                Text.lower (bv_ministry_name v)))
       <$> df_rows (fetch_bills sample_db "Rajya Sabha" "f_n").1
     = [("bl-fn-4321", "budget", "finance")]
  /\ Text.contains "f_n" "bl-fn-4321" = false
  /\ Text.contains "f_n" "budget" = false
  /\ Text.contains "f_n" "finance" = false.
Proof. by vm_compute. Qed.

(** C10 at a new file, where the query fails for want of a table, and at
    the sample, where it runs and matches nothing. *)
Lemma fetch_swallows_query_failure_witness :
  ((fetch_bills new_file "Lok Sabha" "tax").1 = pd_DataFrame
   /\ df_rows (fetch_bills new_file "Lok Sabha" "tax").1 = []
   /\ df_empty (fetch_bills new_file "Lok Sabha" "tax").1 = true
   /\ Exists (fun b => is_error b = true) (fetch_bills new_file "Lok Sabha" "tax").2)
  /\ (df_rows (fetch_bills sample_db "Lok Sabha" "tax").1 = []
      /\ df_empty (fetch_bills sample_db "Lok Sabha" "tax").1 = true).
Proof.
  split.
  - apply (proj1 (fetch_swallows_query_failure new_file "Lok Sabha" "tax"
                    (OperationalError "no such table: bills"))).
    reflexivity.
  - apply (proj1 (proj2 (fetch_swallows_query_failure sample_db "Lok Sabha" "tax"
                           (OperationalError "")))).
    reflexivity.
Defined.

(** C2 at the sample: question 77 is not stored. *)
Lemma delete_of_absent_id_witness :
  delete_record sample_db "questions" (Some 77%N) "QN-FN-7777"
  = (sample_db, [st_success "Record QN-FN-7777 deleted successfully from questions. Refreshing..."]).
Proof.
  eapply (proj1 (delete_or_update_of_absent_id_reports_success sample_db Questions _ 77
                   "QN-FN-7777" _ _)).
  Unshelve.
  - exact [1; 2; 3; 4; 5]%N.
  - reflexivity.
  - vm_compute. intros H. repeat (apply elem_of_cons in H as [H|H]; [done|]). by apply elem_of_nil in H.
Defined.

(** C2, the counterexample.  Bill 77 is not stored, yet deleting it and
    updating its status show a success banner and no error; and after bill
    1 was deleted, deleting it again shows the same success banner. *)
Lemma delete_of_absent_id_is_no_error :
  table_ids sample_db Bills = Some [1; 2; 3]%N
  /\ delete_record sample_db "bills" (Some 77%N) "BL-FN-7777"
     = (sample_db,
        [st_success "Record BL-FN-7777 deleted successfully from bills. Refreshing..."])
  /\ submit_update sample_db true "Passed" (Some "Yes") 77 "BL-FN-7777"
     = (sample_db, [st_success "Record BL-FN-7777 updated successfully! Refreshing..."])
  /\ (delete_record sample_db "bills" (Some 1%N) "BL-FN-1234").2
     = [st_success "Record BL-FN-1234 deleted successfully from bills. Refreshing..."]
  /\ (delete_record (delete_record sample_db "bills" (Some 1%N) "BL-FN-1234").1
        "bills" (Some 1%N) "BL-FN-1234").2
     = [st_success "Record BL-FN-1234 deleted successfully from bills. Refreshing..."].
Proof. by vm_compute. Qed.

Lemma reachable_sample_db : reachable sample_db.
Proof.
  unfold reachable, sample_db, sample_9, sample_8, sample_7, sample_6, sample_5, sample_4,
    sample_3, sample_2, sample_1, sample_0.
  repeat (eapply rtc_r;
          [|first [ apply step_create_question
                  | apply step_create_bill
                  | apply step_add_state
                  | apply step_add_ministry
                  | apply step_initialize ]]).
  apply rtc_refl.
Qed.

(** C1 at the sample: the State Assembly bill made in a run in which the
    generator gave 8999, so that [random.randint(1000, 9999)] gave 9999. *)
Lemma generated_code_witness :
  random_randint (drawn 9999) 1000 9999 = 9999%Z
  /\ exists b,
       bills sample_5 ≫= (fun t => last (rows t)) = Some b
       /\ bill_code b = "KA-FN-9999"
       /\ exists mc n,
            bill_ministry_code b = Some mc
            /\ (exists ms m, ministries sample_4 = Some ms /\ m ∈ rows ms /\ meta_code m = mc)
            /\ n = random_randint (drawn 9999) 1000 9999
            /\ (1000 <= n <= 9999)%Z
            /\ String.length (Text.str_int n) = 4 /\ Text.all_digits (Text.str_int n) = true
            /\ exists sc, bill_state_code b = Some sc
                          /\ (exists ss s, states sample_4 = Some ss /\ s ∈ rows ss
                                           /\ meta_code s = sc)
                          /\ bill_code b = sc +:+ "-" +:+ mc +:+ "-" +:+ Text.str_int n.
Proof.
  split; [reflexivity|].
  eexists. split; [vm_compute; reflexivity|]. split; [reflexivity|].
  eapply (proj1 (generated_code_has_the_specified_shape sample_4 sample_5 "State Assembly"
                   (drawn 9999) _)
            (sample_bill_form "Water Act" "2024-01-04")).
  - vm_compute. reflexivity.
  - vm_compute. reflexivity.
  - vm_compute. reflexivity.
  - vm_compute. reflexivity.
Defined.

(** C6 at the sample: the Rajya Sabha bill was made with the Money Bill
    box ticked and is stored as no money bill. *)
Lemma rajya_sabha_bill_witness :
  bf_money_bill (sample_bill_form "Budget" "2024-01-03") = true
  /\ exists b,
       bills sample_db ≫= (fun t => rows t !! 1) = Some b
       /\ bill_legislative_body b = "Rajya Sabha"
       /\ bill_is_money_bill b = false.
Proof.
  split; [reflexivity|]. eexists. split; [vm_compute; reflexivity|]. split; [reflexivity|].
  eapply (proj2 rajya_sabha_bill_is_never_a_money_bill sample_db).
  - apply reachable_sample_db.
  - vm_compute. reflexivity.
  - right. left.
  - reflexivity.
Defined.

(** C3 at the sample: the query [q1] on the Lok Sabha questions. *)
Lemma suggestions_witness :
  exists suggestions,
    fetch_search_suggestions sample_db "Lok Sabha" "q1" = inr suggestions
    /\ suggestions = ["Finance"; "Q1"; "QN-FN-1000"]
    /\ length suggestions <= 30
    /\ StronglySorted str_lt suggestions
    /\ NoDup suggestions.
Proof.
  destruct (proj2 (suggestions_are_sorted_distinct_and_at_most_thirty sample_db
                     "Lok Sabha" "q1"))
    as (l & Hl & Hlen & Hsorted & Hnd & _); [eexists; vm_compute; reflexivity..|].
  exists l. split; [exact Hl|]. split; [|split; [exact Hlen|split; [exact Hsorted|exact Hnd]]].
  vm_compute in Hl. injection Hl as <-. reflexivity.
Defined.

(** C3, the counterexample.  With five Lok Sabha questions of one ministry
    stored, the query [fi] returns eleven suggestions, not ten or fewer. *)
Lemma more_than_ten_suggestions :
  fetch_search_suggestions sample_db "Lok Sabha" "fi"
  = inr ["Finance"; "Q1"; "Q2"; "Q3"; "Q4"; "Q5"; "QN-FN-1000"; "QN-FN-1001"; "QN-FN-1002";
         "QN-FN-1003"; "QN-FN-1004"]
  /\ length ["Finance"; "Q1"; "Q2"; "Q3"; "Q4"; "Q5"; "QN-FN-1000"; "QN-FN-1001";
             "QN-FN-1002"; "QN-FN-1003"; "QN-FN-1004"] = 11.
Proof. by vm_compute. Qed.

(** C4 at the sample, with a stable sort behind [sort_values]: the two
    Not Answered questions in the order of the fetch, then the three
    Answered ones in the order of the fetch. *)
Lemma status_sort_witness :
  StronglySorted
    (fun a b => question_status_place (question_current_status (qv_question a))
                <= question_status_place (question_current_status (qv_question b)))
    (sort_questions insertion_sorter "Status"
       (df_rows (fetch_questions sample_db "Lok Sabha" "").1))
  /\ (fun v => question_title (qv_question v))
       <$> df_rows (fetch_questions sample_db "Lok Sabha" "").1
     = ["Q5"; "Q4"; "Q3"; "Q2"; "Q1"]
  /\ (fun v => question_title (qv_question v))
       <$> sort_questions insertion_sorter "Status"
             (df_rows (fetch_questions sample_db "Lok Sabha" "").1)
     = ["Q4"; "Q2"; "Q5"; "Q3"; "Q1"].
Proof.
  pose proof (status_sort_follows_the_listed_order insertion_sorter insertion_sorter_ok)
    as (_ & Hq & _ & _ & Hstable).
  split; [apply Hq|]. split; [vm_compute; reflexivity|].
  rewrite (proj2 (Hstable insertion_sorter_stable)). vm_compute. reflexivity.
Defined.

(** C4, the counterexample.  The Lok Sabha questions are fetched newest
    first, Q5 to Q1, with statuses Answered, Not Answered, Answered, Not
    Answered, Answered.  Whatever sort stands behind [sort_values], the
    status sort of the viewer lists the two Not Answered questions first
    and the three Answered ones after them. *)
Lemma status_sort_puts_not_answered_first :
  (fun v => (question_title (qv_question v), question_current_status (qv_question v)))
    <$> df_rows (fetch_questions sample_db "Lok Sabha" "").1
  = [("Q5", "Answered"); ("Q4", "Not Answered"); ("Q3", "Answered");
     ("Q2", "Not Answered"); ("Q1", "Answered")]
  /\ (forall qs,
        sorter_ok qs ->
        (fun v => question_current_status (qv_question v))
          <$> sort_questions qs "Status" (df_rows (fetch_questions sample_db "Lok Sabha" "").1)
        = ["Not Answered"; "Not Answered"; "Answered"; "Answered"; "Answered"]).
Proof.
  split; [by vm_compute|]. intros qs Hok.
  destruct (sort_questions_by_status qs (df_rows (fetch_questions sample_db "Lok Sabha" "").1)
              Hok) as [Hperm Hsorted].
  set (place := fun v => question_status_place (question_current_status (qv_question v))).
  assert (place <$> sort_questions qs "Status"
                      (df_rows (fetch_questions sample_db "Lok Sabha" "").1)
          = [0; 0; 1; 1; 1]) as Hplaces.
  { apply (StronglySorted_unique le).
    - by apply (StronglySorted_fmap place
                  (fun a b => question_status_place (question_current_status (qv_question a))
                              <= question_status_place
                                   (question_current_status (qv_question b)))).
    - repeat constructor.
    - rewrite Hperm. apply (bool_decide_unpack _). by vm_compute. }
  destruct (sort_questions qs "Status" _) as [|a [|b [|c [|d [|e [|]]]]]]; try done.
  injection Hplaces as Ha Hb Hc Hd He. unfold place in *.
  apply question_status_of_place in Ha, Hb. apply question_status_of_place in Hc, Hd, He.
  simpl. by rewrite Ha, Hb, Hc, Hd, He.
Qed.

Lemma sample_db_after_setup : rtc step (initialize_database new_file) sample_db.
Proof.
  unfold sample_db, sample_9, sample_8, sample_7, sample_6, sample_5, sample_4,
    sample_3, sample_2, sample_1, sample_0.
  repeat (eapply rtc_r;
          [|first [ apply step_create_question
                  | apply step_create_bill
                  | apply step_add_state
                  | apply step_add_ministry ]]).
  apply rtc_refl.
Qed.

Lemma rerunning_the_setup_script_witness :
  initialize_database sample_db = sample_db /\ check_database_exists sample_db = true.
Proof.
  apply (rerunning_the_setup_script_changes_nothing new_file sample_db).
  apply sample_db_after_setup.
Defined.

Lemma fetch_metadata_witness :
  exists t d,
    ministries sample_db = Some t
    /\ fetch_metadata sample_db "ministries" = inr d
    /\ Dict.get d "Finance" = Some "FN"
    /\ Dict.keys d ≡ₚ meta_name <$> rows t.
Proof.
  assert (exists t, ministries sample_db = Some t
                    /\ {| meta_id := 1; meta_code := "FN"; meta_name := "Finance" |} ∈ rows t)
    as (t & Ht & Hrow).
  { eexists. split; [vm_compute; reflexivity|]. left. }
  destruct (proj1 (proj2 (store_ok_reachable _ reachable_sample_db)) t Ht)
    as (_ & _ & Hnd & _).
  destruct (fetch_metadata_maps_each_name_to_its_code sample_db "ministries" t
              (or_introl (conj eq_refl Ht)) Hnd) as (d & Hd & Hget & Hkeys & _).
  exists t, d. split; [exact Ht|]. split; [exact Hd|]. split; [|exact Hkeys].
  apply Hget. eexists. split; [exact Hrow|]. split; reflexivity.
Defined.

Lemma metadata_codes_witness :
  exists t,
    states sample_db = Some t
    /\ meta_code <$> rows t = ["KA"]
    /\ NoDup (meta_code <$> rows t)
    /\ NoDup (meta_name <$> rows t)
    /\ Forall (fun r => (exists typed, meta_code r = str_upper typed /\ typed <> ""
                                       /\ Text.len typed <= 2)
                        /\ meta_name r <> "") (rows t).
Proof.
  assert (exists t, states sample_db = Some t /\ meta_code <$> rows t = ["KA"])
    as (t & Ht & Hcodes) by (eexists; split; vm_compute; reflexivity).
  exists t. split; [exact Ht|]. split; [exact Hcodes|].
  destruct (metadata_codes_are_upper_cased_and_unique sample_db t reachable_sample_db
              (or_intror Ht)) as (Hc & Hn & Hall & _).
  split; [exact Hc|]. split; [exact Hn|exact Hall].
Defined.

Lemma duplicate_metadata_witness :
  add_ministry sample_db {| mf_code := "fn"; mf_name := "Revenue"; mf_submitted := true |}
  = inr (sample_db, [st_error "Error: Ministry Code or Name already exists."]).
Proof.
  assert (exists t, ministries sample_db = Some t
                    /\ {| meta_id := 1; meta_code := "FN"; meta_name := "Finance" |} ∈ rows t)
    as (t & Ht & Hrow).
  { eexists. split; [vm_compute; reflexivity|]. left. }
  apply (duplicate_metadata_is_rejected sample_db Ministries "Ministry" _ t).
  - exact Ht.
  - reflexivity.
  - discriminate.
  - discriminate.
  - eexists. split; [exact Hrow|]. left. reflexivity.
Defined.

Lemma added_metadata_witness :
  exists d,
    fetch_metadata sample_1 "ministries" = inr d
    /\ Dict.get d "Finance" = Some "FN"
    /\ "Finance" ∈ Dict.keys d.
Proof.
  assert (add_metadata sample_0 Ministries "Ministry"
            {| mf_code := "fn"; mf_name := "Finance"; mf_submitted := true |}
          = inr (sample_1, [st_success "Ministry 'Finance' (FN) added successfully!"])) as Hrun
    by (vm_compute; reflexivity).
  assert (sample_1 <> sample_0) as Hne.
  { intros E. apply (f_equal ministries) in E. vm_compute in E. discriminate. }
  exact (added_metadata_is_found_by_name sample_0 sample_1 Ministries "Ministry"
           {| mf_code := "fn"; mf_name := "Finance"; mf_submitted := true |}
           [st_success "Ministry 'Finance' (FN) added successfully!"] Hrun Hne).
Defined.

Lemma reachable_sample_ca_db : reachable sample_ca_db.
Proof. eapply rtc_r; [apply reachable_sample_db|]. apply step_manage_ca. Qed.

(** C7 at the sample: the State Assembly bill was made with Karnataka
    picked in the state box and stores the code of Karnataka. *)
Lemma state_code_witness :
  selected_name sample_4 "states" select_state
    (bf_state (sample_bill_form "Water Act" "2024-01-04")) = "Karnataka"
  /\ (exists b,
        bills sample_5 ≫= (fun t => last (rows t)) = Some b
        /\ bill_state_code b = Some "KA"
        /\ exists ss s, states sample_4 = Some ss /\ s ∈ rows ss
                        /\ meta_name s
                           = selected_name sample_4 "states" select_state
                               (bf_state (sample_bill_form "Water Act" "2024-01-04"))
                        /\ bill_state_code b = Some (meta_code s))
  /\ bill_state_code ∘ bv_bill <$> df_rows (fetch_bills sample_db "State Assembly" "").1
     = [Some "KA"]
  /\ Forall (fun v => is_Some (bill_state_code (bv_bill v)) <-> "Lok Sabha" = "State Assembly")
       (df_rows (fetch_bills sample_db "Lok Sabha" "").1).
Proof.
  split; [vm_compute; reflexivity|]. split; [|split; [by vm_compute|]].
  - eexists. split; [vm_compute; reflexivity|]. split; [reflexivity|].
    edestruct (proj1 state_code_iff_state_assembly sample_4 sample_5 "State Assembly"
                 (sample_bill_form "Water Act" "2024-01-04") (drawn 9999))
      as (_ & _ & Hpicked); [vm_compute; reflexivity..|].
    exact (Hpicked eq_refl).
  - apply Forall_forall. intros v Hv.
    by eapply (proj1 (proj2 (proj2 (proj2 (proj2 state_code_iff_state_assembly) sample_db
                                                reachable_sample_db)))).
Defined.

Lemma record_codes_witness :
  exists t,
    bills sample_db = Some t
    /\ NoDup (bill_code <$> rows t) /\ NoDup (bill_id <$> rows t)
    /\ Forall (fun b => (bill_id b <= sqlite_sequence t)%N) (rows t).
Proof.
  assert (exists t, bills sample_db = Some t) as [t Ht]
    by (eexists; vm_compute; reflexivity).
  exists t. split; [exact Ht|].
  exact (proj1 (record_codes_and_ids_are_unique sample_db reachable_sample_db) t Ht).
Defined.

Lemma every_stored_record_witness :
  exists t,
    questions sample_db = Some t
    /\ qv_question <$> df_rows (fetch_questions sample_db "Lok Sabha" "").1
       ≡ₚ filter (fun q => question_legislative_body q = "Lok Sabha") (rows t).
Proof.
  assert (exists t, questions sample_db = Some t) as [t Ht]
    by (eexists; vm_compute; reflexivity).
  exists t. split; [exact Ht|].
  exact (proj2 (every_stored_record_is_listed_once sample_db "Lok Sabha" reachable_sample_db)
           t Ht).
Defined.


Lemma update_form_witness :
  Forall (fun v =>
            update_choice true (cols_of_bill v)
              {| ud_selected_code := 1; ud_delete_clicked := false; ud_new_status := 1;
                 ud_new_approval := 1; ud_update_submitted := true |}
            = inr ("Passed", Some "Yes"))
    (df_rows (fetch_bills sample_db "Lok Sabha" "").1).
Proof.
  apply Forall_forall.
  exact (proj1 (update_form_finds_the_stored_status sample_db "Lok Sabha"
                  {| ud_selected_code := 1; ud_delete_clicked := false; ud_new_status := 1;
                     ud_new_approval := 1; ud_update_submitted := true |}
                  reachable_sample_db)).
Defined.

Lemma published_current_affairs_witness :
  exists t r,
    current_affairs sample_ca_db = Some t /\ rows t = [r]
    /\ ca_pdf_path r = Some "pdfs/CA_Budget_session_opens_123.pdf"
    /\ Forall current_affair_ok (rows t).
Proof.
  assert (exists t r, current_affairs sample_ca_db = Some t /\ rows t = [r]
                      /\ ca_pdf_path r = Some "pdfs/CA_Budget_session_opens_123.pdf")
    as (t & r & Ht & Hrows & Hpdf).
  { eexists _, _. split; [vm_compute; reflexivity|]. split; reflexivity. }
  exists t, r. split; [exact Ht|]. split; [exact Hrows|]. split; [exact Hpdf|].
  exact (published_current_affairs_are_complete sample_ca_db t reachable_sample_ca_db Ht).
Defined.

Lemma deleted_record_witness :
  sample_bill_view ∈ df_rows (fetch_bills sample_db "Lok Sabha" "").1
  /\ sample_bill_view
     ∉ df_rows (fetch_bills (delete_record sample_db "bills" (Some 1%N) "BL-FN-1234").1
                  "Lok Sabha" "").1.
Proof.
  assert (exists tb, bills sample_db = Some tb) as [tb Hb]
    by (eexists; vm_compute; reflexivity).
  assert (exists tq, questions sample_db = Some tq) as [tq Hq]
    by (eexists; vm_compute; reflexivity).
  pose proof (proj2 (proj1 (deleted_record_is_in_no_later_listing sample_db 1 "BL-FN-1234"
                              tb tq Hb Hq)) "Lok Sabha" "" sample_bill_view) as H.
  split.
  - vm_compute. left.
  - intros Hin. apply H in Hin as [_ Hne]. by apply Hne.
Defined.

Lemma name_and_type_sorts_witness :
  sort_bills merge_sorter "Alphabetical (Bill Name)"
    (df_rows (fetch_bills sample_db "Lok Sabha" "").1)
  ≡ₚ df_rows (fetch_bills sample_db "Lok Sabha" "").1
  /\ StronglySorted (asc (fun v => bill_name (bv_bill v)))
       (sort_bills merge_sorter "Alphabetical (Bill Name)"
          (df_rows (fetch_bills sample_db "Lok Sabha" "").1)).
Proof.
  exact (proj1 (name_and_type_sorts_follow_the_text_order merge_sorter merge_sorter_ok)
           (df_rows (fetch_bills sample_db "Lok Sabha" "").1)).
Defined.

Lemma delete_button_witness :
  exists tb said,
    bills sample_db = Some tb
    /\ manage_bills sample_db "Lok Sabha"
         {| ud_selected_code := 1; ud_delete_clicked := true; ud_new_status := 0;
            ud_new_approval := 0; ud_update_submitted := false |}
       = inr (set_bills sample_db
                {| rows := filter (fun b => bill_code b <> "BL-FN-1234") (rows tb);
                   sqlite_sequence := sqlite_sequence tb |}, said).
Proof.
  assert (exists tb, bills sample_db = Some tb) as [tb Hb]
    by (eexists; vm_compute; reflexivity).
  assert (exists tq, questions sample_db = Some tq) as [tq Hq]
    by (eexists; vm_compute; reflexivity).
  assert (selected_bill_code sample_db "Lok Sabha"
            {| ud_selected_code := 1; ud_delete_clicked := true; ud_new_status := 0;
               ud_new_approval := 0; ud_update_submitted := false |} = "BL-FN-1234") as Hsel
    by (vm_compute; reflexivity).
  destruct (proj1 (delete_button_removes_the_record_picked sample_db "Lok Sabha"
                     {| ud_selected_code := 1; ud_delete_clicked := true; ud_new_status := 0;
                        ud_new_approval := 0; ud_update_submitted := false |}
                     tb tq reachable_sample_db Hb Hq eq_refl)) as (said & Hrun & _).
  { rewrite Hsel. discriminate. }
  rewrite Hsel in Hrun. exists tb, said. split; [exact Hb|exact Hrun].
Defined.

(** C8 at the sample: the first bill is picked in the tab, Passed and Yes
    are chosen and the form is submitted; the bill is re-fetched with the
    two new values and is the money bill it was. *)
Lemma update_status_witness :
  exists db' said,
    manage_bills sample_db "Lok Sabha"
      {| ud_selected_code := 1; ud_delete_clicked := false; ud_new_status := 1;
         ud_new_approval := 1; ud_update_submitted := true |} = inr (db', said)
    /\ (fun v => (bill_code (bv_bill v), bill_current_status (bv_bill v),
                  bill_approval_result (bv_bill v), bill_is_money_bill (bv_bill v)))
         <$> df_rows (fetch_bills sample_db "Lok Sabha" "").1
       = [("BL-FN-1234", "Pending", Some "Pending", true)]
    /\ (fun v => (bill_code (bv_bill v), bill_current_status (bv_bill v),
                  bill_approval_result (bv_bill v), bill_is_money_bill (bv_bill v)))
         <$> df_rows (fetch_bills db' "Lok Sabha" "").1
       = [("BL-FN-1234", "Passed", Some "Yes", true)].
Proof.
  assert (exists tb, bills sample_db = Some tb) as [tb Hb]
    by (eexists; vm_compute; reflexivity).
  assert (exists tq, questions sample_db = Some tq) as [tq Hq]
    by (eexists; vm_compute; reflexivity).
  assert (selected_bill_code sample_db "Lok Sabha"
            {| ud_selected_code := 1; ud_delete_clicked := false; ud_new_status := 1;
               ud_new_approval := 1; ud_update_submitted := true |} = "BL-FN-1234") as Hsel
    by (vm_compute; reflexivity).
  destruct (proj1 (update_status_changes_status_only sample_db "Lok Sabha"
                     {| ud_selected_code := 1; ud_delete_clicked := false;
                        ud_new_status := 1; ud_new_approval := 1;
                        ud_update_submitted := true |}
                     tb tq reachable_sample_db Hb Hq eq_refl eq_refl))
    as (db' & said & Hrun & _ & _ & _ & _ & _ & _ & _ & _ & Hfetch).
  { rewrite Hsel. discriminate. }
  exists db', said. split; [exact Hrun|]. split; [vm_compute; reflexivity|].
  rewrite Hfetch, Hsel. vm_compute. reflexivity.
Defined.

Lemma suggestions_witness_questions :
  fetch_search_suggestions sample_db "Lok Sabha" "q1"
  = fetch_search_suggestions (set_bills sample_db empty_table) "Lok Sabha" "q1"
  /\ fetch_search_suggestions sample_db "Lok Sabha" "q1" = inr ["Finance"; "Q1"; "QN-FN-1000"].
Proof.
  split; [|vm_compute; reflexivity].
  symmetry.
  apply (proj1 (suggestions_come_from_the_questions sample_db "Lok Sabha" "q1"
                  ltac:(by left))); reflexivity.
Defined.

Lemma bills_viewer_raises_witness :
  exists e,
    render_bills_viewer merge_sorter new_file "Lok Sabha"
      {| vf_body_type := 0; vf_raw_search_query := "tax"; vf_suggestion := 0;
         vf_sort_by := 0 |} = inl e.
Proof.
  apply (bills_viewer_raises_on_a_search_without_tables merge_sorter new_file "Lok Sabha").
  - left.
  - reflexivity.
  - reflexivity.
  - simpl. lia.
Defined.

Lemma rajya_sabha_bills_viewer_witness :
  (run_script new_session
     {| w_password := ""; w_login := false; w_logout := false; w_manage_metadata := false;
        w_manage_data := false; w_manage_ca := false; w_nav_ls := true; w_nav_qn := false;
        w_nav_sa := false; w_nav_ca := false |}).2 = bills_viewer "Lok Sabha"
  /\ (run_script new_session
        {| w_password := ""; w_login := false; w_logout := false; w_manage_metadata := false;
           w_manage_data := false; w_manage_ca := false; w_nav_ls := true; w_nav_qn := false;
           w_nav_sa := false; w_nav_ca := false |}).2 <> bills_viewer "Rajya Sabha".
Proof.
  split; [reflexivity|].
  apply (rajya_sabha_bills_viewer_is_never_shown new_session). apply rtc_refl.
Defined.

Lemma ai_summary_witness :
  exists pages,
    pdf_pages sample_outside "pdfs/BL-FN-1234_bill.pdf" = inr pages
    /\ generate_content sample_outside "k-123" "gemini-2.5-flash" system_prompt
         (user_prompt (fold_left (fun text page => text +:+ default "" page) pages ""))
       = response_text "Summary of 169 characters".
Proof.
  destruct (ai_summary_is_the_reply_to_the_whole_text sample_outside
              (Some "pdfs/BL-FN-1234_bill.pdf") "Summary of 169 characters")
    as (path & pages & key & [= <-] & _ & _ & Hpages & _ & [= <-] & _ & _ & Hreply).
  { vm_compute. left. }
  exists pages. split; [exact Hpages|exact Hreply].
Defined.

Lemma viewers_list_witness :
  exists shown said,
    render_bills_viewer merge_sorter sample_db "Lok Sabha"
      {| vf_body_type := 0; vf_raw_search_query := ""; vf_suggestion := 0; vf_sort_by := 2 |}
    = inr (sample_db, shown, said)
    /\ shown ≡ₚ df_rows (fetch_bills sample_db "Lok Sabha" "").1.
Proof.
  assert (exists shown said,
            render_bills_viewer merge_sorter sample_db "Lok Sabha"
              {| vf_body_type := 0; vf_raw_search_query := ""; vf_suggestion := 0;
                 vf_sort_by := 2 |} = inr (sample_db, shown, said)) as (shown & said & Hrun).
  { eexists _, _. vm_compute. reflexivity. }
  exists shown, said. split; [exact Hrun|].
  pose proof (proj1 (viewers_list_what_the_fetch_returns merge_sorter sample_db
                       {| vf_body_type := 0; vf_raw_search_query := ""; vf_suggestion := 0;
                          vf_sort_by := 2 |} merge_sorter_ok)
                "Lok Sabha" sample_db shown said Hrun)
    as (_ & l & query & Hl & Hquery & Hshown).
  assert (l = []) as -> by (vm_compute in Hl; by injection Hl as <-).
  destruct Hquery as [->|Hq].
  - exact Hshown.
  - exfalso. exact (proj1 (elem_of_nil _) Hq).
Defined.
